(** * jtlog: the ti2c sensor class and the jtlogc acquisition framework

    A shallow embedding of [ti2c.py] (class [tempsensor]) and of the
    task bodies of [jtlogc.py] ([sensorbackend], [datalogger],
    [sensorglobaltrigger], [sensorfrontend], [appconfig]), followed by
    the properties of the specification that concern them.

    Conventions.
    - Python integers are [Z]; Python floats are binary64 and are
      modelled by [PrimFloat.float], whose operations round exactly as
      the interpreter's do.  An attribute that holds an [int] at one
      time and a [float] at another has a type with both.
    - A byte string, and a Python [str] made of ASCII characters only,
      is a list of characters ([str]): there a character is a byte.  A
      [str] that may hold other characters is a [text]: [len] counts
      its characters, and a text file stores, seeks and tells in bytes.
    - In the sensor class a table lookup that raises [IndexError] yields
      [None]; in the tasks a raised exception is the outcome [Raised]
      and a [Queue.get] on an empty queue the outcome [Blocked].
    - What the clock, the C library and the bus return is an input of
      the function that consults them. *)

From Stdlib Require Import ZArith String Ascii List Bool Arith Lia.
From Stdlib Require Import PrimFloat Uint63.
From Stdlib Require Import DecimalString HexadecimalString.
Import ListNotations.

Set Warnings "-inexact-float".
Open Scope Z_scope.

(** ** Python values and helpers *)

Definition str := list ascii.

Definition lit (s : string) : str := list_ascii_of_string s.

Definition str_eqb (a b : str) : bool :=
  if list_eq_dec ascii_dec a b then true else false.

(** A Python [str] that may hold characters outside ASCII, given
    character by character, each character as the bytes that the
    encoding of the log file stores it as: one byte for an ASCII
    character, two to four for any other one under UTF-8.  [len] is the
    number of characters; what a [write] stores is the bytes. *)
Definition text := list str.

Definition ascii_text (s : str) : text := map (fun c => [c]) s.

Definition encoded (x : text) : str := concat x.

(** A value that travels through the display queue or sits in the third
    slot of a Sample tuple: an [int], a [float] or [None]. *)
Inductive pyval :=
| VInt (z : Z)
| VFloat (f : float)
| VNone.

(** [l[i]] with Python's negative indices; [None] is [IndexError]. *)
Definition py_index {A : Type} (l : list A) (i : Z) : option A :=
  let n := Z.of_nat (length l) in
  if (0 <=? i) && (i <? n) then nth_error l (Z.to_nat i)
  else if (- n <=? i) && (i <? 0) then nth_error l (Z.to_nat (n + i))
  else None.

(** [x in t] and [t.index(x)] on a tuple of integers. *)
Fixpoint py_find (t : list Z) (x : Z) : option nat :=
  match t with
  | [] => None
  | y :: t' => if y =? x then Some O
               else match py_find t' x with
                    | Some k => Some (S k)
                    | None => None
                    end
  end.

(** [float(z)] for an integer below 2^63 in magnitude. *)
Definition float_of_Z (z : Z) : float :=
  if z <? 0 then PrimFloat.opp (PrimFloat.of_uint63 (Uint63.of_Z (- z)))
  else PrimFloat.of_uint63 (Uint63.of_Z z).

(** ** ti2c.py *)

Module Ti2c.

(** One row of the [mcp3421] table:
    (bit resolution, sample rate, sample data mask, configuration byte). *)
Record modecfg := {
  resolution : Z;
  samplerate : float;
  samplemask : Z;
  configbyte : Z
}.

Definition i2caddress : list Z :=
  [0x68; 0x69; 0x6a; 0x6b; 0x6c; 0x6d; 0x6e; 0x6f].

Definition mcp3421 : list modecfg :=
  [ {| resolution := 12; samplerate := 240.0; samplemask := 0x7ff;   configbyte := 0x10 |};
    {| resolution := 14; samplerate := 60.0;  samplemask := 0x1fff;  configbyte := 0x14 |};
    {| resolution := 16; samplerate := 15.0;  samplemask := 0x7fff;  configbyte := 0x18 |};
    {| resolution := 18; samplerate := 3.75;  samplemask := 0x1ffff; configbyte := 0x1c |} ].

(** The class attribute [mode = 3]. *)
Definition class_mode : Z := 3.

Definition slope_intercept : list (float * float) :=
  [ (62.85027E-3, 70.64385); (15.71257E-3, 70.64385);
    (3.928142E-3, 70.64385); (982.0354E-6, 70.64385) ]%float.

(** What [self.cooked] holds: the [int] that [__init__] stores, or the
    [float] that a read computes. *)
Inductive number :=
| NInt (z : Z)
| NFloat (f : float).

Definition to_pyval (x : number) : pyval :=
  match x with
  | NInt z => VInt z
  | NFloat f => VFloat f
  end.

Record tempsensor := {
  i2caddrind : Z;
  address : Z;
  mode : Z;
  cfgbyte : Z;
  status : Z;
  slope : float;
  intercept : float;
  units : Z;
  raw : Z;
  cooked : number
}.

(** [set_address]: the pair (i2caddrind, address) the method stores. *)
Definition set_address (a : Z) : Z * Z :=
  if (0 <=? a) && (a <? Z.of_nat (length i2caddress)) then
    (a, nth (Z.to_nat a) i2caddress 0)
  else match py_find i2caddress a with
       | Some k => (Z.of_nat k, nth k i2caddress 0)
       | None => (-1, 0)
       end.

(** [set_mode]: [cur] is the value of [self.mode] when the method is
    entered, [m] its argument; the result is the value stored. *)
Definition set_mode (cur m : Z) : Z :=
  if cur <? 0 then 0
  else if cur >? Z.of_nat (length mcp3421) - 1 then Z.of_nat (length mcp3421) - 1
  else m.

Definition clamp_units (u : Z) : Z :=
  if u <? 0 then 0 else if u >? 2 then 2 else u.

(** [tempsensor.__init__]; [None] is the [IndexError] of a table lookup. *)
Definition init (a m u : Z) : option tempsensor :=
  let '(ind, adr) := set_address a in
  let md := set_mode class_mode m in
  match py_index mcp3421 md, py_index slope_intercept m with
  | Some cfg, Some (sl, ic) =>
      Some {| i2caddrind := ind; address := adr; mode := md;
              cfgbyte := configbyte cfg; status := configbyte cfg;
              slope := sl; intercept := ic; units := clamp_units u;
              raw := 0; cooked := NInt 0 |}
  | _, _ => None
  end.

Definition set_slope (s : tempsensor) (v : float) : tempsensor :=
  {| i2caddrind := i2caddrind s; address := address s; mode := mode s;
     cfgbyte := cfgbyte s; status := status s; slope := v;
     intercept := intercept s; units := units s; raw := raw s;
     cooked := cooked s |}.

Definition set_intercept (s : tempsensor) (v : float) : tempsensor :=
  {| i2caddrind := i2caddrind s; address := address s; mode := mode s;
     cfgbyte := cfgbyte s; status := status s; slope := slope s;
     intercept := v; units := units s; raw := raw s;
     cooked := cooked s |}.

Definition get_tempraw (s : tempsensor) : Z := raw s.

Definition get_tempC (s : tempsensor) : number := cooked s.

(** [self.cooked * 9 / 5 + 32]: on an [int] the product is an [int] and
    [/] is true division, the correctly rounded quotient, which is the
    float quotient as long as the product converts exactly. *)
Definition get_tempF (s : tempsensor) : float :=
  match cooked s with
  | NFloat c => (c * 9 / 5 + 32)%float
  | NInt z => (float_of_Z (z * 9) / 5 + 32)%float
  end.

(** [self.cooked + 273.15] *)
Definition get_tempK (s : tempsensor) : float :=
  match cooked s with
  | NFloat c => (c + 273.15)%float
  | NInt z => (float_of_Z z + 273.15)%float
  end.

(** [get_tempcooked]: falls off the end (returns [None]) for any other
    value of [units]. *)
Definition get_tempcooked (s : tempsensor) : pyval :=
  if units s =? 0 then to_pyval (get_tempC s)
  else if units s =? 1 then VFloat (get_tempK s)
  else if units s =? 2 then VFloat (get_tempF s)
  else VNone.

(** The bytes a device clocks out on a block read, most significant
    first; a three-byte read sees [b0], [b1], [b2] only. *)
Record mcpdata := { b0 : Z; b1 : Z; b2 : Z; b3 : Z }.

(** The value assembled from the data bytes and the status byte. *)
Definition assemble (cfg : modecfg) (d : mcpdata) : Z * Z :=
  if resolution cfg =? 18 then
    (b2 d + Z.shiftl (b1 d) 8 + Z.shiftl (b0 d) 16, b3 d)
  else
    (b1 d + Z.shiftl (b0 d) 8, b2 d).

(** Mask off the sign-extension bits, then subtract the sign-extension
    bit when the first byte has its top bit set. *)
Definition decode (cfg : modecfg) (d : mcpdata) : Z :=
  let r := Z.land (fst (assemble cfg d)) (samplemask cfg) in
  if Z.land (b0 d) 0x80 =? 0 then r else r - (samplemask cfg + 1).

Definition cook (s : tempsensor) (r : Z) : float :=
  (float_of_Z r * slope s + intercept s)%float.

(** The sensor after a read that decoded [r], found the status byte
    [st] and computed the temperature [c]. *)
Definition with_reading (s : tempsensor) (r st : Z) (c : float) : tempsensor :=
  {| i2caddrind := i2caddrind s; address := address s; mode := mode s;
     cfgbyte := cfgbyte s; status := st; slope := slope s;
     intercept := intercept s; units := units s; raw := r;
     cooked := NFloat c |}.

(** The sensor after a read that found the conversion in progress:
    [raw] and [status] are stored, [cooked] is left as it was. *)
Definition with_status (s : tempsensor) (r st : Z) : tempsensor :=
  {| i2caddrind := i2caddrind s; address := address s; mode := mode s;
     cfgbyte := cfgbyte s; status := st; slope := slope s;
     intercept := intercept s; units := units s; raw := r;
     cooked := cooked s |}.

(** [read_status]: the ready flag and the sensor after the read. *)
Definition read_status (s : tempsensor) (d : mcpdata) : option (bool * tempsensor) :=
  match py_index mcp3421 (mode s) with
  | None => None
  | Some cfg =>
      let '(r, st) := assemble cfg d in
      if negb (Z.land st 0x80 =? 0) then
        Some (false, with_status s r st)
      else
        let r' := decode cfg d in
        Some (true, with_reading s r' st (cook s r'))
  end.

(** [read_sensor]: the raw value returned and the sensor after the read. *)
Definition read_sensor (s : tempsensor) (d : mcpdata) : option (Z * tempsensor) :=
  match py_index mcp3421 (mode s) with
  | None => None
  | Some cfg =>
      let r' := decode cfg d in
      Some (r', with_reading s r' (status s) (cook s r'))
  end.

End Ti2c.

(** ** jtlogc.py: queues and control flow outcomes *)

(** The result of running a piece of a task body: it completes with a
    value, it suspends on a [get] that nothing satisfies yet, or it
    raises. *)
Inductive outcome (A : Type) :=
| Done (a : A)
| Blocked
| Raised.

Arguments Done {A} a.
Arguments Blocked {A}.
Arguments Raised {A}.

Definition bind {A B : Type} (o : outcome A) (k : A -> outcome B) : outcome B :=
  match o with
  | Done a => k a
  | Blocked => Blocked
  | Raised => Raised
  end.

Notation "x <- o ;; k" := (bind o (fun x => k))
  (at level 61, o at next level, right associativity).
Notation "' p <- o ;; k" := (bind o (fun p => k))
  (at level 61, p pattern, o at next level, right associativity).

(** The tuple [(sensor address, raw sample, cooked temp)]. *)
Definition Sample := (Z * Z * pyval)%type.

(** What the [qfileio] queues carry: Samples on the per-sensor queues,
    a float on the timestamp queue. *)
Inductive qitem :=
| QSample (d : Sample)
| QTime (t : float).

(** [queue.Queue] as the sequence of items waiting in it.  A [put] on a
    full queue suspends the producer until a slot is free and then
    stores the same item, so capacity does not change which items enter
    a queue, nor their order. *)
Definition q_put {A : Type} (q : list A) (x : A) : list A := q ++ [x].

Definition q_get {A : Type} (q : list A) : outcome (A * list A) :=
  match q with
  | [] => Blocked
  | x :: q' => Done (x, q')
  end.

Definition q_empty {A : Type} (q : list A) : bool :=
  match q with
  | [] => true
  | _ :: _ => false
  end.

(** A poll of a mailbox: [None] when [qmsg.empty()], otherwise the
    message that [qmsg.get()] returns. *)
Definition mailpoll := option str.

Definition is_msg (c : string) (m : str) : bool := str_eqb m (lit c).

(** ** class sensorbackend *)

Module sensorbackend.
Import Ti2c.

Record t := {
  sensor : tempsensor;
  qdisplay : list pyval;
  qfileio : list qitem
}.

(** The first loop of [__sensoroneshottask]: read the status until it
    reports ready.  The result is the sensor after the last read made,
    and the bus reads not consumed; these are [None] when the given
    reads end before the device is ready. *)
Fixpoint await_initial_ready (s : tempsensor) (bus : list mcpdata)
  : outcome (tempsensor * option (list mcpdata)) :=
  match bus with
  | [] => Done (s, None)
  | d :: bus' =>
      match read_status s d with
      | None => Raised
      | Some (true, s') => Done (s', Some bus')
      | Some (false, s') => await_initial_ready s' bus'
      end
  end.

(** One pass of the second loop, up to the mailbox check: the status
    read, the two tests on [triggered], and the emission. *)
Definition poll (b : t) (triggered : bool) (d : mcpdata) : outcome (t * bool) :=
  match read_status (sensor b) d with
  | None => Raised
  | Some (data_ready, s) =>
      let triggered := if negb triggered && negb data_ready then true
                       else triggered in
      if triggered && data_ready then
        let raw := get_tempraw s in
        let cooked := get_tempcooked s in
        Done ({| sensor := s;
                 qdisplay := q_put (q_put (qdisplay b) (VInt raw)) cooked;
                 qfileio := q_put (qfileio b) (QSample (address s, raw, cooked)) |},
              false)
      else
        Done ({| sensor := s; qdisplay := qdisplay b; qfileio := qfileio b |},
              triggered)
  end.

(** The second loop.  Each pass consumes one bus read and one mailbox
    poll; the loop ends on ['q'].  The boolean of the result tells
    whether the task is still running (the given reads or polls ended
    first). *)
Fixpoint steady (b : t) (triggered : bool)
    (bus : list mcpdata) (mail : list mailpoll) : outcome (t * bool) :=
  match bus, mail with
  | d :: bus', m :: mail' =>
      '(b', triggered') <- poll b triggered d ;;
      match m with
      | Some x => if is_msg "q" x then Done (b', false)
                  else steady b' triggered' bus' mail'
      | None => steady b' triggered' bus' mail'
      end
  | _, _ => Done (b, true)
  end.

(** [__sensoroneshottask]. *)
Definition sensoroneshottask (b : t)
    (bus : list mcpdata) (mail : list mailpoll) : outcome (t * bool) :=
  '(s, r) <- await_initial_ready (sensor b) bus ;;
  let b := {| sensor := s; qdisplay := qdisplay b; qfileio := qfileio b |} in
  match r with
  | None => Done (b, true)
  | Some bus' => steady b false bus' mail
  end.

End sensorbackend.

(** ** The log file object *)

Module pyfile.

(** A file opened for writing: its bytes and the position of the next
    write. *)
Record t := {
  content : str;
  pos : nat
}.

Definition open_w : t := {| content := []; pos := O |}.

Definition tell (f : t) : Z := Z.of_nat (pos f).

(** [seek(n)]; a negative offset raises. *)
Definition seek (f : t) (n : Z) : outcome t :=
  if n <? 0 then Raised
  else Done {| content := content f; pos := Z.to_nat n |}.

(** [write(s)] overwrites from the current position and extends the
    file as needed; a gap left by a seek past the end reads as zero
    bytes. *)
Definition write (f : t) (s : str) : t :=
  {| content := firstn (pos f) (content f)
                ++ repeat Ascii.zero (pos f - length (content f))
                ++ s
                ++ skipn (pos f + length s) (content f);
     pos := (pos f + length s)%nat |}.

End pyfile.

(** ** String formatting *)

Definition rjust (fill : ascii) (width : nat) (s : str) : str :=
  repeat fill (width - length s) ++ s.

(** ['{:03}'.format(n)] for a non-negative integer. *)
Definition format_03 (n : N) : str :=
  rjust "0"%char 3 (lit (DecimalString.NilZero.string_of_uint (N.to_uint n))).

(** ['{:#Wx}'.format(z)]: sign, [0x], lower-case digits, right-aligned
    in a field of [width] characters. *)
Definition format_x (width : nat) (z : Z) : str :=
  rjust " "%char width
    ((if z <? 0 then lit "-" else [])
     ++ lit "0x"
     ++ lit (HexadecimalString.NilZero.string_of_uint (N.to_hex_uint (Z.abs_N z)))).

(** What the C library and the clock contribute to a data row. *)
Record platform := {
  (** [time.strftime('%Y/%m/%d %H:%M:%S', time.localtime(t))] *)
  strftime_local : float -> str;
  (** [int(t % 1 * 1000)] *)
  millis : float -> N;
  (** ['{:#7.3f}'.format(x)] for a float [x] *)
  format_f : float -> str
}.

(** ** class datalogger *)

Module datalogger.

(** What [__logwriter] reads from the clock and from its configuration
    while it writes the header. *)
Record header_in := {
  log : text;                 (* strftime(logfileprefix + '%Y%m%d%H%M%S.csv') *)
  start_asctime : str;        (* time.asctime() for the 'Start time' line *)
  placeholder_asctime : str;  (* time.asctime() for the 'dnE time' line *)
  period_text : str           (* str(self.sampleperiod) *)
}.

Record t := {
  msg : str;
  datalog : pyfile.t;
  endstamp : nat
}.

Definition newline : str := lit (String "010"%char EmptyString).

(** The lines written before the loop, and the state the loop starts
    in.  [endstamp] adds up [len(header)], a number of characters; the
    file receives the bytes of each header.  What [time.asctime()] and
    [str] of a number return is ASCII. *)
Definition open_log (h : header_in) : t :=
  let datalog := pyfile.open_w in
  let header := ascii_text (lit "Filename: ") ++ log h ++ ascii_text newline in
  let endstamp := length header in
  let datalog := pyfile.write datalog (encoded header) in
  let header := ascii_text (lit "Start time: " ++ start_asctime h ++ newline) in
  let endstamp := (endstamp + length header)%nat in
  let datalog := pyfile.write datalog (encoded header) in
  let datalog := pyfile.write datalog
                   (lit "dnE time: " ++ placeholder_asctime h ++ newline) in
  let datalog := pyfile.write datalog
                   (lit "Sample period: " ++ period_text h ++ lit " seconds." ++ newline) in
  {| msg := lit "r"; datalog := datalog; endstamp := endstamp |}.

Section Rows.
Variable P : platform.

(** ['{:#7.3f}'.format(x)] on what the third slot of a tuple holds. *)
Definition format_cooked (v : pyval) : outcome str :=
  match v with
  | VFloat f => Done (format_f P f)
  | VInt z => Done (format_f P (float_of_Z z))
  | VNone => Raised
  end.

(** [',{:#4x},{:#7x},{:#7.3f},'.format(d[0],d[1],d[2])] *)
Definition format_group (d : qitem) : outcome str :=
  match d with
  | QTime _ => Raised
  | QSample (a, r, c) =>
      c' <- format_cooked c ;;
      Done (lit "," ++ format_x 4 a ++ lit "," ++ format_x 7 r
            ++ lit "," ++ c' ++ lit ",")
  end.

(** The text of the first [write] of a row. *)
Definition format_timestamp (timestamp : qitem) : outcome str :=
  match timestamp with
  | QSample _ => Raised
  | QTime t =>
      Done (strftime_local P t ++ lit "." ++ format_03 (millis P t) ++ lit ",")
  end.

(** [for d in valsensor: datalog.write(...)] *)
Fixpoint write_groups (f : pyfile.t) (valsensor : list qitem) : outcome pyfile.t :=
  match valsensor with
  | [] => Done f
  | d :: rest =>
      g <- format_group d ;;
      write_groups (pyfile.write f g) rest
  end.

(** The four statements guarded by [valsensor[0][0] != 0]. *)
Definition write_row (f : pyfile.t) (timestamp : qitem) (valsensor : list qitem)
  : outcome pyfile.t :=
  ts <- format_timestamp timestamp ;;
  f <- write_groups (pyfile.write f ts) valsensor ;;
  f <- pyfile.seek f (pyfile.tell f - 1) ;;
  Done (pyfile.write f newline).

(** [valsensor[i] = self.qfileio[i].get()] for each sensor queue in
    turn: the items taken and the queues left. *)
Fixpoint take_each (qs : list (list qitem))
  : outcome (list qitem * list (list qitem)) :=
  match qs with
  | [] => Done ([], [])
  | q :: qs' =>
      '(x, q') <- q_get q ;;
      '(xs, qs'') <- take_each qs' ;;
      Done (x :: xs, q' :: qs'')
  end.

(** [valsensor[0][0]] *)
Definition first_address (valsensor : list qitem) : outcome Z :=
  match valsensor with
  | [] => Raised
  | QTime _ :: _ => Raised
  | QSample (a, _, _) :: _ => Done a
  end.

(** The branch [msg == 'r'] of the loop.  [qfileio] is the list of
    queues the task was built with: the per-sensor queues followed by
    the timestamp queue. *)
Definition running (f : pyfile.t) (qfileio : list (list qitem))
  : outcome (pyfile.t * list (list qitem)) :=
  match qfileio with
  | [] => Raised
  | _ :: _ =>
      let sensors := removelast qfileio in
      '(timestamp, tq) <- q_get (last qfileio []) ;;
      '(valsensor, sq) <- take_each sensors ;;
      a <- first_address valsensor ;;
      if negb (a =? 0) then
        f' <- write_row f timestamp valsensor ;;
        Done (f', sq ++ [tq])
      else
        Done (f, sq ++ [tq])
  end.

(** One pass of the loop: the branch on [msg], then the mailbox check.
    The boolean tells whether the loop goes on. *)
Definition pass (l : t) (qfileio : list (list qitem)) (m : mailpoll)
  : outcome (t * list (list qitem) * bool) :=
  '(f, q) <- (if is_msg "r" (msg l) then running (datalog l) qfileio
              else Done (datalog l, qfileio)) ;;
  match m with
  | None =>
      Done ({| msg := msg l; datalog := f; endstamp := endstamp l |}, q, true)
  | Some x =>
      Done ({| msg := x; datalog := f; endstamp := endstamp l |}, q,
            negb (is_msg "q" x))
  end.

(** The statements after the loop: [seek] takes the character count
    [endstamp] as a position in the file, a number of bytes. *)
Definition close_log (l : t) (end_asctime : str) : outcome pyfile.t :=
  f <- pyfile.seek (datalog l) (Z.of_nat (endstamp l)) ;;
  Done (pyfile.write f (lit "End time: " ++ end_asctime)).

(** The loop and what follows it.  [qfileio] holds, for each queue, the
    items that reach it in arrival order; [mail] the successive mailbox
    polls.  The result is [None] while the task is still in its loop. *)
Fixpoint logwriter_loop (l : t) (qfileio : list (list qitem))
    (mail : list mailpoll) (end_asctime : str)
  : outcome (option pyfile.t * list (list qitem)) :=
  match mail with
  | [] => Done (None, qfileio)
  | m :: mail' =>
      '(l', q, go_on) <- pass l qfileio m ;;
      if go_on then logwriter_loop l' q mail' end_asctime
      else (f <- close_log l' end_asctime ;; Done (Some f, q))
  end.

Definition logwriter (h : header_in) (qfileio : list (list qitem))
    (mail : list mailpoll) (end_asctime : str)
  : outcome (option pyfile.t * list (list qitem)) :=
  logwriter_loop (open_log h) qfileio mail end_asctime.

End Rows.

End datalogger.

(** ** class sensorglobaltrigger *)

Module sensorglobaltrigger.

(** [tempsensorglobal]: the general call address and its two commands. *)
Definition gen_call_address : Z := 0.
Definition gen_reset : Z := 0x06.
Definition gen_convert : Z := 0x08.

(** The task's variables and what it has produced so far: the bytes
    written to the bus, as (address, byte) pairs, and the items put on
    the timestamp queue. *)
Record t := {
  triggertime : float;
  msg : str;
  tnext : float;
  bus : list (Z * Z);
  qfileio : list qitem
}.

(** What the task reads from outside: the successive values of
    [time.perf_counter()], of [time.time()], and of its mailbox polls. *)
Record env := {
  perf : list float;
  wall : list float;
  mail : list mailpoll
}.

Definition set_msg (s : t) (m : str) : t :=
  {| triggertime := triggertime s; msg := m; tnext := tnext s;
     bus := bus s; qfileio := qfileio s |}.

Definition set_tnext (s : t) (x : float) : t :=
  {| triggertime := triggertime s; msg := msg s; tnext := x;
     bus := bus s; qfileio := qfileio s |}.

(** [self.sensors.trigger()] followed by [self.qfileio.put(time.time())]. *)
Definition trigger_and_stamp (s : t) (now : float) : t :=
  {| triggertime := triggertime s; msg := msg s; tnext := tnext s;
     bus := bus s ++ [(gen_call_address, gen_convert)];
     qfileio := q_put (qfileio s) (QTime now) |}.

(** The method [trigger], which [gensensorframework] calls once itself:
    one write of the convert command to the general call address. *)
Definition trigger (s : t) : t :=
  {| triggertime := triggertime s; msg := msg s; tnext := tnext s;
     bus := bus s ++ [(gen_call_address, gen_convert)];
     qfileio := qfileio s |}.

(** The state at the top of [__trigger]'s loop, after [__init__] has
    reset the devices. *)
Definition start (period : float) (perf0 : float) : t :=
  {| triggertime := period; msg := lit "h";
     tnext := (perf0 + period)%float;
     bus := [(gen_call_address, gen_reset)];
     qfileio := [] |}.

(** What the branch [msg == 'r'] comes to: the trigger is made and
    stamped, the clock readings given run out first, or [time.sleep]
    raises. *)
Inductive fired :=
| Fired (s : t) (e : env)
| Unread
| SleepError.

(** The branch [msg == 'r']: wait for the deadline, advance it,
    trigger, stamp.  The argument of the sleep is computed from a
    second reading of the clock, and a negative argument raises
    [ValueError]. *)
Definition fire (s : t) (e : env) : fired :=
  match perf e with
  | [] => Unread
  | p1 :: ps =>
      let proceed (ps' : list float) :=
        match wall e with
        | [] => Unread
        | w :: ws =>
            let s := set_tnext s (tnext s + triggertime s)%float in
            Fired (trigger_and_stamp s w)
                  {| perf := ps'; wall := ws; mail := mail e |}
        end in
      if (p1 <? tnext s)%float then
        match ps with
        | [] => Unread
        | p2 :: ps' =>
            if (tnext s - p2 <? 0)%float then SleepError else proceed ps'
        end
      else proceed ps
  end.

(** The inner [while] loop.  The boolean of the result is [false] when
    the readings or the fuel run out while the loop is still turning. *)
Fixpoint wait (fuel : nat) (s : t) (e : env) : t * env * bool :=
  match fuel with
  | O => (s, e, false)
  | S fuel' =>
      match perf e with
      | [] => (s, e, false)
      | now :: ps =>
          if (0.25 <? tnext s - now)%float || negb (is_msg "r" (msg s)) then
            match mail e with
            | [] => (s, e, false)
            | None :: ms =>
                wait fuel' s {| perf := ps; wall := wall e; mail := ms |}
            | Some m :: ms =>
                let s := set_msg s m in
                if is_msg "r" m then
                  match ps with
                  | [] => (s, {| perf := ps; wall := wall e; mail := ms |}, false)
                  | now' :: ps' =>
                      (set_tnext s now',
                       {| perf := ps'; wall := wall e; mail := ms |}, true)
                  end
                else if is_msg "q" m then
                  (s, {| perf := ps; wall := wall e; mail := ms |}, true)
                else
                  wait fuel' s {| perf := ps; wall := wall e; mail := ms |}
            end
          else (s, {| perf := ps; wall := wall e; mail := mail e |}, true)
      end
  end.

(** [__trigger]'s outer loop.  The boolean of the result tells whether
    the task is still running when the readings or the fuel run out; an
    exception ends it as the quit message does. *)
Fixpoint trigger_loop (fuel : nat) (s : t) (e : env) : t * bool :=
  match fuel with
  | O => (s, true)
  | S fuel' =>
      match (if is_msg "r" (msg s) then fire s e else Fired s e) with
      | Unread => (s, true)
      | SleepError => (s, false)
      | Fired s1 e1 =>
          let '(s2, e2, finished) := wait fuel s1 e1 in
          if negb finished then (s2, true)
          else if is_msg "q" (msg s2) then (s2, false)
          else trigger_loop fuel' s2 e2
      end
  end.

End sensorglobaltrigger.

(** ** class sensorfrontend *)

Module sensorfrontend.

(** [l[i] = v]; [None] is [IndexError]. *)
Definition py_store {A : Type} (l : list A) (i : Z) (v : A) : option (list A) :=
  let n := Z.of_nat (length l) in
  let k := if i <? 0 then n + i else i in
  if (0 <=? k) && (k <? n) then
    Some (firstn (Z.to_nat k) l ++ v :: skipn (S (Z.to_nat k)) l)
  else None.

(** The attributes the display task works on; [refreshes] counts the
    calls of [windowrefresh] the task has made. *)
Record t := {
  ysize : Z;
  raw : list pyval;
  cookedhist : list pyval;
  ind : Z;
  cooked : pyval;
  refreshes : nat
}.

(** The state [__init__] and the first statement of the task leave. *)
Definition start (ysize : Z) : t :=
  {| ysize := ysize;
     raw := repeat (VInt 0) (Z.to_nat (ysize - 3));
     cookedhist := repeat (VInt 0) (Z.to_nat (ysize - 3));
     ind := 0;
     cooked := VInt 0;
     refreshes := O |}.

(** The state of the control variable when the loop is entered. *)
Definition initial_msg : str := lit "h".

(** The loop of the branch [msg == 'r'] over the items waiting in the
    queue. *)
Fixpoint drain_running (d : t) (q : list pyval) : outcome t :=
  match q with
  | [] => Done d
  | r :: q1 =>
      match py_store (raw d) (ind d) r,
            py_store (cookedhist d) (ind d) (cooked d) with
      | Some raw', Some hist' =>
          match q1 with
          | [] => Blocked
          | c :: q' =>
              let ind' := if ind d + 1 >=? ysize d - 3 then 0 else ind d + 1 in
              drain_running
                {| ysize := ysize d; raw := raw'; cookedhist := hist';
                   ind := ind'; cooked := c;
                   refreshes := if q_empty q' then S (refreshes d)
                                else refreshes d |}
                q'
          end
      | _, _ => Raised
      end
  end.

(** The loop of the halted branch: every pair is taken and dropped.
    The result is the queue the loop leaves. *)
Fixpoint drain_halted (q : list pyval) : outcome (list pyval) :=
  match q with
  | [] => Done []
  | [_] => Blocked
  | _ :: _ :: q' => drain_halted q'
  end.

(** One pass of the task's loop on the items [q] waiting in the display
    queue, up to the mailbox check: the attributes after the pass and
    the queue it leaves.  [None] is the [break] of ['q']. *)
Definition pass (d : t) (msg : str) (q : list pyval)
  : outcome (option t * list pyval) :=
  if is_msg "r" msg then
    d' <- drain_running d q ;; Done (Some d', [])
  else if is_msg "q" msg then Done (None, q)
  else
    q' <- drain_halted q ;; Done (Some d, q').

(** [__sensordisplaytask] from a given value of [msg] and a given
    content [q] of the display queue.  Each element of [rounds] gives
    the items that reach the queue before a pass and the mailbox poll
    that ends the pass.  The boolean of the result tells whether the
    task is still running. *)
Fixpoint display_loop (d : t) (msg : str) (q : list pyval)
    (rounds : list (list pyval * mailpoll)) : outcome (t * list pyval * bool) :=
  match rounds with
  | [] => Done (d, q, true)
  | (arrived, m) :: rounds' =>
      '(r, q') <- pass d msg (q ++ arrived) ;;
      match r with
      | None => Done (d, q', false)
      | Some d' =>
          display_loop d' (match m with Some x => x | None => msg end) q' rounds'
      end
  end.

Definition sensordisplaytask (ysize : Z)
    (rounds : list (list pyval * mailpoll)) : outcome (t * list pyval * bool) :=
  display_loop (start ysize) initial_msg [] rounds.

End sensorfrontend.

(** ** class appconfig: the teardown *)

Module appconfig.

Inductive thread :=
| Tlogger
| Tdisplay (i : nat)
| Tbackend (i : nat)
| Ttrigger.

(** What [endsensorframework] does to the objects it shares with the
    tasks, in program order. *)
Inductive action :=
| PutMsg (i : nat) (m : str)         (* self.qmsg[i].put(m) *)
| Empty (i : nat) (r : bool)         (* self.qfileio[i].empty() returned r *)
| PutFile (i : nat) (x : qitem)      (* self.qfileio[i].put(x) *)
| PutDisplay (i : nat) (v : pyval)   (* self.qdisplay[i].put(v) *)
| Join (th : thread)                 (* the thread's join() *)
| DelQueues.                         (* the three del statements *)

(** The mailbox layout fixed by [gensensorframework] for [n] sensors:
    [qmsg[0..n-1]] the backends, [qmsg[n..2n-1]] the displays,
    [qmsg[2n]] the datalogger, [qmsg[2n+1]] the global trigger; the
    datalogger reads [qfileio[0..n-1]] and the timestamps on
    [qfileio[n]]. *)
Definition backend_mailbox (n i : nat) : nat := i.
Definition display_mailbox (n i : nat) : nat := (n + i)%nat.
Definition trigger_mailbox (n : nat) : nat := (n * 2 + 1)%nat.

(** The dummy tuple pushed on every sensor queue. *)
Definition sentinel : qitem := QSample (0, 0, VFloat 0%float).

(** One sweep of the wait loop: [observe i] is what [qfileio[i].empty()]
    returns during this sweep.  The result is [allempty] and the calls
    made. *)
Definition sweep (n : nat) (observe : nat -> bool) : bool * list action :=
  let idx := seq 0 n ++ [n] in
  (forallb observe idx, map (fun i => Empty i (observe i)) idx).

(** The [while True] loop that waits for the datalogger's queues to
    drain; [observe k] describes sweep number [k].  [None] when the fuel
    ends before a sweep finds every queue empty. *)
Fixpoint await_drained (fuel : nat) (n : nat) (observe : nat -> nat -> bool)
    (k : nat) : option (list action) :=
  match fuel with
  | O => None
  | S fuel' =>
      let '(allempty, calls) := sweep n (observe k) in
      if allempty then Some calls
      else match await_drained fuel' n observe (S k) with
           | Some rest => Some (calls ++ rest)
           | None => None
           end
  end.

(** [endsensorframework] for [n = len(self.sensor)]; [now] is the value
    of [time.time()] it reads. *)
Definition endsensorframework (fuel : nat) (n : nat)
    (observe : nat -> nat -> bool) (now : float) : option (list action) :=
  (* end datalogger thread *)
  let done := [PutMsg (n * 2) (lit "q")] in
  match await_drained fuel n observe O with
  | None => None
  | Some polls =>
      let done := done ++ polls in
      let done := done ++ map (fun i => PutFile i sentinel) (seq 0 n) in
      let done := done ++ [PutFile n (QTime now)] in
      let done := done ++ [Join Tlogger] in
      (* end sensor front end threads *)
      let done := done ++ map (fun q => PutMsg q (lit "q")) (seq n (n * 2 - n)) in
      let done := done ++ flat_map (fun q => [PutDisplay q (VInt 0);
                                              PutDisplay q (VInt 0)])
                                   (seq 0 n) in
      let done := done ++ map (fun i => Join (Tdisplay i)) (seq 0 n) in
      (* end sensor backend threads *)
      let done := done ++ map (fun q => PutMsg q (lit "q")) (seq 0 n) in
      let done := done ++ map (fun i => Join (Tbackend i)) (seq 0 n) in
      (* end trigger thread *)
      let done := done ++ [PutMsg (n * 2 + 1) (lit "q")] in
      let done := done ++ [Join Ttrigger] in
      (* wipe out the queues *)
      Some (done ++ [DelQueues])
  end.

End appconfig.

(** ** Vocabulary of the properties *)

Module Statements.
Import Ti2c.

(** *** Decoding *)

(** The decode property as the specification words it, for one table
    row and one block of transmitted bytes: the mask is 2^W - 1, a value
    whose top transmitted bit is set decodes into [-(M+1)/2, -1], any
    other into [0, M]. *)
Definition decode_range_as_specified (cfg : modecfg) (d : mcpdata) : Prop :=
  let M := samplemask cfg in
  M = 2 ^ resolution cfg - 1 /\
  (Z.land (b0 d) 0x80 <> 0 -> - ((M + 1) / 2) <= decode cfg d <= -1) /\
  (Z.land (b0 d) 0x80 = 0 -> 0 <= decode cfg d <= M).

(** The first row of the mode table. *)
Definition mode12 : modecfg :=
  {| resolution := 12; samplerate := 240.0; samplemask := 0x7ff; configbyte := 0x10 |}.

(** The last row of the mode table. *)
Definition mode18 : modecfg :=
  {| resolution := 18; samplerate := 3.75; samplemask := 0x1ffff; configbyte := 0x1c |}.

(** The most negative 12-bit reading, sign-extended to two bytes. *)
Definition most_negative12 : mcpdata :=
  {| b0 := 0xf8; b1 := 0x00; b2 := 0x10; b3 := 0x10 |}.

(** A sensor at 0x68 in the 18-bit mode, reporting Celsius. *)
Definition sensor18 : tempsensor :=
  {| i2caddrind := 0; address := 0x68; mode := 3; cfgbyte := 0x1c;
     status := 0x1c; slope := 982.0354E-6; intercept := 70.64385;
     units := 0; raw := 0; cooked := NInt 0 |}.

(** The same sensor reporting Kelvin: [tempsensor(0, 3, 1)]. *)
Definition kelvin18 : tempsensor :=
  {| i2caddrind := 0; address := 0x68; mode := 3; cfgbyte := 0x1c;
     status := 0x1c; slope := 982.0354E-6; intercept := 70.64385;
     units := 1; raw := 0; cooked := NInt 0 |}.

(** What [tempsensor(8, 3, 0)] builds: no table entry for 8. *)
Definition unaddressed18 : tempsensor :=
  {| i2caddrind := -1; address := 0; mode := 3; cfgbyte := 0x1c;
     status := 0x1c; slope := 982.0354E-6; intercept := 70.64385;
     units := 0; raw := 0; cooked := NInt 0 |}.

(** 18-bit reads: a conversion in progress, then the result 0x00abc. *)
Definition busy18 : mcpdata := {| b0 := 0x00; b1 := 0x00; b2 := 0x00; b3 := 0x9c |}.
Definition ready18 : mcpdata := {| b0 := 0x00; b1 := 0x0a; b2 := 0xbc; b3 := 0x1c |}.

(** *** Mode argument of the constructor *)

(** "Wraps to another mode": the constructor succeeds and the row it
    configures the sensor with is row [k] of the table, for some [k] in
    0..3. *)
Definition wraps_to_mode (a m u : Z) : Prop :=
  exists s k cfg, init a m u = Some s /\ 0 <= k <= 3 /\
    nth_error mcp3421 (Z.to_nat k) = Some cfg /\
    py_index mcp3421 (mode s) = Some cfg /\ cfgbyte s = configbyte cfg.

(** *** Edge detection *)

(** Two sensor objects agree on the attributes that a status read
    leaves alone. *)
Definition same_setup (s s0 : tempsensor) : Prop :=
  address s = address s0 /\ mode s = mode s0 /\ slope s = slope s0 /\
  intercept s = intercept s0 /\ units s = units s0.

(** Whether a block read reports the conversion complete: the top bit
    of the status byte is clear. *)
Definition is_ready (cfg : modecfg) (d : mcpdata) : bool :=
  Z.land (snd (assemble cfg d)) 0x80 =? 0.

(** The Sample a sensor yields for a ready block read. *)
Definition emitted (s : tempsensor) (cfg : modecfg) (d : mcpdata) : Sample :=
  let r := decode cfg d in
  (address s, r,
   get_tempcooked (with_reading s r (snd (assemble cfg d)) (cook s r))).

(** What an emission appends to the display queue. *)
Definition emitted_pair (s : tempsensor) (cfg : modecfg) (d : mcpdata) : list pyval :=
  let '(_, r, c) := emitted s cfg d in [VInt r; c].

(** The bus reads the second loop of the acquisition task gets to make:
    one per mailbox poll, up to and including the pass that finds ['q']. *)
Fixpoint seen (bus : list mcpdata) (mail : list mailpoll) : list mcpdata :=
  match bus, mail with
  | d :: bus', m :: mail' =>
      d :: match m with
           | Some x => if is_msg "q" x then [] else seen bus' mail'
           | None => seen bus' mail'
           end
  | _, _ => []
  end.

(** The reads at which a not-ready-to-ready transition completes;
    [prev] is the observation that precedes the first read. *)
Fixpoint rising_edges (cfg : modecfg) (prev : bool) (reads : list mcpdata)
  : list mcpdata :=
  match reads with
  | [] => []
  | d :: reads' =>
      (if negb prev && is_ready cfg d then [d] else [])
      ++ rising_edges cfg (is_ready cfg d) reads'
  end.

(** The number of places in a sequence of observations where not-ready
    is immediately followed by ready. *)
Fixpoint count_transitions (obs : list bool) : nat :=
  match obs with
  | a :: ((b :: _) as rest) =>
      ((if negb a && b then 1 else 0) + count_transitions rest)%nat
  | _ => O
  end.

(** *** Cooked value *)

(** The cooked value as the specification words it: raw x slope +
    intercept, whatever the unit. *)
Definition cooked_as_specified (s : tempsensor) (d : Sample) : Prop :=
  let '(_, r, c) := d in
  c = VFloat (float_of_Z r * slope s + intercept s)%float.

(** The value reported for a temperature [c] in degrees Celsius by a
    sensor configured for unit [u]: 0 Celsius, 1 Kelvin, 2 Fahrenheit. *)
Definition in_unit (u : Z) (c : float) : pyval :=
  match u with
  | 0 => VFloat c
  | 1 => VFloat (c + 273.15)%float
  | 2 => VFloat (c * 9 / 5 + 32)%float
  | _ => VNone
  end.

(** *** Log file *)

(** The write position is at the end of the file. *)
Definition at_end (f : pyfile.t) : Prop :=
  pyfile.pos f = length (pyfile.content f).

(** A Sample whose third field is a float, as a queue item. *)
Definition float_sample (d : Z * Z * float) : qitem :=
  let '(a, r, c) := d in QSample (a, r, VFloat c).

(** The three fields of one sensor in a data row. *)
Definition group_text (P : platform) (d : Z * Z * float) : str :=
  let '(a, r, c) := d in
  format_x 4 a ++ lit "," ++ format_x 7 r ++ lit "," ++ format_f P c.

(** The timestamp field of a data row. *)
Definition stamp_text (P : platform) (t : float) : str :=
  strftime_local P t ++ lit "." ++ format_03 (millis P t).

(** A data row as the specification words it:
    [timestamp,addr0,raw0,cooked0,addr1,raw1,cooked1,...] and the
    terminator. *)
Definition row_as_specified (P : platform) (t : float)
    (ds : list (Z * Z * float)) : str :=
  stamp_text P t
  ++ concat (map (fun d => lit "," ++ group_text P d) ds)
  ++ datalogger.newline.

(** A data row as the log writer lays it out: every sensor's three
    fields come after an empty field. *)
Definition row_text (P : platform) (t : float)
    (ds : list (Z * Z * float)) : str :=
  stamp_text P t
  ++ concat (map (fun d => lit ",," ++ group_text P d) ds)
  ++ datalogger.newline.

(** The queues of the log writer when sensor [i] has the Sample
    [fst (nth i sensors)] at its head, followed by [snd (nth i sensors)],
    and the timestamp queue holds [t] followed by [later]. *)
Definition queues_with_heads (sensors : list ((Z * Z * float) * list qitem))
    (t : float) (later : list qitem) : list (list qitem) :=
  map (fun x => float_sample (fst x) :: snd x) sensors ++ [QTime t :: later].

(** The same queues once the log writer has collected a row. *)
Definition queues_after_row (sensors : list ((Z * Z * float) * list qitem))
    (later : list qitem) : list (list qitem) :=
  map snd sensors ++ [later].

(** The header lines, as the bytes in the file. *)
Definition filename_line (h : datalogger.header_in) : str :=
  lit "Filename: " ++ encoded (datalogger.log h) ++ datalogger.newline.

Definition start_line (h : datalogger.header_in) : str :=
  lit "Start time: " ++ datalogger.start_asctime h ++ datalogger.newline.

Definition period_line (h : datalogger.header_in) : str :=
  lit "Sample period: " ++ datalogger.period_text h ++ lit " seconds."
  ++ datalogger.newline.

(** The whole file, given the text standing on the third line (without
    its terminator) and the data rows. *)
Definition log_text (h : datalogger.header_in) (third : str) (rows : str) : str :=
  filename_line h ++ start_line h ++ third ++ datalogger.newline
  ++ period_line h ++ rows.

(** A platform for the examples. *)
Definition demo_platform : platform :=
  {| strftime_local := fun _ => lit "2020/06/01 12:00:00";
     millis := fun _ => 42%N;
     format_f := fun _ => lit " 73.341" |}.

Definition demo_header : datalogger.header_in :=
  {| datalogger.log := ascii_text (lit "/home/pi/jtlogs/jtlog20200601120000.csv");
     datalogger.start_asctime := lit "Mon Jun  1 12:00:00 2020";
     datalogger.placeholder_asctime := lit "Mon Jun  1 12:00:00 2020";
     datalogger.period_text := lit "1" |}.

(** A short session of the log writer: one real row arrives, then the
    teardown's dummy row, and ['q'] is found after the second pass. *)
Definition demo_queues : list (list qitem) :=
  [ [float_sample (0x68, 0xabc, 73.341%float); appconfig.sentinel];
    [QTime 0%float; QTime 1%float] ].

Definition demo_mail : list mailpoll := [None; Some (lit "q")].

Definition demo_end : str := lit "Mon Jun  1 12:00:09 2020".

Definition demo_final : pyfile.t :=
  Eval vm_compute in
    match datalogger.logwriter demo_platform demo_header demo_queues demo_mail
                               demo_end with
    | Done (Some f, _) => f
    | _ => pyfile.open_w
    end.

(** Every character of a text is stored as one byte, as for a text of
    ASCII characters. *)
Definition single_byte (x : text) : bool :=
  forallb (fun c => (length c =? 1)%nat) x.

(** The same session with the logs kept in a directory whose name has
    a letter outside ASCII: [/home/pi/caf] followed by an e with an
    acute accent, which UTF-8 stores as the two bytes c3 a9. *)
Definition accent_header : datalogger.header_in :=
  {| datalogger.log :=
       ascii_text (lit "/home/pi/caf")
       ++ [["195"%char; "169"%char]]
       ++ ascii_text (lit "/jtlog20200601120000.csv");
     datalogger.start_asctime := lit "Mon Jun  1 12:00:00 2020";
     datalogger.placeholder_asctime := lit "Mon Jun  1 12:00:00 2020";
     datalogger.period_text := lit "1" |}.

Definition accent_final : pyfile.t :=
  Eval vm_compute in
    match datalogger.logwriter demo_platform accent_header demo_queues demo_mail
                               demo_end with
    | Done (Some f, _) => f
    | _ => pyfile.open_w
    end.

(** *** Initial control state *)

(** "The Log Merge task starts halted", as the specification words it:
    its control variable is the halt message, and a pass made before any
    message arrives takes nothing from the queues and writes nothing. *)
Definition logger_starts_halted (P : platform) (h : datalogger.header_in) : Prop :=
  datalogger.msg (datalogger.open_log h) = lit "h" /\
  forall q l' q' go_on,
    datalogger.pass P (datalogger.open_log h) q None = Done (l', q', go_on) ->
    q' = q /\ datalogger.datalog l' = datalogger.datalog (datalogger.open_log h).

(** "A Display Feed consumes no data while halted", as the specification
    words it. *)
Definition display_consumes_nothing_halted (ysize : Z) : Prop :=
  forall q r q',
    sensorfrontend.pass (sensorfrontend.start ysize)
                        sensorfrontend.initial_msg q = Done (r, q') ->
    q' = q.

(** No poll of the mailbox delivers the run message. *)
Definition no_run (mail : list mailpoll) : bool :=
  forallb (fun m => match m with
                    | Some x => negb (is_msg "r" x)
                    | None => true
                    end) mail.

(** No poll of the mailbox delivers the quit message. *)
Definition no_quit (mail : list mailpoll) : bool :=
  forallb (fun m => match m with
                    | Some x => negb (is_msg "q" x)
                    | None => true
                    end) mail.

(** What reaches the display queue before each pass is a number of
    whole raw/cooked pairs. *)
Definition whole_pairs (rounds : list (list pyval * mailpoll)) : bool :=
  forallb (fun round => Nat.even (length (fst round))) rounds.

(** *** Teardown order *)

Definition is_poll (a : appconfig.action) : bool :=
  match a with
  | appconfig.Empty _ _ => true
  | _ => false
  end.





End Statements.

(** ** ti2c.py: accessors and bus commands *)

Module Ti2cCommands.
Import Ti2c.

(** The class constants for one-shot operation. *)
Definition one_shot_cfg : Z := 0x0c.
Definition one_shot_trig : Z := 0x8c.

Definition get_address (s : tempsensor) : Z := address s.
Definition get_mode (s : tempsensor) : Z := mode s.
Definition get_config (s : tempsensor) : Z := cfgbyte s.
Definition get_slope (s : tempsensor) : float := slope s.
Definition get_intercept (s : tempsensor) : float := intercept s.

(** The three accessors that index the mode table; [None] is
    [IndexError]. *)
Definition get_resolution (s : tempsensor) : option Z :=
  option_map resolution (py_index mcp3421 (mode s)).
Definition get_samplerate (s : tempsensor) : option float :=
  option_map samplerate (py_index mcp3421 (mode s)).
Definition get_samplemask (s : tempsensor) : option Z :=
  option_map samplemask (py_index mcp3421 (mode s)).

Definition with_cfgbyte (s : tempsensor) (c : Z) : tempsensor :=
  {| i2caddrind := i2caddrind s; address := address s; mode := mode s;
     cfgbyte := c; status := status s; slope := slope s;
     intercept := intercept s; units := units s; raw := raw s;
     cooked := cooked s |}.

(** A [bus.write_byte(address, byte)]. *)
Definition buswrite := (Z * Z)%type.

(** Each command gives the sensor after the call and the byte it writes
    to the bus.  A write that the device does not acknowledge raises in
    [smbus]; what follows describes the calls that go through. *)
Definition stop_sampling (s : tempsensor) : tempsensor * buswrite :=
  let c := Z.land (cfgbyte s) 0x6f in
  (with_cfgbyte s c, (address s, Z.lor c 0x80)).

Definition start_sampling (s : tempsensor) : tempsensor * buswrite :=
  let c := Z.lor (cfgbyte s) 0x10 in
  (with_cfgbyte s c, (address s, c)).

Definition trigger (s : tempsensor) : buswrite :=
  (address s, Z.lor (cfgbyte s) 0x80).

Definition write_config_oneshot (s : tempsensor) : tempsensor * buswrite :=
  let c := Z.land (cfgbyte s) 0x6f in
  (with_cfgbyte s c, (address s, c)).

Definition write_config (s : tempsensor) : buswrite :=
  (address s, cfgbyte s).

(** [set_mode] called on an existing object. *)
Definition set_mode_of (s : tempsensor) (m : Z) : tempsensor :=
  {| i2caddrind := i2caddrind s; address := address s;
     mode := set_mode (mode s) m;
     cfgbyte := cfgbyte s; status := status s; slope := slope s;
     intercept := intercept s; units := units s; raw := raw s;
     cooked := cooked s |}.

End Ti2cCommands.

(** ** class appconfig: creation and broadcasts *)

(** [l[i] = f(l[i])] on a list of objects; [None] is [IndexError]. *)
Definition py_update {A : Type} (l : list A) (i : Z) (f : A -> A) : option (list A) :=
  match py_index l i with
  | None => None
  | Some x => sensorfrontend.py_store l i (f x)
  end.

Module framework.
Import Ti2c.

(** One value of [sensorcfg['sensors']]. *)
Record sensorentry := {
  cfg_address : Z;
  cfg_modeind : Z;
  cfg_slope : float;
  cfg_intercept : float;
  cfg_units : Z
}.

(** The first loop of [gensensorframework].  [entries] lists the items
    of [sensorcfg['sensors']] in the order [sorted] gives, each key
    already converted by [int]; the other two arguments are
    [self.sensorno] and [self.sensor] as built so far. *)
Fixpoint instantiate (entries : list (Z * sensorentry))
    (sensorno : list Z) (sensor : list tempsensor)
  : outcome (list Z * list tempsensor) :=
  match entries with
  | [] => Done (sensorno, sensor)
  | (s, e) :: rest =>
      if negb (cfg_address e =? -1) then
        let sensorno := sensorno ++ [s] in
        match init (cfg_address e) (cfg_modeind e) (cfg_units e) with
        | None => Raised
        | Some t =>
            let sensor := sensor ++ [t] in
            match py_update sensor s (fun x => set_slope x (cfg_slope e)) with
            | None => Raised
            | Some sensor =>
                match py_update sensor s
                        (fun x => set_intercept x (cfg_intercept e)) with
                | None => Raised
                | Some sensor => instantiate rest sensorno sensor
                end
            end
        end
      else instantiate rest sensorno sensor
  end.

(** The queues [gensensorframework] allocates. *)
Record queues := {
  qfileio : list (list qitem);
  qdisplay : list (list pyval);
  qmsg : list (list str)
}.

Definition allocate (n : nat) : queues :=
  {| qfileio := repeat [] (n + 1);
     qdisplay := repeat [] n;
     qmsg := repeat [] (n * 2 + 2) |}.

(** [for q in self.qmsg: q.put(m)] *)
Definition put_all (m : str) (qmsg : list (list str)) : list (list str) :=
  map (fun q => q_put q m) qmsg.

(** [self.qmsg[i].put(m)]; [None] is [IndexError]. *)
Definition put_at (qmsg : list (list str)) (i : nat) (m : str)
  : option (list (list str)) :=
  match nth_error qmsg i with
  | None => None
  | Some q => Some (firstn i qmsg ++ q_put q m :: skipn (S i) qmsg)
  end.

(** [for q in range(...): self.qmsg[q].put(m)] *)
Fixpoint put_each (qmsg : list (list str)) (idx : list nat) (m : str)
  : option (list (list str)) :=
  match idx with
  | [] => Some qmsg
  | i :: idx' =>
      match put_at qmsg i m with
      | None => None
      | Some qmsg' => put_each qmsg' idx' m
      end
  end.

(** [n] is [len(self.sensor)] in each of the four. *)
Definition startsensors (qmsg : list (list str)) : list (list str) :=
  put_all (lit "r") qmsg.

Definition stopsensors (qmsg : list (list str)) : list (list str) :=
  put_all (lit "h") qmsg.

Definition pausedisplayupdates (n : nat) (qmsg : list (list str))
  : option (list (list str)) :=
  put_each qmsg (seq n (n * 2 - n)) (lit "h").

Definition resumedisplayupdates (n : nat) (qmsg : list (list str))
  : option (list (list str)) :=
  put_each qmsg (seq n (n * 2 - n)) (lit "r").

End framework.

(** ** jtlog.py: the command-line logger *)

Module jtlog.
Import Ti2c.

Definition maxsensors : Z := 8.
Definition cfgmodes : Z := 4.

(** The part of [get_cfg]'s loop that handles the [-s] options.  [args]
    are the options' arguments after [int]; [acks] tells whether a
    device acknowledges the configuration write to an address; [s] is
    the sensor index counter and [sensor] the list built so far.
    [Raised] stands for the [exit] calls and for what escapes the
    exception handler. *)
Fixpoint sensor_options (acks : Z -> bool) (args : list Z) (s : Z)
    (sensor : list tempsensor) : outcome (list tempsensor) :=
  match args with
  | [] => Done sensor
  | arg :: args' =>
      if Z.of_nat (length sensor) >? maxsensors then Raised
      else if (1 <=? arg) && (arg <? cfgmodes + 1) then
        match init s (arg - 1) 0 with
        | None => Raised
        | Some t =>
            if acks (fst (Ti2cCommands.write_config t))
            then sensor_options acks args' (s + 1) (sensor ++ [t])
            else Raised
        end
      else if negb ((0 <=? arg) && (arg <? cfgmodes + 1)) then Raised
      else sensor_options acks args' (s + 1) sensor
  end.

(** One pass of [main]'s loop over one sensor's down counter: the new
    value of [sdowncount[i]] and whether the sensor is read.  [ini] is
    [sdowncountini[i]], the ratio of the highest sample rate to this
    sensor's. *)
Definition downcount_pass (ini cur : float) : float * bool :=
  if (cur =? 1)%float then (ini, true) else ((cur - 1)%float, false).

(** The passes of one sensor, from the counter's forced initial value:
    for each pass, whether the sensor is read. *)
Fixpoint downcount_passes (n : nat) (ini cur : float) : list bool :=
  match n with
  | O => []
  | S n' =>
      let '(cur', rd) := downcount_pass ini cur in
      rd :: downcount_passes n' ini cur'
  end.

End jtlog.

(** ** Vocabulary of the further properties *)

Module Terms.
Import Ti2c.

(** The bytes a device sends for the conversion result [v]: the
    two's-complement value sign-extended to three bytes in the 18-bit
    mode and to two bytes otherwise, most significant byte first, then
    the status byte [st]. *)
Definition transmit (cfg : modecfg) (st : Z) (v : Z) : mcpdata :=
  if resolution cfg =? 18 then
    let w := v mod 2 ^ 24 in
    {| b0 := w / 2 ^ 16; b1 := (w / 2 ^ 8) mod 2 ^ 8; b2 := w mod 2 ^ 8; b3 := st |}
  else
    let w := v mod 2 ^ 16 in
    {| b0 := w / 2 ^ 8; b1 := w mod 2 ^ 8; b2 := st; b3 := st |}.

Definition is_byte (x : Z) : Prop := 0 <= x <= 255.

(** The display task's buffers have the size its window gives them and
    its index points into them. *)
Definition history_ok (d : sensorfrontend.t) : Prop :=
  0 < sensorfrontend.ysize d - 3 /\
  Z.of_nat (length (sensorfrontend.raw d)) = sensorfrontend.ysize d - 3 /\
  Z.of_nat (length (sensorfrontend.cookedhist d)) = sensorfrontend.ysize d - 3 /\
  0 <= sensorfrontend.ind d < sensorfrontend.ysize d - 3.

(** The display queue holding the given raw/cooked pairs. *)
Definition pairs_queue (pairs : list (pyval * pyval)) : list pyval :=
  flat_map (fun p => [fst p; snd p]) pairs.

(** The sensor queues and the timestamp queue that hold the given
    rows, oldest first, in front of what [tails] and [later] hold. *)
Fixpoint sensor_queues (rows : list (float * list (Z * Z * float)))
    (tails : list (list qitem)) : list (list qitem) :=
  match rows with
  | [] => tails
  | (_, ds) :: rows' =>
      map (fun x => Statements.float_sample (fst x) :: snd x)
          (combine ds (sensor_queues rows' tails))
  end.

Fixpoint time_queue (rows : list (float * list (Z * Z * float)))
    (later : list qitem) : list qitem :=
  match rows with
  | [] => later
  | (t, _) :: rows' => QTime t :: time_queue rows' later
  end.

(** A row for [n] sensors whose first Sample has a non-zero address. *)
Definition real_row (n : nat) (row : float * list (Z * Z * float)) : Prop :=
  length (snd row) = n /\
  match snd row with
  | [] => False
  | (a, _, _) :: _ => a <> 0
  end.

(** The dummy row the teardown pushes for [n] sensors. *)
Definition dummy_row (n : nat) (now : float) : float * list (Z * Z * float) :=
  (now, repeat (0, 0, 0%float) n).

(** How many times the teardown puts ['q'] into mailbox [i], and how
    many times it joins a thread. *)
Definition quits_to (i : nat) (done : list appconfig.action) : nat :=
  length (filter (fun a => match a with
                           | appconfig.PutMsg j m => (j =? i)%nat && is_msg "q" m
                           | _ => false
                           end) done).

Definition thread_eqb (x y : appconfig.thread) : bool :=
  match x, y with
  | appconfig.Tlogger, appconfig.Tlogger => true
  | appconfig.Tdisplay i, appconfig.Tdisplay j => (i =? j)%nat
  | appconfig.Tbackend i, appconfig.Tbackend j => (i =? j)%nat
  | appconfig.Ttrigger, appconfig.Ttrigger => true
  | _, _ => false
  end.

Definition joins_of (th : appconfig.thread) (done : list appconfig.action) : nat :=
  length (filter (fun a => match a with
                           | appconfig.Join x => thread_eqb x th
                           | _ => false
                           end) done).

(** The thread that reads mailbox [i] of a framework with [n] sensors. *)
Definition owner (n i : nat) : appconfig.thread :=
  if (i <? n)%nat then appconfig.Tbackend i
  else if (i <? n * 2)%nat then appconfig.Tdisplay (i - n)
  else if (i =? n * 2)%nat then appconfig.Tlogger
  else appconfig.Ttrigger.

(** How many times the trigger task has written the convert command. *)
Definition converts (bus : list (Z * Z)) : nat :=
  length (filter (fun w => (fst w =? sensorglobaltrigger.gen_call_address)
                           && (snd w =? sensorglobaltrigger.gen_convert)) bus).

(** The items of a configuration whose keys are '0', '1', ... in order,
    as [gensensorframework] visits them, from key [i] on. *)
Definition keyed_from (i : nat) (entries : list framework.sensorentry)
  : list (Z * framework.sensorentry) :=
  combine (map Z.of_nat (seq i (length entries))) entries.



(** Two example entries: a sensor at index 0 in the 18-bit mode with its
    own calibration, and an empty slot. *)
Definition entry_present : framework.sensorentry :=
  {| framework.cfg_address := 0; framework.cfg_modeind := 3;
     framework.cfg_slope := 0.001; framework.cfg_intercept := 70.5;
     framework.cfg_units := 0 |}.

Definition entry_absent : framework.sensorentry :=
  {| framework.cfg_address := -1; framework.cfg_modeind := 3;
     framework.cfg_slope := 982.0354E-6; framework.cfg_intercept := 70.64385;
     framework.cfg_units := 0 |}.

(** Whether mailbox [i] of a framework with [n] sensors belongs to a
    display task. *)
Definition is_display_mailbox (n i : nat) : bool :=
  (n <=? i)%nat && (i <? n * 2)%nat.

(** How many items the teardown puts on display queue [i]. *)
Definition dummies_to (i : nat) (done : list appconfig.action) : nat :=
  length (filter (fun a => match a with
                           | appconfig.PutDisplay j _ => (j =? i)%nat
                           | _ => false
                           end) done).

(** Every index a teardown action uses lies inside the list of queues
    it indexes, for the queues [framework.allocate n] creates. *)
Definition in_range (n : nat) (a : appconfig.action) : Prop :=
  match a with
  | appconfig.PutMsg i _ => (i < length (framework.qmsg (framework.allocate n)))%nat
  | appconfig.Empty i _ => (i < length (framework.qfileio (framework.allocate n)))%nat
  | appconfig.PutFile i _ => (i < length (framework.qfileio (framework.allocate n)))%nat
  | appconfig.PutDisplay i _ =>
      (i < length (framework.qdisplay (framework.allocate n)))%nat
  | appconfig.Join _ => True
  | appconfig.DelQueues => True
  end.

(** The sensor [get_cfg] builds for the option at position [p] with
    argument [arg]. *)
Definition option_sensor (p : nat) (arg : Z) : option tempsensor :=
  init (Z.of_nat p) (arg - 1) 0.

(** The sensors built for the options [args], the first of which is at
    position [p]. *)
Fixpoint option_sensors (p : nat) (args : list Z) : list (option tempsensor) :=
  match args with
  | [] => []
  | arg :: args' => option_sensor p arg :: option_sensors (S p) args'
  end.

(** The pattern of reads of a sensor that is read once every [r]
    passes, over [r] + 1 passes starting with a read. *)
Definition once_every (r : nat) : list bool :=
  true :: repeat false (r - 1) ++ [true].

End Terms.

(** ** Properties of ti2c.py *)

Module Ti2cFacts.
Import Ti2c Statements.

Lemma py_index_In {A : Type} (l : list A) (i : Z) (x : A) :
  py_index l i = Some x -> In x l.
Proof.
  unfold py_index.
  destruct ((0 <=? i) && (i <? Z.of_nat (length l))).
  - apply nth_error_In.
  - destruct ((- Z.of_nat (length l) <=? i) && (i <? 0)).
    + apply nth_error_In.
    + discriminate.
Qed.

Lemma py_index_range {A : Type} (l : list A) (i : Z) :
  py_index l i = None <->
  (i < - Z.of_nat (length l) \/ Z.of_nat (length l) <= i).
Proof.
  unfold py_index.
  destruct (Z.leb_spec 0 i); destruct (Z.ltb_spec i (Z.of_nat (length l)));
    destruct (Z.leb_spec (- Z.of_nat (length l)) i); destruct (Z.ltb_spec i 0);
    cbn [andb]; try rewrite nth_error_None; try lia;
    split; try lia; try discriminate; auto.
Qed.

(** Every row of the table has mask 2^(W-1) - 1. *)
Lemma mask_of_row (cfg : modecfg) :
  In cfg mcp3421 -> 
  11 <= resolution cfg - 1 /\ samplemask cfg = Z.ones (resolution cfg - 1).
Proof.
  intros H. repeat (destruct H as [<- | H]; [cbn; split; [lia | reflexivity] |]).
  destruct H.
Qed.

Lemma land_ones_bounds (x k : Z) :
  0 <= k -> 0 <= Z.land x (Z.ones k) <= Z.ones k.
Proof.
  intros Hk. rewrite Z.land_ones by assumption.
  rewrite Z.ones_equiv.
  pose proof (Z.mod_pos_bound x (2 ^ k)) as Hm.
  assert (0 < 2 ^ k) by (apply Z.pow_pos_nonneg; lia).
  lia.
Qed.

Lemma set_mode_in_init (m : Z) : set_mode class_mode m = m.
Proof. reflexivity. Qed.

Lemma set_address_table (a : Z) :
  (0 <= a <= 7 \/ In a i2caddress) -> In (snd (set_address a)) i2caddress.
Proof.
  intros [H | H].
  - assert (a = 0 \/ a = 1 \/ a = 2 \/ a = 3 \/ a = 4 \/ a = 5 \/ a = 6 \/ a = 7)
      as Hc by lia.
    repeat (destruct Hc as [-> | Hc]; [cbn; tauto |]). subst a. cbn. tauto.
  - repeat (destruct H as [<- | H]; [cbn; tauto |]). destruct H.
Qed.

Lemma set_address_other (a : Z) :
  ~ (0 <= a <= 7) -> ~ In a i2caddress -> set_address a = (-1, 0).
Proof.
  intros Hr Hn. unfold set_address.
  replace ((0 <=? a) && (a <? Z.of_nat (length i2caddress))) with false.
  - cbn in Hn. cbn [py_find i2caddress].
    repeat match goal with
           | |- context [?x =? a] =>
               destruct (Z.eqb_spec x a); [exfalso; tauto |]
           end.
    reflexivity.
  - symmetry. apply andb_false_iff. cbn. lia.
Qed.

Lemma decode_negative (cfg : modecfg) (d : mcpdata) :
  In cfg mcp3421 -> Z.land (b0 d) 0x80 <> 0 ->
  - (samplemask cfg + 1) <= decode cfg d <= -1.
Proof.
  intros Hin Hneg. destruct (mask_of_row cfg Hin) as [Hw Hm].
  unfold decode. destruct (Z.eqb_spec (Z.land (b0 d) 0x80) 0) as [E | _].
  - contradiction.
  - rewrite Hm.
    pose proof (land_ones_bounds (fst (assemble cfg d)) (resolution cfg - 1)).
    lia.
Qed.

Lemma decode_nonnegative (cfg : modecfg) (d : mcpdata) :
  In cfg mcp3421 -> Z.land (b0 d) 0x80 = 0 ->
  0 <= decode cfg d <= samplemask cfg.
Proof.
  intros Hin Hpos. destruct (mask_of_row cfg Hin) as [Hw Hm].
  unfold decode. rewrite Hpos. cbn [Z.eqb]. rewrite Hm.
  apply land_ones_bounds. lia.
Qed.

(** C4, as stated, fails: in the 12-bit mode the mask is 0x7ff, which is
    not 2^12 - 1, and the two bytes f8 00 of the most negative reading
    decode to -2048, below -(M+1)/2 = -1024. *)
Lemma decode_range_as_specified_fails :
  py_index mcp3421 0 = Some mode12 /\
  samplemask mode12 <> 2 ^ resolution mode12 - 1 /\
  Z.land (b0 most_negative12) 0x80 <> 0 /\
  decode mode12 most_negative12 = -2048 /\
  - ((samplemask mode12 + 1) / 2) = -1024 /\
  ~ decode_range_as_specified mode12 most_negative12.
Proof.
  repeat split; try (cbn; discriminate).
  intros (Hm & _). cbn in Hm. discriminate.
Qed.

(** C4 (amended): for the mode a sensor is in, with bit-width W and
    sample mask M, M = 2^(W-1) - 1; both [read_sensor] and a ready
    [read_status] leave the decoded value in [raw]; that value lies in
    [-(M+1), -1] when the top bit of the first transmitted byte is set
    and in [0, M] otherwise. *)
Theorem decoded_value_range (s : tempsensor) (d : mcpdata) (cfg : modecfg) :
  py_index mcp3421 (mode s) = Some cfg ->
  let M := samplemask cfg in
  M = 2 ^ (resolution cfg - 1) - 1 /\
  (exists s', read_sensor s d = Some (decode cfg d, s') /\ raw s' = decode cfg d) /\
  (forall s', read_status s d = Some (true, s') -> raw s' = decode cfg d) /\
  (Z.land (b0 d) 0x80 <> 0 -> - (M + 1) <= decode cfg d <= -1) /\
  (Z.land (b0 d) 0x80 = 0 -> 0 <= decode cfg d <= M).
Proof.
  intros Hcfg M. pose proof (py_index_In _ _ _ Hcfg) as Hin.
  destruct (mask_of_row cfg Hin) as [Hw Hm].
  split; [| split; [| split; [| split]]].
  - unfold M. rewrite Hm, Z.ones_equiv. lia.
  - unfold read_sensor. rewrite Hcfg. eexists. split; reflexivity.
  - intros s'. unfold read_status. rewrite Hcfg.
    destruct (assemble cfg d) as [r st].
    destruct (negb (Z.land st 128 =? 0)); intros E; inversion E. reflexivity.
  - apply decode_negative; assumption.
  - apply decode_nonnegative; assumption.
Qed.

Lemma decoded_value_range_witness :
  py_index mcp3421 (mode sensor18) = Some mode18 /\
  samplemask mode18 = 2 ^ (resolution mode18 - 1) - 1 /\
  0 <= decode mode18 ready18 <= samplemask mode18.
Proof.
  split; [reflexivity |].
  destruct (decoded_value_range sensor18 ready18 mode18 eq_refl) as (Hm & _ & _ & _ & Hp).
  split; [exact Hm | apply Hp; reflexivity].
Defined.

(** C10, as stated, fails for the negative arguments below -4: the
    argument -5 is stored unchanged, but the table lookup raises instead
    of wrapping to a mode. *)
Lemma negative_mode_not_always_wrapped :
  -5 < 0 /\ set_mode class_mode (-5) = -5 /\
  init 0 (-5) 0 = None /\ ~ wraps_to_mode 0 (-5) 0.
Proof.
  repeat split; try reflexivity.
  intros (s & k & cfg & H & _). cbn in H. discriminate.
Qed.

Lemma init_inv (a m u : Z) (s : tempsensor) :
  init a m u = Some s ->
  exists cfg sl ic,
    py_index mcp3421 m = Some cfg /\ py_index slope_intercept m = Some (sl, ic) /\
    s = {| i2caddrind := fst (set_address a); address := snd (set_address a);
           mode := m; cfgbyte := configbyte cfg; status := configbyte cfg;
           slope := sl; intercept := ic; units := clamp_units u;
           raw := 0; cooked := NInt 0 |}.
Proof.
  unfold init. destruct (set_address a) as [ind adr].
  rewrite set_mode_in_init.
  destruct (py_index mcp3421 m) as [cfg |]; [| discriminate].
  destruct (py_index slope_intercept m) as [[sl ic] |]; [| discriminate].
  intros E. inversion E. exists cfg, sl, ic. auto.
Qed.

Lemma init_some (a m u : Z) :
  -4 <= m <= 3 -> exists s, init a m u = Some s.
Proof.
  intros Hm. unfold init. destruct (set_address a) as [ind adr].
  rewrite set_mode_in_init.
  destruct (py_index mcp3421 m) as [cfg |] eqn:E1.
  - destruct (py_index slope_intercept m) as [[sl ic] |] eqn:E2.
    + eexists. reflexivity.
    + apply py_index_range in E2. cbn in E2. lia.
  - apply py_index_range in E1. cbn in E1. lia.
Qed.

(** C10 (amended): for a mode argument outside 0..3 the constructor
    neither rejects nor clamps: [set_mode] tests the attribute it finds
    (the class default 3) and stores the argument unchanged; the table
    lookup then raises for an argument of 4 or more and for one of -5 or
    less, and for -4..-1 it succeeds, the sensor keeping the negative
    mode and being configured with row [mode + 4] of the table. *)
Theorem init_mode_not_clamped (a m u : Z) :
  m < 0 \/ 3 < m ->
  set_mode class_mode m = m /\
  (4 <= m \/ m <= -5 -> init a m u = None) /\
  (-4 <= m <= -1 ->
   exists s cfg, init a m u = Some s /\ mode s = m /\
     nth_error mcp3421 (Z.to_nat (m + 4)) = Some cfg /\
     py_index mcp3421 (mode s) = Some cfg /\ cfgbyte s = configbyte cfg).
Proof.
  intros _. split; [reflexivity | split].
  - intros Hm. unfold init. destruct (set_address a) as [ind adr].
    rewrite set_mode_in_init.
    assert (py_index mcp3421 m = None) as ->; [| reflexivity].
    apply py_index_range. cbn. lia.
  - intros Hm.
    destruct (init_some a m u ltac:(lia)) as [s Hs].
    destruct (init_inv _ _ _ _ Hs) as (cfg & sl & ic & Hc & _ & ->).
    eexists. exists cfg. split; [exact Hs |]. cbn [mode cfgbyte].
    repeat split; try assumption.
    revert Hc. unfold py_index.
    destruct (Z.leb_spec 0 m); [lia |]. cbn [andb length mcp3421].
    destruct (Z.leb_spec (- Z.of_nat 4) m); [| lia].
    destruct (Z.ltb_spec m 0); [| lia]. cbn [andb].
    intros <-. f_equal. lia.
Qed.

Lemma init_mode_not_clamped_witness :
  set_mode class_mode 4 = 4 /\ init 0 4 0 = None /\
  set_mode class_mode (-1) = -1 /\
  exists s, init 0 (-1) 0 = Some s /\ mode s = -1 /\ cfgbyte s = 0x1c.
Proof.
  destruct (init_mode_not_clamped 0 4 0) as (H1 & H2 & _); [lia |].
  destruct (init_mode_not_clamped 0 (-1) 0) as (H3 & _ & H4); [lia |].
  split; [exact H1 |]. split; [apply H2; lia |]. split; [exact H3 |].
  destruct H4 as (s & cfg & Hs & Hm & Hn & _ & Hc); [lia |].
  exists s. split; [exact Hs |]. split; [exact Hm |].
  rewrite Hc. cbn in Hn. inversion Hn. reflexivity.
Defined.

End Ti2cFacts.

(** ** Properties of the acquisition task *)

Module BackendFacts.
Import Ti2c Statements sensorbackend.

Lemma same_setup_refl (s : tempsensor) : same_setup s s.
Proof. repeat split. Qed.

Lemma emitted_same_setup (s s0 : tempsensor) (cfg : modecfg) (d : mcpdata) :
  same_setup s s0 -> emitted s cfg d = emitted s0 cfg d.
Proof.
  intros (Ha & _ & Hs & Hi & Hu).
  unfold emitted, get_tempcooked, get_tempC, get_tempK, get_tempF, cook.
  cbn [with_reading units cooked]. rewrite Ha, Hs, Hi, Hu. reflexivity.
Qed.

Lemma read_status_ready (s : tempsensor) (cfg : modecfg) (d : mcpdata) :
  py_index mcp3421 (mode s) = Some cfg ->
  read_status s d =
  Some (is_ready cfg d,
        if is_ready cfg d
        then with_reading s (decode cfg d) (snd (assemble cfg d)) (cook s (decode cfg d))
        else with_status s (fst (assemble cfg d)) (snd (assemble cfg d))).
Proof.
  intros Hcfg. unfold read_status, is_ready. rewrite Hcfg.
  destruct (assemble cfg d) as [r st]. cbn [fst snd].
  destruct (Z.land st 128 =? 0); reflexivity.
Qed.

(** One pass: [triggered] ends up telling that the read was not ready,
    and a Sample is put exactly when [triggered] held and the read is
    ready. *)
Lemma poll_edge (b : t) (triggered : bool) (cfg : modecfg) (d : mcpdata)
    (s0 : tempsensor) :
  py_index mcp3421 (mode s0) = Some cfg -> same_setup (sensor b) s0 ->
  exists b',
    poll b triggered d = Done (b', negb (is_ready cfg d)) /\
    same_setup (sensor b') s0 /\
    qfileio b' = qfileio b
                 ++ (if triggered && is_ready cfg d
                     then [QSample (emitted s0 cfg d)] else []) /\
    qdisplay b' = qdisplay b
                  ++ (if triggered && is_ready cfg d
                      then emitted_pair s0 cfg d else []).
Proof.
  intros Hcfg Hsame.
  assert (py_index mcp3421 (mode (sensor b)) = Some cfg) as Hb.
  { destruct Hsame as (_ & -> & _). exact Hcfg. }
  unfold poll. rewrite (read_status_ready _ _ d Hb).
  unfold emitted_pair. rewrite <- (emitted_same_setup _ _ cfg d Hsame).
  destruct triggered; destruct (is_ready cfg d); cbn [negb andb];
    eexists; (split; [reflexivity |]); cbn [sensor qfileio qdisplay];
    repeat split; try apply Hsame; try (rewrite app_nil_r; reflexivity).
  - unfold q_put, emitted. cbn [with_reading address get_tempraw raw].
    rewrite <- app_assoc. reflexivity.
Qed.

(** The second loop: it does not raise, and the queues grow by one
    Sample per rising edge among the reads it makes. *)
Lemma steady_edges (cfg : modecfg) (s0 : tempsensor) :
  py_index mcp3421 (mode s0) = Some cfg ->
  forall bus mail b triggered,
    same_setup (sensor b) s0 ->
    exists b' alive,
      steady b triggered bus mail = Done (b', alive) /\
      qfileio b' = qfileio b
        ++ map (fun d => QSample (emitted s0 cfg d))
               (rising_edges cfg (negb triggered) (seen bus mail)) /\
      qdisplay b' = qdisplay b
        ++ flat_map (emitted_pair s0 cfg)
                    (rising_edges cfg (negb triggered) (seen bus mail)).
Proof.
  intros Hcfg. induction bus as [| d bus IH]; intros mail b triggered Hsame.
  - exists b, true. cbn. rewrite !app_nil_r. auto.
  - destruct mail as [| m mail].
    + exists b, true. cbn. rewrite !app_nil_r. auto.
    + destruct (poll_edge b triggered cfg d s0 Hcfg Hsame)
        as (b1 & Hpoll & Hsame1 & Hf & Hd).
      cbn [steady seen rising_edges]. rewrite Hpoll. cbn [bind].
      rewrite negb_involutive.
      assert (forall reads,
                 (exists b' alive, steady b1 (negb (is_ready cfg d)) bus mail = Done (b', alive) /\
                    qfileio b' = qfileio b1 ++ map (fun d => QSample (emitted s0 cfg d))
                      (rising_edges cfg (is_ready cfg d) reads) /\
                    qdisplay b' = qdisplay b1 ++ flat_map (emitted_pair s0 cfg)
                      (rising_edges cfg (is_ready cfg d) reads)) ->
                 exists b' alive, steady b1 (negb (is_ready cfg d)) bus mail = Done (b', alive) /\
                    qfileio b' = qfileio b ++ map (fun d => QSample (emitted s0 cfg d))
                      ((if triggered && is_ready cfg d then [d] else [])
                       ++ rising_edges cfg (is_ready cfg d) reads) /\
                    qdisplay b' = qdisplay b ++ flat_map (emitted_pair s0 cfg)
                      ((if triggered && is_ready cfg d then [d] else [])
                       ++ rising_edges cfg (is_ready cfg d) reads)) as Hglue.
      { intros reads (b' & alive & Hrun & Hf' & Hd').
        exists b', alive. split; [exact Hrun |].
        rewrite Hf', Hd', Hf, Hd, map_app, flat_map_app, <- !app_assoc.
        destruct (triggered && is_ready cfg d); cbn [map flat_map];
          rewrite ?app_nil_r; auto. }
      assert (exists b' alive, Done (b1, false) = Done (b', alive) /\
                qfileio b' = qfileio b ++ map (fun d => QSample (emitted s0 cfg d))
                  ((if triggered && is_ready cfg d then [d] else []) ++ []) /\
                qdisplay b' = qdisplay b ++ flat_map (emitted_pair s0 cfg)
                  ((if triggered && is_ready cfg d then [d] else []) ++ []))
        as Hquit.
      { exists b1, false. split; [reflexivity |].
        rewrite Hf, Hd, !app_nil_r.
        destruct (triggered && is_ready cfg d); cbn [map flat_map];
          rewrite ?app_nil_r; auto. }
      destruct m as [x |].
      * destruct (is_msg "q" x).
        -- exact Hquit.
        -- apply Hglue.
           specialize (IH mail b1 (negb (is_ready cfg d)) Hsame1).
           rewrite negb_involutive in IH. exact IH.
      * apply Hglue.
        specialize (IH mail b1 (negb (is_ready cfg d)) Hsame1).
        rewrite negb_involutive in IH. exact IH.
Qed.

Lemma rising_edges_count (cfg : modecfg) (reads : list mcpdata) (prev : bool) :
  length (rising_edges cfg prev reads)
  = count_transitions (prev :: map (is_ready cfg) reads).
Proof.
  revert prev. induction reads as [| d reads IH]; intros prev.
  - reflexivity.
  - cbn [rising_edges map]. rewrite length_app, IH.
    cbn [count_transitions].
    destruct (negb prev && is_ready cfg d); reflexivity.
Qed.

Lemma rising_edges_all_ready (cfg : modecfg) (reads : list mcpdata) :
  forallb (is_ready cfg) reads = true -> rising_edges cfg true reads = [].
Proof.
  induction reads as [| d reads IH]; [reflexivity |].
  cbn [forallb rising_edges negb andb]. intros H.
  apply andb_true_iff in H as [Hd Hr]. rewrite Hd. apply IH, Hr.
Qed.

Lemma rising_edges_none_ready (cfg : modecfg) (reads : list mcpdata) (prev : bool) :
  forallb (fun d => negb (is_ready cfg d)) reads = true ->
  rising_edges cfg prev reads = [].
Proof.
  revert prev. induction reads as [| d reads IH]; intros prev; [reflexivity |].
  cbn [forallb rising_edges]. intros H.
  apply andb_true_iff in H as [Hd Hr].
  apply negb_true_iff in Hd. rewrite Hd, andb_false_r. apply IH, Hr.
Qed.

(** C1: from the state the initial-ready phase leaves, the second loop
    of the acquisition task completes every pass, and over the reads it
    makes it puts on the log queue exactly the Samples of the reads that
    complete a not-ready-to-ready transition, each followed on the
    display queue by its raw/cooked pair: one per transition, none when
    every read is ready, none when every read is not ready. *)
Theorem one_sample_per_transition (s : tempsensor) (cfg : modecfg)
    (bus : list mcpdata) (mail : list mailpoll)
    (qd : list pyval) (qf : list qitem) :
  py_index mcp3421 (mode s) = Some cfg ->
  let reads := seen bus mail in
  let edges := rising_edges cfg true reads in
  exists b' alive,
    steady {| sensor := s; qdisplay := qd; qfileio := qf |} false bus mail
    = Done (b', alive) /\
    qfileio b' = qf ++ map (fun d => QSample (emitted s cfg d)) edges /\
    qdisplay b' = qd ++ flat_map (emitted_pair s cfg) edges /\
    length edges = count_transitions (true :: map (is_ready cfg) reads) /\
    (forallb (is_ready cfg) reads = true ->
     qfileio b' = qf /\ qdisplay b' = qd) /\
    (forallb (fun d => negb (is_ready cfg d)) reads = true ->
     qfileio b' = qf /\ qdisplay b' = qd).
Proof.
  intros Hcfg reads edges.
  destruct (steady_edges cfg s Hcfg bus mail
              {| sensor := s; qdisplay := qd; qfileio := qf |} false
              (same_setup_refl s))
    as (b' & alive & Hrun & Hf & Hd).
  cbn [negb qfileio qdisplay] in Hf, Hd. fold reads in Hf, Hd. fold edges in Hf, Hd.
  exists b', alive. split; [exact Hrun |]. split; [exact Hf |].
  split; [exact Hd |]. split; [apply rising_edges_count |]. split.
  - intros Hall. rewrite Hf, Hd. unfold edges.
    rewrite (rising_edges_all_ready cfg reads Hall). cbn.
    rewrite !app_nil_r. auto.
  - intros Hnone. rewrite Hf, Hd. unfold edges.
    rewrite (rising_edges_none_ready cfg reads true Hnone). cbn.
    rewrite !app_nil_r. auto.
Qed.

Lemma one_sample_per_transition_witness :
  exists b',
    steady {| sensor := sensor18; qdisplay := []; qfileio := [] |} false
           [ready18; busy18; busy18; ready18; ready18; busy18; ready18]
           [None; None; Some (lit "r"); None; None; None; Some (lit "q")]
    = Done (b', false) /\
    length (qfileio b') = 2%nat /\ length (qdisplay b') = 4%nat.
Proof.
  destruct (one_sample_per_transition sensor18 mode18
              [ready18; busy18; busy18; ready18; ready18; busy18; ready18]
              [None; None; Some (lit "r"); None; None; None; Some (lit "q")]
              [] [] eq_refl)
    as (b' & alive & Hrun & Hf & Hd & _).
  exists b'. rewrite Hf, Hd. split; [| split; reflexivity].
  rewrite Hrun. f_equal. f_equal.
  cbn in Hrun. inversion Hrun. reflexivity.
Defined.

Lemma get_tempcooked_in_unit (s : tempsensor) (c : float) :
  cooked s = NFloat c -> get_tempcooked s = in_unit (units s) c.
Proof.
  intros Hc.
  unfold get_tempcooked, get_tempC, get_tempK, get_tempF, in_unit, to_pyval.
  rewrite Hc.
  destruct (units s) as [| p | p]; [reflexivity | | reflexivity].
  destruct p as [[p | p |] | [p | p |] |]; try reflexivity;
    destruct p; reflexivity.
Qed.

Lemma get_tempcooked_reading (s : tempsensor) (r st : Z) (c : float) :
  get_tempcooked (with_reading s r st c) = in_unit (units s) c.
Proof.
  exact (get_tempcooked_in_unit (with_reading s r st c) c eq_refl).
Qed.

(** C3, as stated, fails: a sensor built for Kelvin, [tempsensor(0,3,1)],
    that sees a conversion start and complete puts one Sample on its log
    queue whose third field is not raw x slope + intercept: it is that
    value plus 273.15. *)
Lemma cooked_as_specified_fails :
  init 0 3 1 = Some kelvin18 /\
  exists b r c,
    steady {| sensor := kelvin18; qdisplay := []; qfileio := [] |} false
           [busy18; ready18] [None; None] = Done (b, true) /\
    qfileio b = [QSample (0x68, r, VFloat c)] /\
    qdisplay b = [VInt r; VFloat c] /\
    (float_of_Z r * slope kelvin18 + intercept kelvin18 + 273 <? c)%float = true /\
    ~ cooked_as_specified kelvin18 (0x68, r, VFloat c).
Proof.
  split; [reflexivity |].
  eexists. eexists. eexists. split; [vm_compute; reflexivity |].
  split; [reflexivity |]. split; [reflexivity |].
  split; [vm_compute; reflexivity |].
  unfold cooked_as_specified. intros H.
  apply (f_equal (fun v => match v with
                           | VFloat x => (x <? 343)%float
                           | _ => false
                           end)) in H.
  vm_compute in H. discriminate.
Qed.

(** C3 (amended): every Sample the acquisition task puts on its log
    queue, and the pair it puts on the display queue with it, carries
    the raw value decoded from the read and the temperature
    raw x slope + intercept expressed in the sensor's configured unit:
    that value itself for Celsius, plus 273.15 for Kelvin, times 9/5
    plus 32 for Fahrenheit. *)
Theorem cooked_in_configured_unit (s : tempsensor) (cfg : modecfg)
    (bus : list mcpdata) (mail : list mailpoll)
    (qd : list pyval) (qf : list qitem) :
  py_index mcp3421 (mode s) = Some cfg ->
  exists b' alive reads,
    steady {| sensor := s; qdisplay := qd; qfileio := qf |} false bus mail
    = Done (b', alive) /\
    qfileio b' = qf ++
      map (fun d =>
             let r := decode cfg d in
             QSample (address s, r,
                      in_unit (units s) (float_of_Z r * slope s + intercept s)%float))
          reads /\
    qdisplay b' = qd ++
      flat_map (fun d =>
             let r := decode cfg d in
             [VInt r; in_unit (units s) (float_of_Z r * slope s + intercept s)%float])
          reads.
Proof.
  intros Hcfg.
  destruct (steady_edges cfg s Hcfg bus mail
              {| sensor := s; qdisplay := qd; qfileio := qf |} false
              (same_setup_refl s))
    as (b' & alive & Hrun & Hf & Hd).
  exists b', alive, (rising_edges cfg true (seen bus mail)).
  split; [exact Hrun |]. rewrite Hf, Hd. cbn [negb qfileio qdisplay].
  split.
  - f_equal. apply map_ext. intros d.
    unfold emitted. rewrite get_tempcooked_reading. reflexivity.
  - f_equal. apply flat_map_ext. intros d.
    unfold emitted_pair, emitted. rewrite get_tempcooked_reading. reflexivity.
Qed.

Lemma cooked_in_configured_unit_witness :
  exists b' alive reads,
    steady {| sensor := sensor18; qdisplay := []; qfileio := [] |} false
           [busy18; ready18] [None; None] = Done (b', alive) /\
    qfileio b' = [] ++
      map (fun d =>
             let r := decode mode18 d in
             QSample (address sensor18, r,
                      in_unit (units sensor18)
                        (float_of_Z r * slope sensor18 + intercept sensor18)%float))
          reads /\
    qdisplay b' = [] ++
      flat_map (fun d =>
             let r := decode mode18 d in
             [VInt r; in_unit (units sensor18)
                        (float_of_Z r * slope sensor18 + intercept sensor18)%float])
          reads.
Proof.
  apply (cooked_in_configured_unit sensor18 mode18 [busy18; ready18] [None; None]).
  reflexivity.
Defined.

End BackendFacts.

(** ** Properties of the log writer *)

Module LoggerFacts.
Import Statements datalogger.

Lemma write_at_end (f : pyfile.t) (s : str) :
  at_end f ->
  pyfile.content (pyfile.write f s) = pyfile.content f ++ s /\
  at_end (pyfile.write f s).
Proof.
  unfold at_end, pyfile.write. intros H. cbn [pyfile.content pyfile.pos].
  rewrite H, firstn_all, Nat.sub_diag, skipn_all2 by lia. cbn [repeat].
  rewrite app_nil_r. split; [reflexivity |]. rewrite length_app. reflexivity.
Qed.

(** Stepping back one character from the end and writing one character
    replaces the last character. *)
Lemma overwrite_last (f : pyfile.t) (body : str) (x c : ascii) :
  at_end f -> pyfile.content f = body ++ [x] ->
  exists f1,
    pyfile.seek f (pyfile.tell f - 1) = Done f1 /\
    pyfile.content (pyfile.write f1 [c]) = body ++ [c] /\
    at_end (pyfile.write f1 [c]).
Proof.
  unfold at_end, pyfile.seek, pyfile.tell. intros Hend Hc.
  assert (pyfile.pos f = S (length body)) as Hp.
  { rewrite Hend, Hc, length_app. cbn. lia. }
  destruct (Z.ltb_spec (Z.of_nat (pyfile.pos f) - 1) 0) as [Hneg | _]; [lia |].
  eexists. split; [reflexivity |].
  unfold pyfile.write. cbn [pyfile.content pyfile.pos].
  replace (Z.to_nat (Z.of_nat (pyfile.pos f) - 1)) with (length body) by lia.
  rewrite Hc, firstn_app, firstn_all, Nat.sub_diag, length_app.
  cbn [firstn length].
  replace (length body - (length body + 1))%nat with O by lia.
  rewrite skipn_all2 by (rewrite length_app; cbn; lia).
  cbn [repeat]. rewrite !app_nil_r.
  split; [reflexivity |]. rewrite length_app. reflexivity.
Qed.

Lemma write_groups_at_end (P : platform) (ds : list (Z * Z * float)) (f : pyfile.t) :
  at_end f ->
  exists f',
    write_groups P f (map float_sample ds) = Done f' /\
    pyfile.content f' = pyfile.content f
      ++ concat (map (fun d => lit "," ++ group_text P d ++ lit ",") ds) /\
    at_end f'.
Proof.
  revert f. induction ds as [| [[a r] c] ds IH]; intros f Hend.
  - exists f. cbn. rewrite app_nil_r. auto.
  - cbn [map float_sample write_groups format_group format_cooked bind].
    destruct (write_at_end f
                (lit "," ++ format_x 4 a ++ lit "," ++ format_x 7 r ++ lit ","
                 ++ format_f P c ++ lit ",") Hend) as [Hc He].
    destruct (IH _ He) as (f' & Hrun & Hc' & He').
    exists f'. split; [exact Hrun |]. split; [| exact He'].
    rewrite Hc', Hc. cbn [concat map group_text].
    rewrite <- !app_assoc. reflexivity.
Qed.

(** Moving the separators: a comma before and after every group is a
    double comma before every group and one comma at the very end. *)
Lemma groups_shift (P : platform) (ds : list (Z * Z * float)) :
  lit "," ++ concat (map (fun d => lit "," ++ group_text P d ++ lit ",") ds)
  = concat (map (fun d => lit ",," ++ group_text P d) ds) ++ lit ",".
Proof.
  induction ds as [| d ds IH]; [reflexivity |].
  cbn [map concat]. rewrite <- !app_assoc.
  change (lit ",," ++ group_text P d ++ ?x)
    with (lit "," ++ lit "," ++ group_text P d ++ x).
  rewrite <- IH. reflexivity.
Qed.

(** What [write_row] leaves in the file. *)
Lemma write_row_text (P : platform) (f : pyfile.t) (t : float)
    (ds : list (Z * Z * float)) :
  at_end f ->
  exists f',
    write_row P f (QTime t) (map float_sample ds) = Done f' /\
    pyfile.content f' = pyfile.content f ++ row_text P t ds /\
    at_end f'.
Proof.
  intros Hend. unfold write_row. cbn [format_timestamp bind].
  destruct (write_at_end f
              (strftime_local P t ++ lit "." ++ format_03 (millis P t) ++ lit ",")
              Hend) as [Hc He].
  destruct (write_groups_at_end P ds _ He) as (f1 & Hrun & Hc1 & He1).
  rewrite Hrun. cbn [bind].
  assert (pyfile.content f1
          = (pyfile.content f ++ stamp_text P t
             ++ concat (map (fun d => lit ",," ++ group_text P d) ds))
            ++ [","%char]) as Hbody.
  { rewrite Hc1, Hc. unfold stamp_text. rewrite <- !app_assoc.
    do 3 f_equal. rewrite groups_shift. reflexivity. }
  destruct (overwrite_last f1 _ _ "010"%char He1 Hbody) as (f2 & Hseek & Hc2 & He2).
  rewrite Hseek. cbn [bind]. eexists. split; [reflexivity |].
  split; [| exact He2].
  change newline with ["010"%char]. rewrite Hc2. unfold row_text.
  rewrite <- !app_assoc. reflexivity.
Qed.

Lemma row_text_nonempty (P : platform) (t : float) (ds : list (Z * Z * float)) :
  row_text P t ds <> [].
Proof.
  unfold row_text. intros H.
  apply app_eq_nil in H as [_ H]. apply app_eq_nil in H as [_ H].
  discriminate.
Qed.

Lemma take_each_heads (sensors : list ((Z * Z * float) * list qitem)) :
  take_each (map (fun x => float_sample (fst x) :: snd x) sensors)
  = Done (map float_sample (map fst sensors), map snd sensors).
Proof.
  induction sensors as [| [d q] sensors IH]; [reflexivity |].
  cbn [map take_each q_get bind fst snd]. rewrite IH. reflexivity.
Qed.

(** The running branch on queues that hold a full row. *)
Lemma running_with_heads (P : platform) (f : pyfile.t)
    (sensors : list ((Z * Z * float) * list qitem)) (t : float)
    (later : list qitem) :
  running P f (queues_with_heads sensors t later)
  = (a <- first_address (map float_sample (map fst sensors)) ;;
     if negb (a =? 0) then
       f' <- write_row P f (QTime t) (map float_sample (map fst sensors)) ;;
       Done (f', queues_after_row sensors later)
     else Done (f, queues_after_row sensors later)).
Proof.
  unfold running, queues_with_heads, queues_after_row.
  rewrite removelast_last, last_last, take_each_heads.
  destruct (map (fun x => float_sample (fst x) :: snd x) sensors ++ [QTime t :: later])
    eqn:E.
  - destruct sensors; discriminate.
  - reflexivity.
Qed.

(** C2: when every sensor queue holds a Sample and the timestamp queue a
    timestamp, the running branch of the Log Merge loop takes one item
    from each queue and completes; if the address of the first Sample is
    not 0 the file grows by one row, and if it is 0 the file is left
    exactly as it was. *)
Theorem row_written_iff_address_nonzero (P : platform) (f : pyfile.t)
    (a r : Z) (c : float) (rest : list qitem)
    (sensors : list ((Z * Z * float) * list qitem))
    (t : float) (later : list qitem) :
  at_end f ->
  let all := ((a, r, c), rest) :: sensors in
  exists f',
    running P f (queues_with_heads all t later)
    = Done (f', queues_after_row all later) /\
    (a <> 0 ->
     pyfile.content f' = pyfile.content f ++ row_text P t (map fst all) /\
     pyfile.content f' <> pyfile.content f) /\
    (a = 0 -> f' = f).
Proof.
  intros Hend all. rewrite running_with_heads.
  cbn [all map fst float_sample first_address bind].
  destruct (write_row_text P f t ((a, r, c) :: map fst sensors) Hend)
    as (f1 & Hrow & Hc & _).
  cbn [map float_sample] in Hrow.
  destruct (Z.eqb_spec a 0) as [-> | Hne]; cbn [negb].
  - exists f. split; [reflexivity |]. split; [intros H; contradiction | reflexivity].
  - rewrite Hrow. cbn [bind]. exists f1. split; [reflexivity |].
    split; [| intros H; contradiction].
    intros _. split; [exact Hc |]. rewrite Hc. intros H.
    rewrite <- (app_nil_r (pyfile.content f)) in H at 2.
    apply app_inv_head in H. exact (row_text_nonempty P t _ H).
Qed.

Lemma row_written_iff_address_nonzero_witness :
  exists f',
    running demo_platform (datalog (open_log demo_header))
      (queues_with_heads [((0x68, 0xabc, 73.341%float), [])] 0%float [])
    = Done (f', [[]; []]) /\
    pyfile.content f' <> pyfile.content (datalog (open_log demo_header)).
Proof.
  destruct (row_written_iff_address_nonzero demo_platform
              (datalog (open_log demo_header)) 0x68 0xabc 73.341%float [] []
              0%float [] eq_refl) as (f' & Hrun & Hrow & _).
  exists f'. split; [exact Hrun |]. apply Hrow. discriminate.
Defined.

(** C7, as stated, fails: the row written for one sensor at 0x68 has an
    empty field between the timestamp and the address, so it is not the
    row [timestamp,addr0,raw0,cooked0]. *)
Lemma row_as_specified_fails :
  exists f',
    write_row demo_platform (datalog (open_log demo_header)) (QTime 0%float)
              [float_sample (0x68, 0xabc, 73.341%float)] = Done f' /\
    pyfile.content f'
    = pyfile.content (datalog (open_log demo_header))
      ++ lit "2020/06/01 12:00:00.042,,0x68,  0xabc, 73.341" ++ newline /\
    row_as_specified demo_platform 0%float [(0x68, 0xabc, 73.341%float)]
    = lit "2020/06/01 12:00:00.042,0x68,  0xabc, 73.341" ++ newline /\
    pyfile.content f'
    <> pyfile.content (datalog (open_log demo_header))
       ++ row_as_specified demo_platform 0%float [(0x68, 0xabc, 73.341%float)].
Proof.
  eexists. split; [vm_compute; reflexivity |].
  split; [vm_compute; reflexivity |]. split; [vm_compute; reflexivity |].
  vm_compute. discriminate.
Qed.

(** C7 (amended): a data row written at the end of the file is the
    timestamp with three digits of milliseconds, then for each sensor in
    order an empty field followed by its address, raw value and cooked
    value, the fields separated by single commas, and the row terminator
    with no separator before it. *)
Theorem row_layout (P : platform) (f : pyfile.t) (t : float)
    (d : Z * Z * float) (ds : list (Z * Z * float)) :
  at_end f ->
  exists f',
    write_row P f (QTime t) (map float_sample (d :: ds)) = Done f' /\
    pyfile.content f'
    = pyfile.content f
      ++ strftime_local P t ++ lit "." ++ format_03 (millis P t)
      ++ concat (map (fun x => lit ",," ++ format_x 4 (fst (fst x))
                               ++ lit "," ++ format_x 7 (snd (fst x))
                               ++ lit "," ++ format_f P (snd x)) (d :: ds))
      ++ newline /\
    at_end f'.
Proof.
  intros Hend.
  destruct (write_row_text P f t (d :: ds) Hend) as (f' & Hrow & Hc & He).
  exists f'. split; [exact Hrow |]. split; [| exact He].
  rewrite Hc. unfold row_text, stamp_text. rewrite <- !app_assoc.
  rewrite (map_ext (fun x => lit ",," ++ group_text P x)
                   (fun x => lit ",," ++ format_x 4 (fst (fst x))
                             ++ lit "," ++ format_x 7 (snd (fst x))
                             ++ lit "," ++ format_f P (snd x))).
  - reflexivity.
  - intros [[a r] c]. reflexivity.
Qed.

Lemma row_layout_witness :
  exists f',
    write_row demo_platform (datalog (open_log demo_header)) (QTime 0%float)
      (map float_sample [(0x68, 0xabc, 73.341%float); (0x69, -5, 20.5%float)])
    = Done f' /\
    pyfile.content f'
    = pyfile.content (datalog (open_log demo_header))
      ++ lit "2020/06/01 12:00:00.042,,0x68,  0xabc, 73.341,,0x69,   -0x5, 73.341"
      ++ newline.
Proof.
  destruct (row_layout demo_platform (datalog (open_log demo_header)) 0%float
              (0x68, 0xabc, 73.341%float) [(0x69, -5, 20.5%float)] eq_refl)
    as (f' & Hrow & Hc & _).
  exists f'. split; [exact Hrow |]. rewrite Hc. reflexivity.
Defined.

(** Case analysis on the steps of a computation that completed. *)
Ltac step_done H :=
  match type of H with
  | bind ?o _ = Done _ =>
      let E := fresh "E" in
      destruct o eqn:E; cbn [bind] in H; [| discriminate H | discriminate H]
  end.

Lemma write_groups_appends (P : platform) (vs : list qitem) (f f' : pyfile.t) :
  write_groups P f vs = Done f' -> at_end f ->
  exists txt, pyfile.content f' = pyfile.content f ++ txt /\ at_end f'.
Proof.
  revert f. induction vs as [| d vs IH]; intros f Hrun Hend.
  - inversion Hrun. subst. exists []. rewrite app_nil_r. auto.
  - cbn [write_groups] in Hrun. step_done Hrun.
    destruct (write_at_end f a Hend) as [Hc He].
    destruct (IH _ Hrun He) as (txt & Hc' & He').
    exists (a ++ txt). rewrite Hc', Hc, <- app_assoc. auto.
Qed.

Lemma write_row_appends (P : platform) (f f' : pyfile.t) (ts : qitem)
    (vs : list qitem) :
  write_row P f ts vs = Done f' -> at_end f ->
  exists row, pyfile.content f' = pyfile.content f ++ row /\ at_end f'.
Proof.
  unfold write_row. intros Hrun Hend.
  step_done Hrun. rename a into stamp.
  step_done Hrun. rename a into f1.
  assert (exists body, stamp = body ++ [","%char]) as [body ->].
  { destruct ts as [d | t]; [discriminate |]. inversion E.
    exists (strftime_local P t ++ lit "." ++ format_03 (millis P t)).
    rewrite <- !app_assoc. reflexivity. }
  destruct (write_at_end f (body ++ [","%char]) Hend) as [Hc He].
  destruct (write_groups_appends P vs _ f1 E0 He) as (txt & Hc1 & He1).
  assert (exists body' x, pyfile.content f1 = (pyfile.content f ++ body') ++ [x])
    as (body' & x & Hlast).
  { rewrite Hc1, Hc.
    destruct (exists_last (l := (body ++ [","%char]) ++ txt)) as (b' & x & Hx).
    - intros H. apply app_eq_nil in H as [H _].
      apply app_eq_nil in H as [_ H]. discriminate.
    - exists b', x. rewrite <- !app_assoc. rewrite <- !app_assoc in Hx.
      rewrite Hx. reflexivity. }
  destruct (overwrite_last f1 _ x "010"%char He1 Hlast) as (f2 & Hseek & Hc2 & He2).
  rewrite Hseek in Hrun. cbn [bind] in Hrun. inversion Hrun. subst f'.
  change newline with ["010"%char].
  exists (body' ++ ["010"%char]). rewrite Hc2, <- app_assoc. auto.
Qed.

Lemma running_appends (P : platform) (f f' : pyfile.t)
    (q q' : list (list qitem)) :
  running P f q = Done (f', q') -> at_end f ->
  exists row, pyfile.content f' = pyfile.content f ++ row /\ at_end f'.
Proof.
  unfold running. intros Hrun Hend.
  destruct q as [| q0 qs]; [discriminate |].
  step_done Hrun. destruct a as [timestamp tq].
  step_done Hrun. destruct a as [valsensor sq].
  step_done Hrun.
  destruct (negb (a =? 0)).
  - step_done Hrun. inversion Hrun. subst.
    eapply write_row_appends; eassumption.
  - inversion Hrun. subst. exists []. rewrite app_nil_r. auto.
Qed.

Lemma pass_appends (P : platform) (l l' : t) (q q' : list (list qitem))
    (m : mailpoll) (go_on : bool) :
  pass P l q m = Done (l', q', go_on) -> at_end (datalog l) ->
  exists row,
    pyfile.content (datalog l') = pyfile.content (datalog l) ++ row /\
    at_end (datalog l') /\ endstamp l' = endstamp l.
Proof.
  unfold pass. intros Hrun Hend. step_done Hrun. destruct a as [f q1].
  assert (exists row, pyfile.content f = pyfile.content (datalog l) ++ row
                      /\ at_end f) as (row & Hc & He).
  { destruct (is_msg "r" (msg l)).
    - eapply running_appends; eassumption.
    - inversion E. subst. exists []. rewrite app_nil_r. auto. }
  exists row. destruct m; inversion Hrun; subst; cbn; auto.
Qed.

(** A loop that ends has appended whole rows only, and then closed the
    log. *)
Lemma logwriter_loop_appends (P : platform) (e : str) (mail : list mailpoll) :
  forall (l : t) (q q' : list (list qitem)) (f : pyfile.t),
    logwriter_loop P l q mail e = Done (Some f, q') -> at_end (datalog l) ->
    exists l' rows,
      close_log l' e = Done f /\ endstamp l' = endstamp l /\
      pyfile.content (datalog l') = pyfile.content (datalog l) ++ rows /\
      at_end (datalog l').
Proof.
  induction mail as [| m mail IH]; intros l q q' f Hrun Hend.
  - discriminate.
  - cbn [logwriter_loop] in Hrun. step_done Hrun.
    destruct a as [[l1 q1] go_on].
    destruct (pass_appends P l l1 q q1 m go_on E Hend) as (row & Hc & He & Hs).
    destruct go_on.
    + destruct (IH l1 q1 q' f Hrun He) as (l' & rows & Hcl & Hs' & Hc' & He').
      exists l', (row ++ rows). rewrite Hc', Hc, <- app_assoc.
      repeat split; auto; congruence.
    + step_done Hrun. inversion Hrun. subst.
      exists l1, row. auto.
Qed.

Lemma encoded_ascii_text (s : str) : encoded (ascii_text s) = s.
Proof.
  unfold encoded, ascii_text. induction s as [| c s IH]; [reflexivity |].
  cbn [map concat app]. rewrite IH. reflexivity.
Qed.

Lemma single_byte_length (x : text) :
  single_byte x = true -> length (encoded x) = length x.
Proof.
  unfold single_byte, encoded. induction x as [| c x IH]; [reflexivity |].
  cbn [forallb concat length]. intros H.
  apply andb_true_iff in H as [Hc Hx]. apply Nat.eqb_eq in Hc.
  rewrite length_app, Hc, (IH Hx). reflexivity.
Qed.

(** The text the header lines put in the file, and the offset recorded
    for the end time: the characters of the first two lines. *)
Lemma open_log_text (h : header_in) :
  pyfile.content (datalog (open_log h))
  = log_text h (lit "dnE time: " ++ placeholder_asctime h) [] /\
  at_end (datalog (open_log h)) /\
  endstamp (open_log h)
  = (length (lit "Filename: ") + length (log h) + length newline
     + length (start_line h))%nat.
Proof.
  unfold open_log. cbn [datalog endstamp].
  assert (encoded (ascii_text (lit "Filename: ") ++ log h ++ ascii_text newline)
          = filename_line h) as E1.
  { unfold encoded. rewrite !concat_app. fold (encoded (log h)).
    fold (encoded (ascii_text (lit "Filename: "))).
    fold (encoded (ascii_text newline)).
    rewrite !encoded_ascii_text. reflexivity. }
  rewrite E1, encoded_ascii_text. fold (start_line h).
  assert (at_end pyfile.open_w) as H0 by reflexivity.
  destruct (write_at_end _ (filename_line h) H0) as [C1 H1].
  destruct (write_at_end _ (start_line h) H1) as [C2 H2].
  destruct (write_at_end _ (lit "dnE time: " ++ placeholder_asctime h ++ newline) H2)
    as [C3 H3].
  destruct (write_at_end _ (lit "Sample period: " ++ period_text h
                            ++ lit " seconds." ++ newline) H3) as [C4 H4].
  split; [| split; [exact H4 |]].
  - rewrite C4, C3, C2, C1. cbn [pyfile.content pyfile.open_w app].
    unfold log_text, period_line.
    rewrite <- !app_assoc, app_nil_r. reflexivity.
  - unfold ascii_text. rewrite !length_app, !length_map. lia.
Qed.

(** For a log path stored one byte per character the recorded offset
    is the length in bytes of the first two lines. *)
Lemma endstamp_single_byte (h : header_in) :
  single_byte (log h) = true ->
  endstamp (open_log h) = length (filename_line h ++ start_line h).
Proof.
  intros Hb. destruct (open_log_text h) as (_ & _ & ->).
  unfold filename_line. rewrite !length_app, (single_byte_length _ Hb). lia.
Qed.

(** Seeking to the recorded offset and writing a text as long as the
    third line's text replaces that text and nothing else. *)
Lemma close_log_text (h : header_in) (l : t) (rows third e : str) :
  pyfile.content (datalog l) = log_text h third rows ->
  endstamp l = length (filename_line h ++ start_line h) ->
  length (lit "End time: " ++ e) = length third ->
  exists f,
    close_log l e = Done f /\
    pyfile.content f = log_text h (lit "End time: " ++ e) rows.
Proof.
  intros Hc Hs Hlen. unfold close_log, pyfile.seek.
  destruct (Z.ltb_spec (Z.of_nat (endstamp l)) 0) as [Hneg | _]; [lia |].
  cbn [bind]. eexists. split; [reflexivity |].
  unfold pyfile.write. cbn [pyfile.content pyfile.pos].
  rewrite Nat2Z.id, Hc, Hs. unfold log_text.
  set (head := filename_line h ++ start_line h).
  set (new := lit "End time: " ++ e) in *.
  set (tail := newline ++ period_line h ++ rows).
  rewrite !(app_assoc (filename_line h) (start_line h)). fold head.
  rewrite firstn_app, firstn_all, Nat.sub_diag. cbn [firstn].
  rewrite app_nil_r.
  replace (length head - length (head ++ third ++ tail))%nat with O
    by (rewrite length_app; lia).
  cbn [repeat app].
  rewrite skipn_app, (skipn_all2 head) by lia. cbn [app].
  replace (length head + length new - length head)%nat with (length third) by lia.
  rewrite skipn_app, skipn_all, Nat.sub_diag. cbn [skipn app]. reflexivity.
Qed.

(** C8, at a log directory whose name has a letter outside ASCII: the
    offset the Log Merge task records counts the accented letter as one
    character, the file holds it as two bytes, so the seek lands one
    byte before the placeholder line: the end-time text overwrites the
    terminator of the Start time line and leaves the last character of
    the placeholder behind. *)
Theorem end_time_lands_early :
  single_byte (log accent_header) = false /\
  S (endstamp (open_log accent_header))
  = length (filename_line accent_header ++ start_line accent_header) /\
  logwriter demo_platform accent_header demo_queues demo_mail demo_end
  = Done (Some accent_final, [[]; []]) /\
  pyfile.content accent_final
  = filename_line accent_header
    ++ lit "Start time: Mon Jun  1 12:00:00 2020End time: Mon Jun  1 12:00:09 20200"
    ++ newline
    ++ period_line accent_header
    ++ lit "2020/06/01 12:00:00.042,,0x68,  0xabc, 73.341" ++ newline /\
  forall rows,
    pyfile.content accent_final
    <> log_text accent_header (lit "End time: " ++ demo_end) rows.
Proof.
  split; [reflexivity |]. split; [reflexivity |].
  split; [vm_compute; reflexivity |]. split; [vm_compute; reflexivity |].
  intros rows H.
  apply (f_equal (fun x => nth_error x 85)) in H.
  vm_compute in H. discriminate H.
Qed.

End LoggerFacts.

(** ** The sentinel and the addresses of real Samples *)

Module SentinelFacts.
Import Ti2c Statements sensorbackend.

Lemma table_address_nonzero (x : Z) : In x i2caddress -> x <> 0.
Proof.
  intros H. repeat (destruct H as [<- | H]; [discriminate |]). destruct H.
Qed.

(** C9, as stated, fails: [tempsensor(8, 3, 0)] gets address 0, the
    Sample its acquisition task puts on the log queue carries address 0,
    and the Log Merge task drops the row as if it were the teardown's
    dummy row. *)
Lemma sample_with_address_zero :
  init 8 3 0 = Some unaddressed18 /\
  ~ In (address unaddressed18) i2caddress /\
  exists b r c,
    steady {| sensor := unaddressed18; qdisplay := []; qfileio := [] |} false
           [busy18; ready18] [None; None] = Done (b, true) /\
    qfileio b = [QSample (0, r, VFloat c)] /\
    datalogger.running demo_platform
      (datalogger.datalog (datalogger.open_log demo_header))
      [qfileio b; [QTime 0%float]]
    = Done (datalogger.datalog (datalogger.open_log demo_header), [[]; []]).
Proof.
  split; [reflexivity |]. split.
  - cbn. intros H. repeat (destruct H as [H | H]; [discriminate |]). exact H.
  - eexists. eexists. eexists.
    split; [vm_compute; reflexivity |]. split; reflexivity.
Qed.

(** C9 (amended): for a sensor whose address was set from an argument in
    0..7 or in the table 0x68..0x6f, every Sample its acquisition task
    puts on the log queue carries the sensor's address, which is in the
    table and not 0, so the Sample is not the dummy tuple and passes the
    Log Merge task's first-sample test; for any other argument the
    sensor's address is 0. *)
Theorem emitted_address_nonzero (a : Z) (s : tempsensor)
    (bus : list mcpdata) (mail : list mailpoll) (b' : t) (alive : bool) :
  address s = snd (set_address a) ->
  steady {| sensor := s; qdisplay := []; qfileio := [] |} false bus mail
  = Done (b', alive) ->
  (0 <= a <= 7 \/ In a i2caddress ->
   In (address s) i2caddress /\ address s <> 0 /\
   Forall (fun item =>
             (exists r c, item = QSample (address s, r, c)) /\
             item <> appconfig.sentinel /\
             forall others,
               datalogger.first_address (item :: others) = Done (address s))
          (qfileio b')) /\
  (~ (0 <= a <= 7 \/ In a i2caddress) -> address s = 0).
Proof.
  intros Ha Hrun. split.
  - intros Hvalid.
    pose proof (Ti2cFacts.set_address_table a Hvalid) as Hin.
    rewrite <- Ha in Hin. pose proof (table_address_nonzero _ Hin) as Hnz.
    split; [exact Hin |]. split; [exact Hnz |].
    destruct (py_index mcp3421 (mode s)) as [cfg |] eqn:Hcfg.
    + destruct (BackendFacts.steady_edges cfg s Hcfg bus mail
                  {| sensor := s; qdisplay := []; qfileio := [] |} false
                  (BackendFacts.same_setup_refl s))
        as (b1 & alive1 & Hrun1 & Hf & _).
      rewrite Hrun in Hrun1. inversion Hrun1. subst b1 alive1.
      rewrite Hf. cbn [qfileio app]. apply Forall_forall.
      intros item Hitem. apply in_map_iff in Hitem as (d & <- & _).
      unfold emitted. split; [eauto |]. split.
      * unfold appconfig.sentinel. intros E. inversion E. contradiction.
      * intros others. reflexivity.
    + destruct bus as [| d bus]; [inversion Hrun; constructor |].
      destruct mail as [| m mail]; [inversion Hrun; constructor |].
      cbn [steady] in Hrun. unfold poll, read_status in Hrun.
      cbn [sensor] in Hrun. rewrite Hcfg in Hrun. discriminate.
  - intros Hinvalid. rewrite Ha, Ti2cFacts.set_address_other; [reflexivity | |];
      tauto.
Qed.

Lemma emitted_address_nonzero_witness :
  exists b',
    steady {| sensor := sensor18; qdisplay := []; qfileio := [] |} false
           [busy18; ready18] [None; None] = Done (b', true) /\
    address sensor18 <> 0 /\
    Forall (fun item => item <> appconfig.sentinel) (qfileio b').
Proof.
  eexists. split; [vm_compute; reflexivity |].
  destruct (emitted_address_nonzero 0 sensor18 [busy18; ready18] [None; None]
              _ true eq_refl ltac:(vm_compute; reflexivity)) as [H _].
  destruct H as (_ & Hnz & Hall); [left; lia |].
  split; [exact Hnz |].
  eapply Forall_impl; [| exact Hall]. intros item (_ & Hne & _). exact Hne.
Defined.

End SentinelFacts.

(** ** The control state the tasks start in *)

Module StartFacts.
Import Statements.

Lemma no_run_tail (m : mailpoll) (ms : list mailpoll) :
  no_run (m :: ms) = true -> no_run ms = true.
Proof. cbn. intros H. apply andb_true_iff in H as [_ H]. exact H. Qed.

Lemma no_run_head (x : str) (ms : list mailpoll) :
  no_run (Some x :: ms) = true -> is_msg "r" x = false.
Proof.
  cbn. intros H. apply andb_true_iff in H as [H _].
  apply negb_true_iff. exact H.
Qed.

Section Trigger.
Import sensorglobaltrigger.

(** While no run message arrives, the inner loop of the trigger task
    writes nothing to the bus and puts nothing on the timestamp queue,
    and leaves the task halted. *)
Lemma wait_halted (fuel : nat) :
  forall (s s' : t) (e e' : env) (finished : bool),
    wait fuel s e = (s', e', finished) ->
    is_msg "r" (msg s) = false -> no_run (mail e) = true ->
    bus s' = bus s /\ qfileio s' = qfileio s /\
    is_msg "r" (msg s') = false /\ no_run (mail e') = true.
Proof.
  induction fuel as [| fuel IH]; intros s s' e e' finished Hrun Hmsg Hmail.
  - inversion Hrun. subst. auto.
  - cbn [wait] in Hrun.
    destruct (perf e) as [| now ps]; [inversion Hrun; subst; auto |].
    rewrite Hmsg in Hrun. cbn [negb] in Hrun. rewrite orb_true_r in Hrun.
    destruct (mail e) as [| [x |] ms] eqn:Em.
    + inversion Hrun. subst. rewrite Em. auto.
    + rewrite (no_run_head x ms Hmail) in Hrun.
      destruct (is_msg "q" x) eqn:Eq.
      * inversion Hrun. subst. cbn.
        split; [reflexivity |]. split; [reflexivity |].
        split; [exact (no_run_head x ms Hmail) | exact (no_run_tail _ _ Hmail)].
      * apply IH in Hrun; cbn [set_msg msg mail bus qfileio] in *.
        -- exact Hrun.
        -- exact (no_run_head x ms Hmail).
        -- exact (no_run_tail _ _ Hmail).
    + apply IH in Hrun; cbn [mail] in *.
      * exact Hrun.
      * exact Hmsg.
      * exact (no_run_tail _ _ Hmail).
Qed.

Lemma trigger_loop_halted (fuel : nat) :
  forall (s : t) (e : env),
    is_msg "r" (msg s) = false -> no_run (mail e) = true ->
    bus (fst (trigger_loop fuel s e)) = bus s /\
    qfileio (fst (trigger_loop fuel s e)) = qfileio s.
Proof.
  induction fuel as [| fuel IH]; intros s e Hmsg Hmail.
  - cbn. auto.
  - cbn [trigger_loop]. rewrite Hmsg.
    destruct (wait (S fuel) s e) as [[s2 e2] finished] eqn:Hw.
    destruct (wait_halted _ _ _ _ _ _ Hw Hmsg Hmail) as (Hb & Hq & Hm2 & Hmail2).
    destruct finished; cbn [negb].
    + destruct (is_msg "q" (msg s2)).
      * cbn. auto.
      * destruct (IH s2 e2 Hm2 Hmail2) as [Hb' Hq'].
        rewrite Hb', Hq'. auto.
    + cbn. auto.
Qed.

End Trigger.

Section Display.
Import sensorfrontend.

Lemma drain_halted_pairs (q : list pyval) :
  (Nat.even (length q) = true -> drain_halted q = Done []) /\
  (forall x, Nat.even (length (x :: q)) = true -> drain_halted (x :: q) = Done []).
Proof.
  induction q as [| y q [IH1 IH2]].
  - split; [reflexivity | discriminate].
  - split; [apply IH2 |]. intros x H. cbn [drain_halted]. apply IH1, H.
Qed.

Lemma drain_halted_even (q : list pyval) :
  Nat.even (length q) = true -> drain_halted q = Done [].
Proof. apply drain_halted_pairs. Qed.

(** While no run message arrives the display task stays as it was,
    whatever other messages it finds; every pass empties the display
    queue, until a quit message ends the task. *)
Lemma display_loop_halted (d : t) (rounds : list (list pyval * mailpoll)) :
  forall msg,
    is_msg "r" msg = false ->
    whole_pairs rounds = true -> no_run (map snd rounds) = true ->
    exists q alive,
      display_loop d msg [] rounds = Done (d, q, alive) /\
      (is_msg "q" msg = false -> no_quit (map snd rounds) = true ->
       q = [] /\ alive = true).
Proof.
  induction rounds as [| [arrived m] rounds IH]; intros msg Hmsg Hpairs Hrun.
  - exists [], true. split; [reflexivity | auto].
  - cbn [whole_pairs forallb fst] in Hpairs.
    apply andb_true_iff in Hpairs as [Heven Hpairs].
    cbn [map snd] in Hrun.
    cbn [display_loop app]. unfold pass. rewrite Hmsg.
    destruct (is_msg "q" msg) eqn:Hq.
    + exists arrived, false. split; [reflexivity | discriminate].
    + rewrite (drain_halted_even arrived Heven). cbn [bind].
      destruct m as [x |].
      * destruct (IH x (no_run_head x _ Hrun) Hpairs (no_run_tail _ _ Hrun))
          as (q & alive & Hloop & Hrest).
        exists q, alive. split; [exact Hloop |]. intros _ Hnq.
        cbn [map snd no_quit forallb] in Hnq.
        apply andb_true_iff in Hnq as [Hx Hnq].
        apply negb_true_iff in Hx. exact (Hrest Hx Hnq).
      * destruct (IH msg Hmsg Hpairs (no_run_tail _ _ Hrun))
          as (q & alive & Hloop & Hrest).
        exists q, alive. split; [exact Hloop |]. intros _ Hnq.
        cbn [map snd no_quit forallb] in Hnq. exact (Hrest Hq Hnq).
Qed.

End Display.

(** C6, as stated, fails: the Log Merge task starts with its control
    variable set to run, and a pass made before any message arrives
    takes a timestamp and a Sample and writes a row; a halted Display
    Feed takes the pairs waiting in its queue. *)
Lemma tasks_start_halted_fails :
  datalogger.msg (datalogger.open_log demo_header) = lit "r" /\
  (exists l',
     datalogger.pass demo_platform (datalogger.open_log demo_header)
       [[float_sample (0x68, 0xabc, 73.341%float)]; [QTime 0%float]] None
     = Done (l', [[]; []], true) /\
     pyfile.content (datalogger.datalog l')
     = pyfile.content (datalogger.datalog (datalogger.open_log demo_header))
       ++ lit "2020/06/01 12:00:00.042,,0x68,  0xabc, 73.341"
       ++ datalogger.newline) /\
  ~ logger_starts_halted demo_platform demo_header /\
  sensorfrontend.pass (sensorfrontend.start 10) sensorfrontend.initial_msg
    [VInt 0xabc; VFloat 73.341%float] = Done (Some (sensorfrontend.start 10), []) /\
  ~ display_consumes_nothing_halted 10.
Proof.
  split; [reflexivity |].
  split; [eexists; split; vm_compute; reflexivity |].
  split; [| split; [reflexivity |]].
  - intros [H _]. discriminate H.
  - intros H.
    specialize (H [VInt 0xabc; VFloat 73.341%float] _ _ eq_refl). discriminate H.
Qed.

(** The first pass of the Log Merge task, made before any message
    arrives: it takes the timestamp and one Sample from every sensor
    queue, and writes their row unless the first address is 0. *)
Lemma first_pass_writes (P : platform) (h : datalogger.header_in)
    (sensors : list ((Z * Z * float) * list qitem)) (a r : Z) (c : float)
    (rest : list qitem) (t : float) (later : list qitem) :
  let all := ((a, r, c), rest) :: sensors in
  exists l',
    datalogger.pass P (datalogger.open_log h) (queues_with_heads all t later) None
    = Done (l', queues_after_row all later, true) /\
    datalogger.msg l' = lit "r" /\
    pyfile.content (datalogger.datalog l')
    = pyfile.content (datalogger.datalog (datalogger.open_log h))
      ++ (if a =? 0 then [] else row_text P t (map fst all)).
Proof.
  intros all. destruct (LoggerFacts.open_log_text h) as (_ & Hend & _).
  unfold datalogger.pass.
  change (is_msg "r" (datalogger.msg (datalogger.open_log h))) with true.
  cbn iota. rewrite LoggerFacts.running_with_heads.
  cbn [all map fst float_sample datalogger.first_address bind].
  destruct (LoggerFacts.write_row_text P _ t ((a, r, c) :: map fst sensors) Hend)
    as (f1 & Hrow & Hc & _).
  cbn [map float_sample] in Hrow.
  destruct (a =? 0); cbn [negb].
  - cbn [bind]. eexists. split; [reflexivity |].
    split; [reflexivity |]. cbn [datalogger.datalog]. rewrite app_nil_r.
    reflexivity.
  - rewrite Hrow. cbn [bind]. eexists. split; [reflexivity |].
    split; [reflexivity |]. exact Hc.
Qed.

(** C6 (amended): the Global Trigger task and every Display Feed task
    enter their loops with the control variable set to halt, the Log
    Merge task with it set to run.  Until a run message arrives the
    Global Trigger task writes nothing to the bus beyond the reset of
    its constructor and puts no timestamp on its queue.  Until a run
    message arrives a Display Feed task keeps its history, its index and
    its repaint count as they started, whatever other messages it
    finds, and empties its queue at every pass, until a quit message
    ends it.  The Log Merge task, before any message arrives, takes the
    timestamp and one Sample from every sensor queue as soon as they
    are there and writes their row, unless the first address is 0. *)
Theorem tasks_initial_state (P : platform) (period perf0 : float) (fuel : nat)
    (e : sensorglobaltrigger.env) (ysize : Z)
    (rounds : list (list pyval * mailpoll)) (h : datalogger.header_in)
    (sensors : list ((Z * Z * float) * list qitem)) (a r : Z) (c : float)
    (rest : list qitem) (t : float) (later : list qitem) :
  no_run (sensorglobaltrigger.mail e) = true ->
  whole_pairs rounds = true ->
  no_run (map snd rounds) = true ->
  let s0 := sensorglobaltrigger.start period perf0 in
  let s' := fst (sensorglobaltrigger.trigger_loop fuel s0 e) in
  let all := ((a, r, c), rest) :: sensors in
  sensorglobaltrigger.msg s0 = lit "h" /\
  sensorglobaltrigger.bus s'
  = [(sensorglobaltrigger.gen_call_address, sensorglobaltrigger.gen_reset)] /\
  sensorglobaltrigger.qfileio s' = [] /\
  sensorfrontend.initial_msg = lit "h" /\
  (exists q alive,
     sensorfrontend.sensordisplaytask ysize rounds
     = Done (sensorfrontend.start ysize, q, alive) /\
     (no_quit (map snd rounds) = true -> q = [] /\ alive = true)) /\
  datalogger.msg (datalogger.open_log h) = lit "r" /\
  exists l',
    datalogger.pass P (datalogger.open_log h) (queues_with_heads all t later) None
    = Done (l', queues_after_row all later, true) /\
    datalogger.msg l' = lit "r" /\
    pyfile.content (datalogger.datalog l')
    = pyfile.content (datalogger.datalog (datalogger.open_log h))
      ++ (if a =? 0 then [] else row_text P t (map fst all)).
Proof.
  intros Hmail Hpairs Hrounds s0 s' all.
  destruct (trigger_loop_halted fuel s0 e eq_refl Hmail) as [Hb Hq].
  split; [reflexivity |]. split; [exact Hb |]. split; [exact Hq |].
  split; [reflexivity |]. split; [| split; [reflexivity |]].
  - destruct (display_loop_halted (sensorfrontend.start ysize) rounds
                sensorfrontend.initial_msg eq_refl Hpairs Hrounds)
      as (q & alive & Hloop & Hrest).
    exists q, alive. split; [exact Hloop |]. intros Hnq.
    exact (Hrest eq_refl Hnq).
  - apply first_pass_writes.
Qed.

Lemma tasks_initial_state_witness :
  sensorglobaltrigger.qfileio
    (fst (sensorglobaltrigger.trigger_loop 5
            (sensorglobaltrigger.start 1 100)
            {| sensorglobaltrigger.perf := [100.1; 100.3; 100.4; 100.6]%float;
               sensorglobaltrigger.wall := [];
               sensorglobaltrigger.mail := [None; Some (lit "h"); None] |}))
  = [] /\
  sensorfrontend.sensordisplaytask 10
    [([VInt 0xabc; VFloat 73.341%float], Some (lit "h")); ([], None)]
  = Done (sensorfrontend.start 10, [], true) /\
  exists l',
    datalogger.pass demo_platform (datalogger.open_log demo_header)
      [[float_sample (0x68, 0xabc, 73.341%float)]; [QTime 0%float]] None
    = Done (l', [[]; []], true) /\
    pyfile.content (datalogger.datalog l')
    = pyfile.content (datalogger.datalog (datalogger.open_log demo_header))
      ++ lit "2020/06/01 12:00:00.042,,0x68,  0xabc, 73.341"
      ++ datalogger.newline.
Proof.
  destruct (tasks_initial_state demo_platform 1 100 5
              {| sensorglobaltrigger.perf := [100.1; 100.3; 100.4; 100.6]%float;
                 sensorglobaltrigger.wall := [];
                 sensorglobaltrigger.mail := [None; Some (lit "h"); None] |}
              10 [([VInt 0xabc; VFloat 73.341%float], Some (lit "h")); ([], None)]
              demo_header [] 0x68 0xabc 73.341%float [] 0%float []
              eq_refl eq_refl eq_refl)
    as (_ & _ & Hq & _ & Hd & _ & Hl).
  split; [exact Hq |]. split.
  - destruct Hd as (q & alive & Hrun & Hrest).
    destruct (Hrest eq_refl) as [-> ->]. exact Hrun.
  - destruct Hl as (l' & Hpass & _ & Hc).
    exists l'. split; [exact Hpass | exact Hc].
Defined.

End StartFacts.

(** ** The order of the teardown *)

Module TeardownFacts.
Import Statements appconfig.

Lemma sweep_polls (n : nat) (observe : nat -> bool) :
  forallb is_poll (snd (sweep n observe)) = true.
Proof.
  unfold sweep. cbn [snd]. apply forallb_forall.
  intros a Ha. apply in_map_iff in Ha as (i & <- & _). reflexivity.
Qed.


Lemma await_drained_polls (fuel n : nat) (observe : nat -> nat -> bool) :
  forall k polls,
    await_drained fuel n observe k = Some polls ->
    forallb is_poll polls = true.
Proof.
  induction fuel as [| fuel IH]; intros k polls H; [discriminate |].
  cbn [await_drained] in H.
  pose proof (sweep_polls n (observe k)) as Hs.
  destruct (sweep n (observe k)) as [allempty calls]. cbn [snd] in Hs.
  destruct allempty.
  - inversion H. subst. exact Hs.
  - destruct (await_drained fuel n observe (S k)) as [rest |] eqn:E;
      [| discriminate].
    inversion H. subst. rewrite forallb_app, Hs. cbn [andb]. eapply IH, E.
Qed.









End TeardownFacts.

(** ** Further properties of ti2c.py *)

Module Ti2cMore.
Import Ti2c Ti2cCommands Statements Terms.

Ltac eval_set_address :=
  match goal with
  | |- context [set_address ?x] =>
      let r := eval vm_compute in (set_address x) in
      change (set_address x) with r
  end;
  cbn [fst snd].

(** X1: Either the index and the address stored by [set_address] name the
    same table entry, reached from the index or from the address itself,
    or the argument is neither and the pair is (-1, 0). *)
Theorem set_address_consistent (a : Z) :
  (0 <= fst (set_address a) <= 7 /\
   snd (set_address a) = 0x68 + fst (set_address a) /\
   (a = fst (set_address a) \/ a = snd (set_address a))) \/
  (set_address a = (-1, 0) /\ ~ (0 <= a <= 7) /\ ~ In a i2caddress).
Proof.
  destruct (Z_le_dec 0 a) as [H0 |]; [destruct (Z_le_dec a 7) as [H7 |] |].
  - left.
    assert (a = 0 \/ a = 1 \/ a = 2 \/ a = 3 \/ a = 4 \/ a = 5 \/ a = 6 \/ a = 7)
      as Hc by lia.
    repeat (destruct Hc as [-> | Hc]; [eval_set_address; lia |]).
    subst a. eval_set_address. lia.
  - destruct (In_dec Z.eq_dec a i2caddress) as [Hin | Hout].
    + left. repeat (destruct Hin as [<- | Hin]; [eval_set_address; lia |]).
      destruct Hin.
    + right. split; [| split; [lia | exact Hout]].
      apply Ti2cFacts.set_address_other; [lia | exact Hout].
  - destruct (In_dec Z.eq_dec a i2caddress) as [Hin | Hout].
    + left. repeat (destruct Hin as [<- | Hin]; [eval_set_address; lia |]).
      destruct Hin.
    + right. split; [| split; [lia | exact Hout]].
      apply Ti2cFacts.set_address_other; [lia | exact Hout].
Qed.

Lemma land_top_bit (b : Z) :
  0 <= b < 256 -> Z.land b 0x80 = if b <? 128 then 0 else 128.
Proof.
  intros Hb.
  assert (forallb (fun n => Z.land (Z.of_nat n) 0x80
                            =? (if Z.of_nat n <? 128 then 0 else 128))
                  (seq 0 256) = true) as Hall by (vm_compute; reflexivity).
  rewrite forallb_forall in Hall.
  specialize (Hall (Z.to_nat b)). rewrite Z2Nat.id in Hall by lia.
  apply Z.eqb_eq, Hall, in_seq. lia.
Qed.

Lemma transmit_bytes (cfg : modecfg) (st v : Z) :
  is_byte (b0 (transmit cfg st v)) /\ is_byte (b1 (transmit cfg st v)) /\
  (resolution cfg = 18 -> is_byte (b2 (transmit cfg st v))).
Proof.
  unfold transmit, is_byte.
  destruct (Z.eqb_spec (resolution cfg) 18) as [E | E]; cbn [b0 b1 b2].
  - split; [| split; [| intros _]];
      change (2 ^ 24) with 16777216; change (2 ^ 16) with 65536;
      change (2 ^ 8) with 256; Z.div_mod_to_equations; lia.
  - split; [| split; [| intros; contradiction]];
      change (2 ^ 16) with 65536; change (2 ^ 8) with 256;
      Z.div_mod_to_equations; lia.
Qed.

Ltac decode_case k :=
  unfold decode, assemble, transmit; cbn [resolution samplemask Z.eqb Pos.eqb];
  cbn [b0 b1 b2 b3 fst snd];
  rewrite !Z.shiftl_mul_pow2 by lia;
  match goal with
  | |- context [Z.land _ ?m] =>
      match m with
      | 128 => fail 1
      | _ => change m with (Z.ones k)
      end
  end;
  rewrite Z.land_ones by lia;
  change (Z.ones k) with (2 ^ k - 1);
  rewrite land_top_bit
    by (change (2 ^ 24) with 16777216; change (2 ^ 16) with 65536;
        change (2 ^ 8) with 256; Z.div_mod_to_equations; lia).

(** Decoding undoes the device's encoding: for every mode of the table
    and every value that fits its resolution, the sign-extended bytes of
    the value decode to the value. *)
Lemma decode_transmit (cfg : modecfg) (st v : Z) :
  In cfg mcp3421 ->
  - 2 ^ (resolution cfg - 1) <= v < 2 ^ (resolution cfg - 1) ->
  decode cfg (transmit cfg st v) = v.
Proof.
  intros Hin. repeat (destruct Hin as [<- | Hin]); [| | | | destruct Hin];
    cbn [resolution]; intros Hv.
  - change (2 ^ (12 - 1)) with 2048 in Hv. decode_case 11.
    change (2 ^ 16) with 65536; change (2 ^ 8) with 256; change (2 ^ 11) with 2048.
    destruct (Z.ltb_spec ((v mod 65536) / 256) 128); cbn [Z.eqb];
      Z.div_mod_to_equations; lia.
  - change (2 ^ (14 - 1)) with 8192 in Hv. decode_case 13.
    change (2 ^ 16) with 65536; change (2 ^ 8) with 256; change (2 ^ 13) with 8192.
    destruct (Z.ltb_spec ((v mod 65536) / 256) 128); cbn [Z.eqb];
      Z.div_mod_to_equations; lia.
  - change (2 ^ (16 - 1)) with 32768 in Hv. decode_case 15.
    change (2 ^ 16) with 65536; change (2 ^ 8) with 256; change (2 ^ 15) with 32768.
    destruct (Z.ltb_spec ((v mod 65536) / 256) 128); cbn [Z.eqb];
      Z.div_mod_to_equations; lia.
  - change (2 ^ (18 - 1)) with 131072 in Hv. decode_case 17.
    change (2 ^ 24) with 16777216; change (2 ^ 16) with 65536;
      change (2 ^ 8) with 256; change (2 ^ 17) with 131072.
    destruct (Z.ltb_spec ((v mod 16777216) / 65536) 128); cbn [Z.eqb];
      Z.div_mod_to_equations; lia.
Qed.

(** X2: A sensor in a mode of the table reads back what the device
    converted: when the device sends the sign-extended bytes of a value
    that fits the resolution, with the ready bit of the status byte
    clear, [read_status] reports ready and both it and [read_sensor]
    leave that value in [raw] and value x slope + intercept in
    [cooked]. *)
Theorem reading_recovers_value (s : tempsensor) (cfg : modecfg) (st v : Z) :
  py_index mcp3421 (mode s) = Some cfg ->
  - 2 ^ (resolution cfg - 1) <= v < 2 ^ (resolution cfg - 1) ->
  Z.land st 0x80 = 0 ->
  read_status s (transmit cfg st v)
  = Some (true, with_reading s v st (float_of_Z v * slope s + intercept s)%float) /\
  read_sensor s (transmit cfg st v)
  = Some (v, with_reading s v (status s)
                          (float_of_Z v * slope s + intercept s)%float).
Proof.
  intros Hcfg Hv Hst.
  pose proof (decode_transmit cfg st v (Ti2cFacts.py_index_In _ _ _ Hcfg) Hv) as Hd.
  split.
  - rewrite (BackendFacts.read_status_ready s cfg _ Hcfg).
    assert (snd (assemble cfg (transmit cfg st v)) = st) as Hs.
    { unfold assemble, transmit.
      destruct (resolution cfg =? 18); reflexivity. }
    unfold is_ready. rewrite Hs, Hst, Hd. reflexivity.
  - unfold read_sensor. rewrite Hcfg, Hd. reflexivity.
Qed.

Lemma reading_recovers_value_witness :
  read_sensor sensor18 (transmit mode18 0x0c (-131072))
  = Some (-131072,
          with_reading sensor18 (-131072) (status sensor18)
            (float_of_Z (-131072) * slope sensor18 + intercept sensor18)%float).
Proof.
  apply (reading_recovers_value sensor18 mode18 0x0c (-131072));
    [reflexivity | cbn; lia | reflexivity].
Defined.

(** X3: For a sensor constructed in a mode 0..3: the configuration byte is
    the table's, with the continuous-conversion bit set;
    [stop_sampling] clears that bit, keeping the resolution bits, and
    writes the byte with the start-conversion bit set to the sensor's
    address; [trigger] then writes the same byte; [stop_sampling] again
    changes nothing; [start_sampling] restores the sensor as constructed
    and writes the table's byte.  In the 18-bit mode the two one-shot
    bytes are the class constants [one_shot_cfg] and [one_shot_trig]. *)
Theorem one_shot_commands (a m u : Z) (s : tempsensor) :
  0 <= m <= 3 -> init a m u = Some s ->
  cfgbyte s = 0x10 + 4 * m /\
  cfgbyte (fst (stop_sampling s)) = 4 * m /\
  snd (stop_sampling s) = (address s, 0x80 + 4 * m) /\
  trigger (fst (stop_sampling s)) = snd (stop_sampling s) /\
  stop_sampling (fst (stop_sampling s)) = stop_sampling s /\
  start_sampling (fst (stop_sampling s)) = (s, (address s, 0x10 + 4 * m)) /\
  (m = 3 -> cfgbyte (fst (stop_sampling s)) = one_shot_cfg /\
            snd (snd (stop_sampling s)) = one_shot_trig).
Proof.
  intros Hm Hs.
  destruct (Ti2cFacts.init_inv _ _ _ _ Hs) as (cfg & sl & ic & Hc & _ & ->).
  assert (m = 0 \/ m = 1 \/ m = 2 \/ m = 3) as Hcase by lia.
  destruct Hcase as [-> | [-> | [-> | ->]]];
    cbn in Hc; inversion Hc; subst cfg;
    (split; [reflexivity |]); (split; [reflexivity |]);
    (split; [reflexivity |]); (split; [reflexivity |]);
    (split; [reflexivity |]); (split; [reflexivity |]);
    intros E; first [discriminate E | split; reflexivity].
Qed.

Lemma one_shot_commands_witness :
  exists s, init 1 2 0 = Some s /\
    snd (stop_sampling s) = (0x69, 0x88) /\
    start_sampling (fst (stop_sampling s)) = (s, (0x69, 0x18)).
Proof.
  destruct (Ti2cFacts.init_some 1 2 0 ltac:(lia)) as [s Hs].
  exists s. split; [exact Hs |].
  destruct (one_shot_commands 1 2 0 s ltac:(lia) Hs)
    as (_ & _ & Hw & _ & _ & Hstart & _).
  destruct (Ti2cFacts.init_inv _ _ _ _ Hs) as (cfg & sl & ic & _ & _ & Hrec).
  rewrite Hw, Hstart. rewrite Hrec. cbn [address]. split; reflexivity.
Defined.

(** X4: Whatever the units argument, the constructor stores a unit in
    0..2: a negative argument gives Celsius, one above 2 Fahrenheit.
    Before any ready read [get_tempcooked] returns the int 0 that the
    constructor stored for Celsius, and the floats 273.15 for Kelvin and
    32.0 for Fahrenheit.  A sensor that keeps those units never gets
    [None] from [get_tempcooked], and gets a float once a read has
    computed the temperature. *)
Theorem constructed_units_clamped (a m u : Z) (s : tempsensor) :
  init a m u = Some s ->
  units s = Z.max 0 (Z.min 2 u) /\
  get_tempcooked s
  = (if u <=? 0 then VInt 0
     else if u =? 1 then VFloat 273.15%float else VFloat 32%float) /\
  forall s', units s' = units s ->
    get_tempcooked s' <> VNone /\
    forall r st c, exists x, get_tempcooked (with_reading s' r st c) = VFloat x.
Proof.
  intros Hs.
  destruct (Ti2cFacts.init_inv _ _ _ _ Hs) as (cfg & sl & ic & _ & _ & ->).
  cbn [units]. unfold clamp_units.
  assert ((if u <? 0 then 0 else if u >? 2 then 2 else u) = Z.max 0 (Z.min 2 u))
    as ->.
  { destruct (Z.ltb_spec u 0); [lia |]. destruct (Z.gtb_spec u 2); lia. }
  assert (Z.max 0 (Z.min 2 u) = 0 /\ u <= 0
          \/ Z.max 0 (Z.min 2 u) = 1 /\ u = 1
          \/ Z.max 0 (Z.min 2 u) = 2 /\ 2 <= u) as Hcase by lia.
  split; [reflexivity |]. split.
  - unfold get_tempcooked, get_tempC, get_tempK, get_tempF.
    cbn [units cooked to_pyval].
    destruct Hcase as [[-> Hu] | [[-> Hu] | [-> Hu]]].
    + destruct (Z.leb_spec u 0); [reflexivity | lia].
    + subst u. reflexivity.
    + destruct (Z.leb_spec u 0); [lia |].
      destruct (Z.eqb_spec u 1); [lia | reflexivity].
  - intros s' Hu. split.
    + unfold get_tempcooked. rewrite Hu.
      destruct Hcase as [[-> _] | [[-> _] | [-> _]]]; cbn [Z.eqb];
        try discriminate.
      unfold get_tempC, to_pyval. destruct (cooked s'); discriminate.
    + intros r st c. rewrite BackendFacts.get_tempcooked_reading, Hu.
      destruct Hcase as [[-> _] | [[-> _] | [-> _]]]; eexists; reflexivity.
Qed.

Lemma constructed_units_clamped_witness :
  exists s, init 0 3 7 = Some s /\ units s = 2 /\
            get_tempcooked s = VFloat 32%float.
Proof.
  eexists. split; [reflexivity |].
  destruct (constructed_units_clamped 0 3 7 _ eq_refl) as (Hu & Hc & _).
  split; [exact Hu | exact Hc].
Defined.

End Ti2cMore.

(** ** Further properties of the acquisition and display tasks *)

Lemma last_cons {A : Type} (a d : A) (l : list A) :
  last (a :: l) d = last l a.
Proof.
  revert a d. induction l as [| x l IH]; intros a d; [reflexivity |].
  change (last (a :: x :: l) d) with (last (x :: l) d).
  rewrite (IH x d), (IH x a). reflexivity.
Qed.

Module BackendMore.
Import Ti2c Statements Terms sensorbackend.

(** The reads of the first loop that find the conversion in progress
    store their data bytes and status byte in the sensor and change
    nothing else. *)
Lemma await_not_ready (cfg : modecfg) (bus : list mcpdata) :
  forall s,
    py_index mcp3421 (mode s) = Some cfg ->
    forallb (fun d => negb (is_ready cfg d)) bus = true ->
    await_initial_ready s bus
    = Done (fold_left (fun s d => with_status s (fst (assemble cfg d))
                                              (snd (assemble cfg d))) bus s,
            None).
Proof.
  induction bus as [| d bus IH]; intros s Hcfg Hall; [reflexivity |].
  cbn [forallb] in Hall. apply andb_true_iff in Hall as [Hd Hrest].
  apply negb_true_iff in Hd.
  cbn [await_initial_ready fold_left].
  rewrite (BackendFacts.read_status_ready s cfg d Hcfg), Hd.
  apply IH; [exact Hcfg | exact Hrest].
Qed.

Lemma await_first_ready (cfg : modecfg) (pre : list mcpdata) (d : mcpdata)
    (rest : list mcpdata) :
  forall s,
    py_index mcp3421 (mode s) = Some cfg ->
    forallb (fun x => negb (is_ready cfg x)) pre = true ->
    is_ready cfg d = true ->
    exists s',
      await_initial_ready s (pre ++ d :: rest) = Done (s', Some rest) /\
      same_setup s' s.
Proof.
  induction pre as [| x pre IH]; intros s Hcfg Hall Hd.
  - cbn [app await_initial_ready].
    rewrite (BackendFacts.read_status_ready s cfg d Hcfg), Hd.
    eexists. split; [reflexivity |]. repeat split.
  - cbn [forallb] in Hall. apply andb_true_iff in Hall as [Hx Hrest].
    apply negb_true_iff in Hx.
    cbn [app await_initial_ready].
    rewrite (BackendFacts.read_status_ready s cfg x Hcfg), Hx.
    destruct (IH (with_status s (fst (assemble cfg x)) (snd (assemble cfg x)))
                 Hcfg Hrest Hd) as (s' & Hrun & Hsame).
    exists s'. split; [exact Hrun | exact Hsame].
Qed.

(** X5: The whole acquisition task: the reads up to and including the first
    ready one put nothing on the queues, and after them one Sample is
    put per not-ready-to-ready transition. *)
Theorem first_reading_discarded (b : t) (cfg : modecfg)
    (pre : list mcpdata) (d : mcpdata) (rest : list mcpdata)
    (mail : list mailpoll) :
  py_index mcp3421 (mode (sensor b)) = Some cfg ->
  forallb (fun x => negb (is_ready cfg x)) pre = true ->
  is_ready cfg d = true ->
  exists b' alive,
    sensoroneshottask b (pre ++ d :: rest) mail = Done (b', alive) /\
    qfileio b' = qfileio b
      ++ map (fun x => QSample (emitted (sensor b) cfg x))
             (rising_edges cfg true (seen rest mail)) /\
    qdisplay b' = qdisplay b
      ++ flat_map (emitted_pair (sensor b) cfg)
                  (rising_edges cfg true (seen rest mail)).
Proof.
  intros Hcfg Hpre Hd. unfold sensoroneshottask.
  destruct (await_first_ready cfg pre d rest (sensor b) Hcfg Hpre Hd)
    as (s' & Hrun & Hsame).
  rewrite Hrun. cbn [bind].
  destruct (BackendFacts.steady_edges cfg (sensor b) Hcfg rest mail
              {| sensor := s'; qdisplay := qdisplay b; qfileio := qfileio b |}
              false Hsame) as (b' & alive & Hsteady & Hf & Hq).
  exists b', alive. split; [exact Hsteady |]. split; assumption.
Qed.

Lemma first_reading_discarded_witness :
  exists b' alive,
    sensoroneshottask {| sensor := sensor18; qdisplay := []; qfileio := [] |}
      ([busy18; busy18] ++ ready18 :: [ready18; busy18; ready18])
      [None; None; None] = Done (b', alive) /\
    length (qfileio b') = 1%nat.
Proof.
  destruct (first_reading_discarded
              {| sensor := sensor18; qdisplay := []; qfileio := [] |} mode18
              [busy18; busy18] ready18 [ready18; busy18; ready18]
              [None; None; None] eq_refl eq_refl eq_refl)
    as (b' & alive & Hrun & Hf & _).
  exists b', alive. split; [exact Hrun |]. rewrite Hf. reflexivity.
Defined.

Lemma stored_by_not_ready (cfg : modecfg) (bus : list mcpdata) :
  forall s,
    let s' := fold_left (fun s d => with_status s (fst (assemble cfg d))
                                                (snd (assemble cfg d))) bus s in
    same_setup s' s /\ i2caddrind s' = i2caddrind s /\
    cfgbyte s' = cfgbyte s /\ cooked s' = cooked s /\
    (raw s', status s') = last (map (assemble cfg) bus) (raw s, status s).
Proof.
  induction bus as [| d bus IH]; intros s.
  - cbn. repeat split.
  - cbn [fold_left map]. rewrite last_cons.
    destruct (IH (with_status s (fst (assemble cfg d)) (snd (assemble cfg d))))
      as (Hsame & Hi & Hc & Hk & Hlast).
    cbn [with_status i2caddrind cfgbyte cooked raw status] in Hi, Hc, Hk, Hlast.
    split; [| split; [exact Hi | split; [exact Hc | split; [exact Hk |]]]].
    + destruct Hsame as (H1 & H2 & H3 & H4 & H5). repeat split; assumption.
    + rewrite Hlast. destruct (assemble cfg d). reflexivity.
Qed.

(** X6: While the device never reports ready the task stays in its first
    loop: it puts nothing on its queues and does not look at its
    mailbox, so a ['q'] waiting there does not end it.  Every read
    stores its data bytes and its status byte in the sensor object, so
    the sensor ends with those of the last read; its address, mode,
    configuration byte, calibration, unit and cooked value stay as they
    were. *)
Theorem never_ready_never_quits (b : t) (cfg : modecfg)
    (bus : list mcpdata) (mail : list mailpoll) :
  py_index mcp3421 (mode (sensor b)) = Some cfg ->
  forallb (fun x => negb (is_ready cfg x)) bus = true ->
  exists s',
    sensoroneshottask b bus mail
    = Done ({| sensor := s'; qdisplay := qdisplay b; qfileio := qfileio b |},
            true) /\
    same_setup s' (sensor b) /\ i2caddrind s' = i2caddrind (sensor b) /\
    cfgbyte s' = cfgbyte (sensor b) /\ cooked s' = cooked (sensor b) /\
    (raw s', status s')
    = last (map (assemble cfg) bus) (raw (sensor b), status (sensor b)).
Proof.
  intros Hcfg Hall. unfold sensoroneshottask.
  rewrite (await_not_ready cfg bus (sensor b) Hcfg Hall). cbn [bind].
  eexists. split; [reflexivity |].
  apply (stored_by_not_ready cfg bus (sensor b)).
Qed.

Lemma never_ready_never_quits_witness :
  exists s',
    sensoroneshottask {| sensor := sensor18; qdisplay := []; qfileio := [] |}
      [busy18; busy18; busy18] [Some (lit "q")]
    = Done ({| sensor := s'; qdisplay := []; qfileio := [] |}, true) /\
    raw s' = 0 /\ status s' = 0x9c /\ cooked s' = NInt 0.
Proof.
  destruct (never_ready_never_quits
              {| sensor := sensor18; qdisplay := []; qfileio := [] |} mode18
              [busy18; busy18; busy18] [Some (lit "q")] eq_refl eq_refl)
    as (s' & Hrun & _ & _ & _ & Hc & Hlast).
  exists s'. split; [exact Hrun |].
  cbn in Hlast.
  split; [congruence |]. split; [congruence | exact Hc].
Defined.

Lemma pairs_queue_drained (pairs : list (pyval * pyval)) :
  sensorfrontend.drain_halted (pairs_queue pairs) = Done [].
Proof.
  induction pairs as [| p pairs IH]; [reflexivity | exact IH].
Qed.

(** X7: The acquisition task feeds the display queue in whole pairs, one
    pair per Sample on the log queue, so a halted display task that
    drains the queue never waits for a missing half. *)
Theorem display_queue_in_pairs (s : tempsensor) (cfg : modecfg)
    (bus : list mcpdata) (mail : list mailpoll) :
  py_index mcp3421 (mode s) = Some cfg ->
  exists b' alive pairs,
    steady {| sensor := s; qdisplay := []; qfileio := [] |} false bus mail
    = Done (b', alive) /\
    qdisplay b' = pairs_queue pairs /\
    length pairs = length (qfileio b') /\
    sensorfrontend.drain_halted (qdisplay b') = Done [].
Proof.
  intros Hcfg.
  destruct (BackendFacts.steady_edges cfg s Hcfg bus mail
              {| sensor := s; qdisplay := []; qfileio := [] |} false
              (BackendFacts.same_setup_refl s))
    as (b' & alive & Hrun & Hf & Hq).
  cbn [qfileio qdisplay app negb] in Hf, Hq.
  set (edges := rising_edges cfg true (seen bus mail)) in *.
  exists b', alive,
    (map (fun d => (VInt (decode cfg d), snd (emitted s cfg d))) edges).
  assert (qdisplay b'
          = pairs_queue (map (fun d => (VInt (decode cfg d), snd (emitted s cfg d)))
                             edges)) as Hpairs.
  { rewrite Hq. clear. induction edges as [| d edges IH]; [reflexivity |].
    cbn [map flat_map pairs_queue]. rewrite IH. reflexivity. }
  split; [exact Hrun |]. split; [exact Hpairs |].
  split; [rewrite Hf, !length_map; reflexivity |].
  rewrite Hpairs. apply pairs_queue_drained.
Qed.

Lemma display_queue_in_pairs_witness :
  exists b' alive,
    steady {| sensor := sensor18; qdisplay := []; qfileio := [] |} false
           [busy18; ready18; busy18; ready18] [None; None; None; None]
    = Done (b', alive) /\
    sensorfrontend.drain_halted (qdisplay b') = Done [].
Proof.
  destruct (display_queue_in_pairs sensor18 mode18
              [busy18; ready18; busy18; ready18] [None; None; None; None]
              eq_refl) as (b' & alive & pairs & Hrun & _ & _ & Hd).
  exists b', alive. split; [exact Hrun | exact Hd].
Defined.

End BackendMore.

Module DisplayMore.
Import Statements Terms sensorfrontend.

Lemma py_store_ok {A : Type} (l : list A) (i : Z) (v : A) :
  0 <= i < Z.of_nat (length l) ->
  exists l', py_store l i v = Some l' /\ length l' = length l.
Proof.
  intros Hi. unfold py_store.
  destruct (Z.ltb_spec i 0); [lia |].
  destruct (Z.leb_spec 0 i); [| lia].
  destruct (Z.ltb_spec i (Z.of_nat (length l))); [| lia].
  cbn [andb]. eexists. split; [reflexivity |].
  rewrite length_app, length_firstn. cbn [length]. rewrite length_skipn. lia.
Qed.

(** X8: The running branch on a queue of whole pairs, with buffers of the
    window's size: it completes; the buffers keep their size and the
    index stays inside them, having advanced by the number of pairs
    modulo the size; [cooked] holds the last cooked value taken; and the
    window is refreshed exactly once, however many pairs there were, or
    not at all when there were none. *)
Theorem drain_running_history (pairs : list (pyval * pyval)) :
  forall d,
    history_ok d ->
    exists d',
      drain_running d (pairs_queue pairs) = Done d' /\
      history_ok d' /\
      ysize d' = ysize d /\
      ind d' = (ind d + Z.of_nat (length pairs)) mod (ysize d - 3) /\
      refreshes d' = (refreshes d + match pairs with [] => 0 | _ => 1 end)%nat /\
      cooked d' = last (map snd pairs) (cooked d).
Proof.
  induction pairs as [| [r c] pairs IH]; intros d Hok.
  - exists d. destruct Hok as (Hpos & Hr & Hc & Hi).
    cbn. rewrite Z.add_0_r, Z.mod_small, Nat.add_0_r by lia.
    repeat split; auto; lia.
  - destruct Hok as (Hpos & Hr & Hc & Hi).
    destruct (py_store_ok (raw d) (ind d) r ltac:(lia)) as (raw' & Hsr & Hlr).
    destruct (py_store_ok (cookedhist d) (ind d) (cooked d) ltac:(lia))
      as (hist' & Hsc & Hlc).
    change (pairs_queue ((r, c) :: pairs)) with (r :: c :: pairs_queue pairs).
    cbn [drain_running]. rewrite Hsr, Hsc.
    set (d1 := {| ysize := ysize d; raw := raw'; cookedhist := hist';
                  ind := if ind d + 1 >=? ysize d - 3 then 0 else ind d + 1;
                  cooked := c;
                  refreshes := if q_empty (pairs_queue pairs)
                               then S (refreshes d) else refreshes d |}).
    assert (history_ok d1) as Hok1.
    { unfold history_ok, d1. cbn [ysize raw cookedhist ind].
      rewrite Hlr, Hlc. repeat split; try lia;
        destruct (Z.geb_spec (ind d + 1) (ysize d - 3)); lia. }
    destruct (IH d1 Hok1) as (d' & Hrun & Hok' & Hy & Hind & Href & Hcook).
    exists d'. split; [exact Hrun |]. split; [exact Hok' |].
    split; [exact Hy |]. split; [| split].
    + rewrite Hind. unfold d1. cbn [ysize ind length].
      destruct (Z.geb_spec (ind d + 1) (ysize d - 3)) as [Hwrap | Hstay].
      * replace (ind d + Z.of_nat (S (length pairs)))
          with (Z.of_nat (length pairs) + 1 * (ysize d - 3)) by lia.
        rewrite Z.mod_add by lia. reflexivity.
      * f_equal. lia.
    + rewrite Href. unfold d1. cbn [refreshes].
      destruct pairs as [| p pairs']; cbn [pairs_queue flat_map q_empty app];
        lia.
    + rewrite Hcook. unfold d1. cbn [cooked map snd].
      symmetry. apply last_cons.
Qed.

Lemma start_history_ok (ysize : Z) : 3 < ysize -> history_ok (start ysize).
Proof.
  intros H. unfold history_ok, start. cbn [sensorfrontend.ysize raw cookedhist ind].
  rewrite repeat_length. lia.
Qed.

Lemma drain_running_history_witness :
  exists d',
    drain_running (start 5)
      (pairs_queue [(VInt 1, VFloat 1); (VInt 2, VFloat 2); (VInt 3, VFloat 3)])
    = Done d' /\
    ind d' = 1 /\ refreshes d' = 1%nat /\ cooked d' = VFloat 3.
Proof.
  destruct (drain_running_history
              [(VInt 1, VFloat 1); (VInt 2, VFloat 2); (VInt 3, VFloat 3)]
              (start 5) (start_history_ok 5 ltac:(lia)))
    as (d' & Hrun & _ & _ & Hind & Href & Hcook).
  exists d'. split; [exact Hrun |]. split; [exact Hind |].
  split; [exact Href | exact Hcook].
Defined.

(** X9: In a window of three lines or fewer the history buffers are empty,
    and the running branch raises on the first item it takes; the halted
    branch is not affected. *)
Theorem small_window_raises (ysize : Z) (r : pyval) (q : list pyval)
    (pairs : list (pyval * pyval)) :
  ysize <= 3 ->
  pass (start ysize) (lit "r") (r :: q) = Raised /\
  pass (start ysize) initial_msg (pairs_queue pairs) = Done (Some (start ysize), []).
Proof.
  intros H. split.
  - unfold pass. change (is_msg "r" (lit "r")) with true. cbn iota.
    cbn [drain_running start raw ind].
    replace (Z.to_nat (ysize - 3)) with O by lia. reflexivity.
  - unfold pass. change (is_msg "r" initial_msg) with false.
    change (is_msg "q" initial_msg) with false. cbn iota.
    rewrite BackendMore.pairs_queue_drained. reflexivity.
Qed.

Lemma small_window_raises_witness :
  pass (start 3) (lit "r") [VInt 1; VFloat 1] = Raised.
Proof.
  apply (small_window_raises 3 (VInt 1) [VFloat 1] []). lia.
Defined.

End DisplayMore.

(** ** Further properties of the log writer *)

Module LoggerMore.
Import Statements Terms datalogger.

Lemma str_eqb_eq (a b : str) : str_eqb a b = true -> a = b.
Proof.
  unfold str_eqb. destruct (list_eq_dec ascii_dec a b); [auto | discriminate].
Qed.

Lemma map_fst_combine {A B : Type} (l : list A) (l' : list B) :
  length l = length l' -> map fst (combine l l') = l.
Proof.
  revert l'. induction l as [| a l IH]; intros [| b l'] H; try discriminate;
    [reflexivity |].
  cbn. f_equal. apply IH. cbn in H. lia.
Qed.

Lemma map_snd_combine {A B : Type} (l : list A) (l' : list B) :
  length l = length l' -> map snd (combine l l') = l'.
Proof.
  revert l'. induction l as [| a l IH]; intros [| b l'] H; try discriminate;
    [reflexivity |].
  cbn. f_equal. apply IH. cbn in H. lia.
Qed.

Lemma sensor_queues_length (n : nat) (rows : list (float * list (Z * Z * float)))
    (tails : list (list qitem)) :
  length tails = n -> Forall (fun row => length (snd row) = n) rows ->
  length (sensor_queues rows tails) = n.
Proof.
  intros Ht Hrows. induction Hrows as [| [t ds] rows Hd _ IH]; [exact Ht |].
  cbn [sensor_queues]. rewrite length_map, length_combine, IH.
  cbn [snd] in Hd. lia.
Qed.

Lemma sensor_queues_app (rows rows' : list (float * list (Z * Z * float)))
    (tails : list (list qitem)) :
  sensor_queues (rows ++ rows') tails
  = sensor_queues rows (sensor_queues rows' tails).
Proof.
  induction rows as [| [t ds] rows IH]; [reflexivity |].
  cbn [app sensor_queues]. rewrite IH. reflexivity.
Qed.

Lemma time_queue_app (rows rows' : list (float * list (Z * Z * float)))
    (later : list qitem) :
  time_queue (rows ++ rows') later = time_queue rows (time_queue rows' later).
Proof.
  induction rows as [| [t ds] rows IH]; [reflexivity |].
  cbn [app time_queue]. rewrite IH. reflexivity.
Qed.

(** One running pass on queues that start with a row. *)
Lemma running_row (P : platform) (f : pyfile.t) (n : nat)
    (t : float) (ds : list (Z * Z * float)) (qs : list (list qitem))
    (later : list qitem) :
  length ds = n -> length qs = n -> at_end f ->
  running P f (sensor_queues [(t, ds)] qs ++ [QTime t :: later])
  = match ds with
    | [] => Raised
    | (a, _, _) :: _ =>
        if a =? 0 then Done (f, qs ++ [later])
        else match write_row P f (QTime t) (map float_sample ds) with
             | Done f' => Done (f', qs ++ [later])
             | Blocked => Blocked
             | Raised => Raised
             end
    end.
Proof.
  intros Hd Hq Hend. cbn [sensor_queues].
  change (map (fun x => float_sample (fst x) :: snd x) (combine ds qs)
          ++ [QTime t :: later])
    with (queues_with_heads (combine ds qs) t later).
  rewrite LoggerFacts.running_with_heads.
  unfold queues_after_row.
  rewrite map_fst_combine, map_snd_combine by congruence.
  destruct ds as [| [[a r] c] ds]; [reflexivity |].
  cbn [map float_sample first_address bind].
  destruct (a =? 0); reflexivity.
Qed.

(** The passes that write the rows waiting at the head of the queues. *)
Lemma rows_written (P : platform) (e : str) (n : nat)
    (tails : list (list qitem)) (later : list qitem) (mail : list mailpoll) :
  length tails = n ->
  forall (rows : list (float * list (Z * Z * float))) (l : t),
    Forall (real_row n) rows -> at_end (datalog l) -> msg l = lit "r" ->
    exists f',
      at_end f' /\
      pyfile.content f'
      = pyfile.content (datalog l)
        ++ concat (map (fun row => row_text P (fst row) (snd row)) rows) /\
      logwriter_loop P l (sensor_queues rows tails ++ [time_queue rows later])
                     (repeat None (length rows) ++ mail) e
      = logwriter_loop P {| msg := lit "r"; datalog := f'; endstamp := endstamp l |}
                       (tails ++ [later]) mail e.
Proof.
  intros Ht. induction rows as [| [t ds] rows IH]; intros l Hrows Hend Hmsg.
  - exists (datalog l). cbn. rewrite app_nil_r. split; [exact Hend |].
    split; [reflexivity |]. destruct l. cbn in *. subst. reflexivity.
  - inversion Hrows as [| x xs Hrow Hrest]. subst x xs.
    destruct Hrow as [Hlen Hfirst]. cbn [snd] in Hlen, Hfirst.
    assert (length (sensor_queues rows tails) = n) as Hq.
    { apply sensor_queues_length; [exact Ht |].
      eapply Forall_impl; [| exact Hrest]. intros row [H _]. exact H. }
    cbn [length repeat app logwriter_loop]. unfold pass.
    rewrite Hmsg. change (is_msg "r" (lit "r")) with true. cbn iota.
    change (sensor_queues ((t, ds) :: rows) tails ++ [time_queue ((t, ds) :: rows) later])
      with (sensor_queues [(t, ds)] (sensor_queues rows tails)
            ++ [QTime t :: time_queue rows later]).
    rewrite (running_row P (datalog l) n t ds _ _ Hlen Hq Hend).
    destruct ds as [| [[a r] c] ds]; [contradiction |].
    destruct (Z.eqb_spec a 0) as [E | _]; [contradiction |].
    destruct (LoggerFacts.write_row_text P (datalog l) t ((a, r, c) :: ds) Hend)
      as (f1 & Hrow & Hc1 & He1).
    rewrite Hrow. cbn [bind].
    destruct (IH {| msg := lit "r"; datalog := f1; endstamp := endstamp l |}
                 Hrest He1 eq_refl) as (f' & He' & Hc' & Hloop).
    exists f'. split; [exact He' |]. split.
    + rewrite Hc'. cbn [datalog map concat fst snd]. rewrite Hc1, <- app_assoc.
      reflexivity.
    + exact Hloop.
Qed.

(** X10: A whole session, for a log path stored one byte per character
    (an ASCII path): the rows of [n] sensors queued ahead of the
    teardown's dummy row are all written, in order; the dummy row is
    taken and dropped; the ['q'] found after it ends the task, which
    leaves every queue empty and a file made of the header, with the end
    time in place, and exactly those rows. *)
Theorem session_log (P : platform) (h : header_in) (n : nat)
    (rows : list (float * list (Z * Z * float))) (now : float) (e : str) :
  (0 < n)%nat -> Forall (real_row n) rows ->
  single_byte (log h) = true ->
  length e = length (placeholder_asctime h) ->
  exists f,
    logwriter P h
      (sensor_queues (rows ++ [dummy_row n now]) (repeat [] n)
       ++ [time_queue (rows ++ [dummy_row n now]) []])
      (repeat None (length rows) ++ [Some (lit "q")]) e
    = Done (Some f, repeat [] (n + 1)) /\
    pyfile.content f
    = log_text h (lit "End time: " ++ e)
               (concat (map (fun row => row_text P (fst row) (snd row)) rows)).
Proof.
  intros Hn Hrows Hbyte Hlen. unfold logwriter, dummy_row.
  destruct (LoggerFacts.open_log_text h) as (Hc0 & He0 & _).
  pose proof (LoggerFacts.endstamp_single_byte h Hbyte) as Hs0.
  rewrite sensor_queues_app, time_queue_app.
  assert (length (sensor_queues [(now, repeat (0, 0, 0%float) n)] (repeat [] n)) = n)
    as Htails.
  { apply sensor_queues_length; [apply repeat_length |].
    constructor; [apply repeat_length | constructor]. }
  destruct (rows_written P e n _ (time_queue [(now, repeat (0, 0, 0%float) n)] [])
              [Some (lit "q")] Htails rows (open_log h) Hrows He0 eq_refl)
    as (f' & He' & Hc' & Hloop).
  rewrite Hloop. cbn [logwriter_loop]. unfold pass. cbn [msg datalog endstamp].
  change (is_msg "r" (lit "r")) with true. cbn iota.
  change (time_queue [(now, repeat (0, 0, 0%float) n)] []) with [QTime now].
  rewrite (running_row P f' n now (repeat (0, 0, 0%float) n) (repeat [] n) []
             (repeat_length _ _) (repeat_length _ _) He').
  destruct n as [| n]; [lia |]. cbn [repeat Z.eqb bind].
  change (negb (is_msg "q" (lit "q"))) with false. cbn iota.
  set (l' := {| msg := lit "q"; datalog := f'; endstamp := endstamp (open_log h) |}).
  assert (pyfile.content (datalog l')
          = log_text h (lit "dnE time: " ++ placeholder_asctime h)
              (concat (map (fun row => row_text P (fst row) (snd row)) rows)))
    as Hcl.
  { unfold l'. cbn [datalog]. rewrite Hc', Hc0. unfold log_text.
    rewrite <- !app_assoc. reflexivity. }
  destruct (LoggerFacts.close_log_text h l' _ _ e Hcl Hs0) as (f & Hclose & Hf).
  { rewrite !length_app, Hlen. reflexivity. }
  rewrite Hclose. cbn [bind]. exists f. split; [| exact Hf].
  rewrite repeat_app. reflexivity.
Qed.

Lemma session_log_witness :
  exists f,
    logwriter demo_platform demo_header
      (sensor_queues ([(1%float, [(0x68, 0xabc, 73.341%float)])]
                      ++ [dummy_row 1 2%float]) (repeat [] 1)
       ++ [time_queue ([(1%float, [(0x68, 0xabc, 73.341%float)])]
                       ++ [dummy_row 1 2%float]) []])
      (repeat None 1 ++ [Some (lit "q")]) demo_end
    = Done (Some f, repeat [] 2) /\
    pyfile.content f
    = log_text demo_header (lit "End time: " ++ demo_end)
        (lit "2020/06/01 12:00:00.042,,0x68,  0xabc, 73.341" ++ newline).
Proof.
  destruct (session_log demo_platform demo_header 1
              [(1%float, [(0x68, 0xabc, 73.341%float)])] 2%float demo_end)
    as (f & Hrun & Hc).
  - lia.
  - constructor; [| constructor]. split; [reflexivity | cbn; discriminate].
  - reflexivity.
  - reflexivity.
  - exists f. split; [exact Hrun |]. rewrite Hc. reflexivity.
Defined.

(** Halted passes leave the queues and the file alone, whatever arrives
    in the mailbox, until a message other than halt is found. *)
Lemma halted_passes (P : platform) (e : str) (q : list (list qitem))
    (x : str) (mail : list mailpoll) (j : nat) :
  forall l,
    is_msg "r" (msg l) = false ->
    logwriter_loop P l q (repeat None j ++ Some x :: mail) e
    = logwriter_loop P l q (Some x :: mail) e.
Proof.
  induction j as [| j IH]; intros l Hmsg; [reflexivity |].
  rewrite <- (IH l Hmsg). destruct l as [m f s]. cbn [msg] in Hmsg.
  change (repeat None (S j) ++ Some x :: mail)
    with (None :: (repeat None j ++ Some x :: mail)).
  set (rest := repeat None j ++ Some x :: mail).
  cbn [logwriter_loop]. unfold pass at 1.
  cbn [msg datalog endstamp]. rewrite Hmsg. reflexivity.
Qed.

(** X11: Pausing and resuming the Log Merge task loses nothing and repeats
    nothing: a halt message, any number of passes while halted, and a
    run message lead to the same file and the same queues as one pass
    with an empty mailbox. *)
Theorem halt_then_run_is_transparent (P : platform) (e : str)
    (l : t) (q : list (list qitem)) (j : nat) (mail : list mailpoll) :
  msg l = lit "r" ->
  logwriter_loop P l q (Some (lit "h") :: repeat None j ++ Some (lit "r") :: mail) e
  = logwriter_loop P l q (None :: mail) e.
Proof.
  intros Hmsg. destruct l as [m f s]. cbn [msg] in Hmsg. subst m.
  set (rest := repeat None j ++ Some (lit "r") :: mail).
  cbn [logwriter_loop]. unfold pass. cbn [msg datalog endstamp].
  change (is_msg "r" (lit "r")) with true. cbn iota.
  destruct (running P f q) as [[f1 q1] | |]; cbn [bind];
    [| reflexivity | reflexivity].
  change (negb (is_msg "q" (lit "h"))) with true. cbn iota.
  unfold rest. rewrite halted_passes by reflexivity.
  cbn [logwriter_loop]. unfold pass. cbn [msg datalog endstamp].
  change (is_msg "r" (lit "h")) with false. cbn [bind].
  change (negb (is_msg "q" (lit "r"))) with true. cbn iota. reflexivity.
Qed.

Lemma halt_then_run_is_transparent_witness :
  logwriter_loop demo_platform (open_log demo_header) demo_queues
    (Some (lit "h") :: repeat None 3 ++ Some (lit "r") :: [Some (lit "q")]) demo_end
  = logwriter_loop demo_platform (open_log demo_header) demo_queues
    (None :: [Some (lit "q")]) demo_end.
Proof.
  apply (halt_then_run_is_transparent demo_platform demo_end
           (open_log demo_header) demo_queues 3 [Some (lit "q")]).
  reflexivity.
Defined.

(** X12: With no sensor configured the only queue is the timestamp queue:
    the task waits for the first timestamp and raises when it comes,
    before it looks at its mailbox. *)
Theorem no_sensor_raises (P : platform) (h : header_in) (tq : list qitem)
    (m : mailpoll) (mail : list mailpoll) (e : str) :
  logwriter P h [tq] (m :: mail) e
  = match tq with
    | [] => Blocked
    | _ :: _ => Raised
    end.
Proof.
  unfold logwriter. cbn [logwriter_loop]. unfold pass.
  change (is_msg "r" (msg (open_log h))) with true. cbn iota.
  unfold running. cbn [last removelast q_get].
  destruct tq; reflexivity.
Qed.

(** X23: For a log path stored one byte per character (an ASCII path):
    when the Log Merge task ends on ['q'], the offset it seeks to is the
    combined length of the Filename and Start time lines; the file it
    leaves is the file it had before the seek with the text of the third
    line, the placeholder, replaced by the end-time text, every other
    header byte and every data row being the same; the two texts are
    equally long ([time.asctime()] renders every instant in the same
    number of characters). *)
Theorem end_time_overwritten_in_place (P : platform) (h : header_in)
    (qfileio q' : list (list qitem)) (mail : list mailpoll)
    (end_asctime : str) (f : pyfile.t) :
  single_byte (log h) = true ->
  length end_asctime = length (placeholder_asctime h) ->
  logwriter P h qfileio mail end_asctime = Done (Some f, q') ->
  exists l rows,
    close_log l end_asctime = Done f /\
    endstamp l = length (filename_line h ++ start_line h) /\
    pyfile.content (datalog l)
    = log_text h (lit "dnE time: " ++ placeholder_asctime h) rows /\
    pyfile.content f = log_text h (lit "End time: " ++ end_asctime) rows /\
    length (lit "End time: " ++ end_asctime)
    = length (lit "dnE time: " ++ placeholder_asctime h).
Proof.
  intros Hbyte Hlen Hrun. unfold logwriter in Hrun.
  destruct (LoggerFacts.open_log_text h) as (Hc0 & He0 & _).
  pose proof (LoggerFacts.endstamp_single_byte h Hbyte) as Hs0.
  destruct (LoggerFacts.logwriter_loop_appends P end_asctime mail _ _ _ _ Hrun He0)
    as (l & rows & Hclose & Hs & Hc & _).
  assert (length (lit "End time: " ++ end_asctime)
          = length (lit "dnE time: " ++ placeholder_asctime h)) as Hl.
  { rewrite !length_app, Hlen. reflexivity. }
  assert (pyfile.content (datalog l)
          = log_text h (lit "dnE time: " ++ placeholder_asctime h) rows) as Hc1.
  { rewrite Hc, Hc0. unfold log_text. rewrite <- !app_assoc. reflexivity. }
  destruct (LoggerFacts.close_log_text h l rows _ end_asctime Hc1
              (eq_trans Hs Hs0) Hl)
    as (f1 & Hclose1 & Hf1).
  exists l, rows. split; [exact Hclose |]. split; [congruence |].
  split; [exact Hc1 |]. split; [| exact Hl].
  rewrite Hclose in Hclose1. inversion Hclose1. exact Hf1.
Qed.

Lemma end_time_overwritten_in_place_witness :
  logwriter demo_platform demo_header demo_queues demo_mail demo_end
  = Done (Some demo_final, [[]; []]) /\
  exists rows,
    pyfile.content demo_final
    = log_text demo_header (lit "End time: Mon Jun  1 12:00:09 2020") rows.
Proof.
  assert (logwriter demo_platform demo_header demo_queues demo_mail demo_end
          = Done (Some demo_final, [[]; []])) as Hrun by (vm_compute; reflexivity).
  split; [exact Hrun |].
  destruct (end_time_overwritten_in_place demo_platform demo_header demo_queues
              [[]; []] demo_mail demo_end demo_final eq_refl eq_refl Hrun)
    as (l & rows & _ & _ & _ & Hc & _).
  exists rows. exact Hc.
Defined.

End LoggerMore.

(** ** Further properties of the global trigger task *)

Module TriggerMore.
Import Statements Terms sensorglobaltrigger.

Lemma wait_keeps (fuel : nat) :
  forall (s s' : t) (e e' : env) (finished : bool),
    wait fuel s e = (s', e', finished) ->
    bus s' = bus s /\ qfileio s' = qfileio s /\
    triggertime s' = triggertime s /\ wall e' = wall e.
Proof.
  induction fuel as [| fuel IH]; intros s s' e e' finished Hrun.
  - inversion Hrun. subst. auto.
  - cbn [wait] in Hrun.
    destruct (perf e) as [| now ps]; [inversion Hrun; subst; auto |].
    destruct ((0.25 <? tnext s - now)%float || negb (is_msg "r" (msg s))).
    + destruct (mail e) as [| [x |] ms].
      * inversion Hrun. subst. auto.
      * destruct (is_msg "r" x).
        -- destruct ps; inversion Hrun; subst; cbn; auto.
        -- destruct (is_msg "q" x).
           ++ inversion Hrun. subst. cbn. auto.
           ++ apply IH in Hrun. cbn in Hrun. exact Hrun.
      * apply IH in Hrun. cbn in Hrun. exact Hrun.
    + inversion Hrun. subst. cbn. auto.
Qed.

Lemma fire_once (s s1 : t) (e e1 : env) :
  fire s e = Fired s1 e1 ->
  exists w,
    wall e = w :: wall e1 /\
    bus s1 = bus s ++ [(gen_call_address, gen_convert)] /\
    qfileio s1 = qfileio s ++ [QTime w] /\
    triggertime s1 = triggertime s.
Proof.
  unfold fire. destruct (perf e) as [| p1 ps]; [discriminate |].
  destruct (wall e) as [| w ws].
  - destruct (p1 <? tnext s)%float; [| discriminate].
    destruct ps as [| p2 ps']; [discriminate |].
    destruct (tnext s - p2 <? 0)%float; discriminate.
  - assert (forall ps',
               Fired (trigger_and_stamp
                        (set_tnext s (tnext s + triggertime s)%float) w)
                     {| perf := ps'; wall := ws; mail := mail e |}
               = Fired s1 e1 ->
               exists w0,
                 w :: ws = w0 :: wall e1 /\
                 bus s1 = bus s ++ [(gen_call_address, gen_convert)] /\
                 qfileio s1 = qfileio s ++ [QTime w0] /\
                 triggertime s1 = triggertime s) as Hdone.
    { intros ps' E. inversion E. subst. exists w. cbn. auto. }
    destruct (p1 <? tnext s)%float; [| apply Hdone].
    destruct ps as [| p2 ps']; [discriminate |].
    destruct (tnext s - p2 <? 0)%float; [discriminate | apply Hdone].
Qed.

Lemma stamps_follow_triggers (fuel : nat) :
  forall (s : t) (e : env),
    exists k,
      bus (fst (trigger_loop fuel s e))
      = bus s ++ repeat (gen_call_address, gen_convert) k /\
      qfileio (fst (trigger_loop fuel s e))
      = qfileio s ++ map QTime (firstn k (wall e)) /\
      (k <= length (wall e))%nat.
Proof.
  induction fuel as [| fuel IH]; intros s e.
  - exists O. cbn. rewrite !app_nil_r. auto with arith.
  - cbn [trigger_loop].
    assert (forall s1 e1 j,
               bus s1 = bus s ++ repeat (gen_call_address, gen_convert) j ->
               qfileio s1 = qfileio s ++ map QTime (firstn j (wall e)) ->
               wall e1 = skipn j (wall e) -> (j <= length (wall e))%nat ->
               exists k,
                 bus (fst (let '(s2, e2, finished) := wait (S fuel) s1 e1 in
                           if negb finished then (s2, true)
                           else if is_msg "q" (msg s2) then (s2, false)
                           else trigger_loop fuel s2 e2))
                 = bus s ++ repeat (gen_call_address, gen_convert) k /\
                 qfileio (fst (let '(s2, e2, finished) := wait (S fuel) s1 e1 in
                               if negb finished then (s2, true)
                               else if is_msg "q" (msg s2) then (s2, false)
                               else trigger_loop fuel s2 e2))
                 = qfileio s ++ map QTime (firstn k (wall e)) /\
                 (k <= length (wall e))%nat) as Hrest.
    { intros s1 e1 j Hb Hq Hw Hj.
      destruct (wait (S fuel) s1 e1) as [[s2 e2] finished] eqn:Ewait.
      destruct (wait_keeps _ _ _ _ _ _ Ewait) as (Hb2 & Hq2 & _ & Hw2).
      destruct (negb finished); [| destruct (is_msg "q" (msg s2))];
        cbn [fst]; try (exists j; rewrite Hb2, Hq2; auto).
      destruct (IH s2 e2) as (k & Hbk & Hqk & Hk).
      exists (j + k)%nat. rewrite Hbk, Hqk, Hb2, Hq2, Hb, Hq, Hw2, Hw.
      rewrite repeat_app, <- !app_assoc, <- map_app.
      rewrite Hw2, Hw, length_skipn in Hk.
      split; [reflexivity |]. split; [| lia].
      do 2 f_equal.
      rewrite <- (firstn_skipn j (wall e)) at 3.
      rewrite firstn_app, firstn_firstn, length_firstn.
      replace (Nat.min (j + k) j) with j by lia.
      replace (j + k - Nat.min j (length (wall e)))%nat with k by lia.
      reflexivity. }
    destruct (is_msg "r" (msg s)).
    + destruct (fire s e) as [s1 e1 | |] eqn:Efire.
      * destruct (fire_once _ _ _ _ Efire) as (w & Hw & Hb & Hq & _).
        apply (Hrest s1 e1 1%nat).
        -- exact Hb.
        -- rewrite Hq, Hw. reflexivity.
        -- rewrite Hw. reflexivity.
        -- rewrite Hw. cbn. lia.
      * exists O. cbn. rewrite !app_nil_r. auto with arith.
      * exists O. cbn. rewrite !app_nil_r. auto with arith.
    + apply (Hrest s e O); cbn; rewrite ?app_nil_r; auto with arith.
Qed.

(** X13: Every broadcast trigger is stamped: whatever the clock and the
    mailbox deliver, the task has put on the timestamp queue exactly one
    wall-clock reading per convert command it has written to the bus,
    the readings being the successive values of [time.time()], and it
    has written nothing else. *)
Theorem one_timestamp_per_trigger (fuel : nat) (s : t) (e : env) :
  exists k,
    bus (fst (trigger_loop fuel s e))
    = bus s ++ repeat (gen_call_address, gen_convert) k /\
    qfileio (fst (trigger_loop fuel s e))
    = qfileio s ++ map QTime (firstn k (wall e)) /\
    (k <= length (wall e))%nat.
Proof. apply stamps_follow_triggers. Qed.

Lemma trigger_loop_pass (fuel : nat) (s : t) (e : env) :
  trigger_loop (S fuel) s e
  = match (if is_msg "r" (msg s) then fire s e else Fired s e) with
    | Unread => (s, true)
    | SleepError => (s, false)
    | Fired s1 e1 =>
        let '(s2, e2, finished) := wait (S fuel) s1 e1 in
        if negb finished then (s2, true)
        else if is_msg "q" (msg s2) then (s2, false)
        else trigger_loop fuel s2 e2
    end.
Proof. reflexivity. Qed.

Lemma wait_run (fuel : nat) (s : t) (e : env) (now now' : float)
    (ps : list float) (ms : list mailpoll) :
  is_msg "r" (msg s) = false ->
  perf e = now :: now' :: ps -> mail e = Some (lit "r") :: ms ->
  wait (S fuel) s e
  = (set_tnext (set_msg s (lit "r")) now',
     {| perf := ps; wall := wall e; mail := ms |}, true).
Proof.
  intros Hmsg Hperf Hmail. cbn [wait].
  rewrite Hperf, Hmsg. cbn [negb]. rewrite orb_true_r, Hmail.
  change (is_msg "r" (lit "r")) with true. reflexivity.
Qed.

Lemma fire_now (s : t) (e : env) (p1 : float) (ps : list float)
    (w : float) (ws : list float) :
  perf e = p1 :: ps -> (p1 <? tnext s)%float = false -> wall e = w :: ws ->
  fire s e
  = Fired (trigger_and_stamp (set_tnext s (tnext s + triggertime s)%float) w)
          {| perf := ps; wall := ws; mail := mail e |}.
Proof.
  intros Hperf Hclock Hwall. unfold fire. rewrite Hperf, Hclock, Hwall.
  reflexivity.
Qed.

(** X14: A halted task that finds the run message triggers on its very next
    pass, without sleeping when the clock has not gone backwards, and
    stamps that trigger with the first wall-clock reading. *)
Theorem run_fires_at_once (fuel : nat) (s : t) (e : env)
    (now now' p1 : float) (ps : list float) (w : float) (ws : list float)
    (ms : list mailpoll) :
  is_msg "r" (msg s) = false ->
  perf e = now :: now' :: p1 :: ps ->
  (p1 <? now')%float = false ->
  mail e = Some (lit "r") :: ms ->
  wall e = w :: ws ->
  exists k,
    bus (fst (trigger_loop (S (S fuel)) s e))
    = bus s ++ repeat (gen_call_address, gen_convert) (S k) /\
    qfileio (fst (trigger_loop (S (S fuel)) s e))
    = qfileio s ++ QTime w :: map QTime (firstn k ws).
Proof.
  intros Hmsg Hperf Hclock Hmail Hwall.
  rewrite trigger_loop_pass, Hmsg.
  rewrite (wait_run _ s e now now' (p1 :: ps) ms Hmsg Hperf Hmail).
  cbn [negb].
  change (is_msg "q" (msg (set_tnext (set_msg s (lit "r")) now'))) with false.
  cbn iota. rewrite trigger_loop_pass.
  change (is_msg "r" (msg (set_tnext (set_msg s (lit "r")) now'))) with true.
  cbn iota.
  rewrite (fire_now (set_tnext (set_msg s (lit "r")) now')
             {| perf := p1 :: ps; wall := wall e; mail := ms |}
             p1 ps w ws eq_refl Hclock Hwall).
  set (s3 := trigger_and_stamp _ w). set (e3 := {| perf := ps |}).
  assert (bus s3 = bus s ++ [(gen_call_address, gen_convert)]) as Hb3
    by reflexivity.
  assert (qfileio s3 = qfileio s ++ [QTime w]) as Hq3 by reflexivity.
  assert (wall e3 = ws) as Hw3 by reflexivity.
  clearbody s3 e3.
  destruct (wait (S fuel) s3 e3) as [[s4 e4] finished] eqn:Ewait.
  destruct (wait_keeps _ _ _ _ _ _ Ewait) as (Hb4 & Hq4 & _ & Hw4).
  destruct (negb finished); [| destruct (is_msg "q" (msg s4))]; cbn [fst].
  - exists O. rewrite Hb4, Hq4, Hb3, Hq3. cbn. auto.
  - exists O. rewrite Hb4, Hq4, Hb3, Hq3. cbn. auto.
  - destruct (stamps_follow_triggers fuel s4 e4) as (k & Hb & Hq & _).
    exists k. rewrite Hb, Hq, Hb4, Hq4, Hb3, Hq3, Hw4, Hw3, <- !app_assoc.
    cbn. auto.
Qed.

Lemma run_fires_at_once_witness :
  exists k,
    qfileio (fst (trigger_loop 2 (start 1 100)
                    {| perf := [100.1; 100.2; 100.3; 100.4]%float;
                       wall := [1591012800.5]%float;
                       mail := [Some (lit "r")] |}))
    = qfileio (start 1 100) ++ QTime 1591012800.5 :: map QTime (firstn k []).
Proof.
  destruct (run_fires_at_once 0 (start 1 100)
              {| perf := [100.1; 100.2; 100.3; 100.4]%float;
                 wall := [1591012800.5]%float;
                 mail := [Some (lit "r")] |}
              100.1 100.2 100.3 [100.4]%float 1591012800.5 [] []
              eq_refl eq_refl eq_refl eq_refl eq_refl) as (k & _ & Hq).
  exists k. exact Hq.
Defined.

Lemma wait_quit (j : nat) :
  forall (fuel : nat) (s : t) (e : env) (ms : list mailpoll),
    (j < fuel)%nat -> is_msg "r" (msg s) = false ->
    mail e = repeat None j ++ Some (lit "q") :: ms ->
    (j < length (perf e))%nat ->
    wait fuel s e
    = (set_msg s (lit "q"),
       {| perf := skipn (S j) (perf e); wall := wall e; mail := ms |}, true).
Proof.
  induction j as [| j IH]; intros fuel s e ms Hfuel Hmsg Hmail Hperf.
  - destruct fuel as [| fuel]; [lia |]. cbn [wait].
    destruct (perf e) as [| now ps]; [cbn in Hperf; lia |].
    rewrite Hmsg. cbn [negb]. rewrite orb_true_r, Hmail. cbn [repeat app].
    change (is_msg "r" (lit "q")) with false.
    change (is_msg "q" (lit "q")) with true. cbn iota. reflexivity.
  - destruct fuel as [| fuel]; [lia |]. cbn [wait].
    destruct (perf e) as [| now ps]; [cbn in Hperf; lia |].
    rewrite Hmsg. cbn [negb]. rewrite orb_true_r, Hmail. cbn [repeat app].
    rewrite (IH fuel s _ ms); cbn [mail perf wall]; try reflexivity; try assumption.
    + lia.
    + cbn in Hperf. lia.
Qed.

(** X15: A halted trigger task honours ['q']: when the message turns up at
    its [j]+1-st poll, the task ends there without having triggered or
    stamped anything. *)
Theorem halted_trigger_quits (fuel j : nat) (s : t) (e : env)
    (ms : list mailpoll) :
  (j < fuel)%nat -> is_msg "r" (msg s) = false ->
  mail e = repeat None j ++ Some (lit "q") :: ms ->
  (j < length (perf e))%nat ->
  trigger_loop fuel s e = (set_msg s (lit "q"), false).
Proof.
  intros Hfuel Hmsg Hmail Hperf.
  destruct fuel as [| fuel]; [lia |]. cbn [trigger_loop].
  rewrite Hmsg, (wait_quit j (S fuel) s e ms Hfuel Hmsg Hmail Hperf).
  reflexivity.
Qed.

Lemma halted_trigger_quits_witness :
  trigger_loop 4 (start 1 100)
    {| perf := [100.1; 100.3; 100.4]%float; wall := [];
       mail := [None; None; Some (lit "q")] |}
  = (set_msg (start 1 100) (lit "q"), false).
Proof.
  apply (halted_trigger_quits 4 2 (start 1 100)
           {| perf := [100.1; 100.3; 100.4]%float; wall := [];
              mail := [None; None; Some (lit "q")] |} []);
    [lia | reflexivity | reflexivity | cbn; lia].
Defined.

End TriggerMore.

(** ** Further properties of the framework's creation, broadcasts and teardown *)

Module LifecycleMore.
Import Ti2c Statements Terms framework.









(** An empty slot before a configured one: the loop raises. *)
Example absent_before_present_raises :
  instantiate (keyed_from 0 [entry_absent; entry_present]) [] [] = Raised.
Proof. reflexivity. Qed.


Lemma put_at_spec (qmsg : list (list str)) (i : nat) (m : str) :
  (i < length qmsg)%nat ->
  exists qmsg',
    put_at qmsg i m = Some qmsg' /\ length qmsg' = length qmsg /\
    forall j, nth j qmsg' [] = if (j =? i)%nat then nth j qmsg [] ++ [m]
                               else nth j qmsg [].
Proof.
  intros Hi. unfold put_at.
  destruct (nth_error qmsg i) as [q |] eqn:Eq;
    [| apply nth_error_None in Eq; lia].
  eexists. split; [reflexivity |]. split.
  - rewrite length_app, length_firstn. cbn [length]. rewrite length_skipn. lia.
  - intros j. destruct (Nat.eqb_spec j i) as [-> | Hne].
    + rewrite app_nth2; rewrite length_firstn; [| lia].
      replace (i - Nat.min i (length qmsg))%nat with O by lia. cbn [nth].
      rewrite (nth_error_nth _ _ _ Eq). reflexivity.
    + destruct (Nat.lt_ge_cases j i) as [Hlt | Hge].
      * rewrite app_nth1 by (rewrite length_firstn; lia).
        rewrite nth_firstn. destruct (Nat.ltb_spec j i); [reflexivity | lia].
      * rewrite app_nth2; rewrite length_firstn; [| lia].
        replace (j - Nat.min i (length qmsg))%nat with (S (j - S i)) by lia.
        cbn [nth]. rewrite nth_skipn. f_equal. lia.
Qed.

Lemma put_each_spec (m : str) (k : nat) :
  forall (a : nat) (qmsg : list (list str)),
    (a + k <= length qmsg)%nat ->
    exists qmsg',
      put_each qmsg (seq a k) m = Some qmsg' /\ length qmsg' = length qmsg /\
      forall j, nth j qmsg' [] = if (a <=? j)%nat && (j <? a + k)%nat
                                 then nth j qmsg [] ++ [m]
                                 else nth j qmsg [].
Proof.
  induction k as [| k IH]; intros a qmsg Hlen.
  - exists qmsg. split; [reflexivity |]. split; [reflexivity |].
    intros j. destruct (Nat.leb_spec a j); destruct (Nat.ltb_spec j (a + 0));
      cbn [andb]; try reflexivity; lia.
  - cbn [seq put_each].
    destruct (put_at_spec qmsg a m ltac:(lia)) as (q1 & Hput & Hl1 & Hn1).
    rewrite Hput.
    destruct (IH (S a) q1 ltac:(lia)) as (q2 & Hrun & Hl2 & Hn2).
    exists q2. split; [exact Hrun |]. split; [lia |].
    intros j. rewrite Hn2, Hn1.
    destruct (Nat.eqb_spec j a); destruct (Nat.leb_spec (S a) j);
      destruct (Nat.leb_spec a j); destruct (Nat.ltb_spec j (S a + k));
      destruct (Nat.ltb_spec j (a + S k)); cbn [andb]; try reflexivity; lia.
Qed.

(** X18: Pausing and then resuming the display updates appends halt and run,
    in that order, to the mailbox of every display task and leaves the
    mailboxes of the acquisition tasks, of the Log Merge task and of the
    Global Trigger task exactly as they were. *)
Theorem display_pause_touches_displays_only (n : nat) (qmsg : list (list str)) :
  length qmsg = (n * 2 + 2)%nat ->
  exists q1 q2,
    pausedisplayupdates n qmsg = Some q1 /\
    resumedisplayupdates n q1 = Some q2 /\
    length q2 = length qmsg /\
    forall i, nth i q2 [] = if is_display_mailbox n i
                            then nth i qmsg [] ++ [lit "h"; lit "r"]
                            else nth i qmsg [].
Proof.
  intros Hlen. unfold pausedisplayupdates, resumedisplayupdates.
  destruct (put_each_spec (lit "h") (n * 2 - n) n qmsg ltac:(lia))
    as (q1 & Hp & Hl1 & Hn1).
  destruct (put_each_spec (lit "r") (n * 2 - n) n q1 ltac:(lia))
    as (q2 & Hr & Hl2 & Hn2).
  exists q1, q2. split; [exact Hp |]. split; [exact Hr |]. split; [lia |].
  intros i. rewrite Hn2, Hn1. unfold is_display_mailbox.
  replace (n + (n * 2 - n))%nat with (n * 2)%nat by lia.
  destruct ((n <=? i)%nat && (i <? n * 2)%nat); [| reflexivity].
  rewrite <- app_assoc. reflexivity.
Qed.

Lemma display_pause_touches_displays_only_witness :
  exists q1 q2,
    pausedisplayupdates 1 [[]; []; [lit "r"]; []] = Some q1 /\
    resumedisplayupdates 1 q1 = Some q2 /\
    nth 2 q2 [] = [lit "r"] /\ nth 1 q2 [] = [lit "h"; lit "r"].
Proof.
  destruct (display_pause_touches_displays_only 1 [[]; []; [lit "r"]; []] eq_refl)
    as (q1 & q2 & Hp & Hr & _ & Hn).
  exists q1, q2. split; [exact Hp |]. split; [exact Hr |].
  split; [exact (Hn 2%nat) | exact (Hn 1%nat)].
Defined.

End LifecycleMore.

(** ** Further properties of the teardown *)

Module TeardownMore.
Import Statements Terms appconfig.

Lemma count_app {A : Type} (p : A -> bool) (l l' : list A) :
  length (filter p (l ++ l')) = (length (filter p l) + length (filter p l'))%nat.
Proof. rewrite filter_app, length_app. reflexivity. Qed.

Lemma count_none {A : Type} (p : A -> bool) (l : list A) :
  (forall a, In a l -> p a = false) -> length (filter p l) = O.
Proof.
  induction l as [| a l IH]; intros H; [reflexivity |].
  cbn [filter]. rewrite (H a (or_introl eq_refl)). apply IH.
  intros b Hb. apply H. right. exact Hb.
Qed.

Lemma count_map_seq {A : Type} (p : A -> bool) (f : nat -> A) (i k : nat) :
  (forall j, p (f j) = (j =? i)%nat) ->
  forall a,
    length (filter p (map f (seq a k)))
    = if (a <=? i)%nat && (i <? a + k)%nat then 1%nat else O.
Proof.
  intros Hp. induction k as [| k IH]; intros a.
  - cbn [seq map filter length].
    destruct (Nat.leb_spec a i); destruct (Nat.ltb_spec i (a + 0));
      cbn [andb]; try reflexivity; lia.
  - cbn [seq map filter]. rewrite Hp.
    destruct (Nat.eqb_spec a i) as [-> | Hne]; cbn [length]; rewrite IH.
    + destruct (Nat.leb_spec (S i) i); [lia |].
      destruct (Nat.leb_spec i i); [| lia].
      destruct (Nat.ltb_spec i (i + S k)); [| lia]. reflexivity.
    + destruct (Nat.leb_spec (S a) i); destruct (Nat.leb_spec a i);
        destruct (Nat.ltb_spec i (S a + k)); destruct (Nat.ltb_spec i (a + S k));
        cbn [andb]; try reflexivity; lia.
Qed.

(** The actions of a teardown that returns, in program order. *)
Lemma endsensorframework_done (fuel n : nat) (observe : nat -> nat -> bool)
    (now : float) (done : list action) :
  endsensorframework fuel n observe now = Some done ->
  exists polls,
    forallb is_poll polls = true /\
    done = [PutMsg (n * 2) (lit "q")]
           ++ polls
           ++ map (fun i => PutFile i sentinel) (seq 0 n)
           ++ [PutFile n (QTime now)]
           ++ [Join Tlogger]
           ++ map (fun q => PutMsg q (lit "q")) (seq n (n * 2 - n))
           ++ flat_map (fun q => [PutDisplay q (VInt 0); PutDisplay q (VInt 0)])
                       (seq 0 n)
           ++ map (fun i => Join (Tdisplay i)) (seq 0 n)
           ++ map (fun q => PutMsg q (lit "q")) (seq 0 n)
           ++ map (fun i => Join (Tbackend i)) (seq 0 n)
           ++ [PutMsg (n * 2 + 1) (lit "q")]
           ++ [Join Ttrigger]
           ++ [DelQueues].
Proof.
  unfold endsensorframework.
  destruct (await_drained fuel n observe 0) as [polls |] eqn:E; [| discriminate].
  intros H. inversion H. exists polls.
  split; [exact (TeardownFacts.await_drained_polls _ _ _ _ _ E) |].
  rewrite <- !app_assoc. reflexivity.
Qed.

Lemma polls_in (polls : list action) (a : action) :
  forallb is_poll polls = true -> In a polls -> exists i r, a = Empty i r.
Proof.
  intros H Ha. rewrite forallb_forall in H. specialize (H a Ha).
  destruct a; try discriminate. eauto.
Qed.

Lemma dummies_pairs (p : action -> bool) (i : nat) (k : nat) :
  (forall j v, p (PutDisplay j v) = (j =? i)%nat) ->
  forall a,
    length (filter p (flat_map (fun q => [PutDisplay q (VInt 0); PutDisplay q (VInt 0)])
                               (seq a k)))
    = if (a <=? i)%nat && (i <? a + k)%nat then 2%nat else O.
Proof.
  intros Hp. induction k as [| k IH]; intros a.
  - cbn [seq flat_map filter length].
    destruct (Nat.leb_spec a i); destruct (Nat.ltb_spec i (a + 0));
      cbn [andb]; try reflexivity; lia.
  - cbn [seq flat_map app filter]. rewrite !Hp.
    destruct (Nat.eqb_spec a i) as [-> | Hne]; cbn [length]; rewrite IH.
    + destruct (Nat.leb_spec (S i) i); [lia |].
      destruct (Nat.leb_spec i i); [| lia].
      destruct (Nat.ltb_spec i (i + S k)); [| lia]. reflexivity.
    + destruct (Nat.leb_spec (S a) i); destruct (Nat.leb_spec a i);
        destruct (Nat.ltb_spec i (S a + k)); destruct (Nat.ltb_spec i (a + S k));
        cbn [andb]; try reflexivity; lia.
Qed.

Ltac count_zero :=
  intros a Ha;
  repeat match goal with
         | H : In _ (map _ _) |- _ => apply in_map_iff in H as (? & <- & ?)
         | H : In _ (flat_map _ _) |- _ =>
             apply in_flat_map in H as (? & ? & [<- | [<- | []]])
         | H : In _ [_] |- _ => destruct H as [<- | []]
         end;
  try reflexivity.

(** X19: A teardown that returns has reached every task once: each of the
    2n+2 mailboxes has been sent ['q'] exactly once and the thread that
    reads it joined exactly once, and every display queue has been given
    exactly two dummy items, one whole pair. *)
Theorem teardown_reaches_every_task (fuel n : nat) (observe : nat -> nat -> bool)
    (now : float) (done : list action) (i : nat) :
  endsensorframework fuel n observe now = Some done ->
  (i < n * 2 + 2)%nat ->
  quits_to i done = 1%nat /\
  joins_of (owner n i) done = 1%nat /\
  ((i < n)%nat -> dummies_to i done = 2%nat).
Proof.
  intros Hrun Hi.
  destruct (endsensorframework_done _ _ _ _ _ Hrun) as (polls & Hpolls & ->).
  split; [| split].
  - unfold quits_to. rewrite !count_app.
    rewrite (count_none _ polls)
      by (intros a Ha; destruct (polls_in _ _ Hpolls Ha) as (j & r & ->);
          reflexivity).
    rewrite (count_none _ (map (fun i => PutFile i sentinel) (seq 0 n)))
      by count_zero.
    rewrite (count_none _ (flat_map _ _)) by count_zero.
    rewrite (count_none _ (map (fun i => Join (Tdisplay i)) _)) by count_zero.
    rewrite (count_none _ (map (fun i => Join (Tbackend i)) _)) by count_zero.
    rewrite !(count_map_seq _ (fun q => PutMsg q (lit "q")) i)
      by (intros j; cbn; apply andb_true_r).
    cbn [filter length Nat.add].
    change (is_msg "q" (lit "q")) with true. rewrite !andb_true_r.
    destruct (Nat.eqb_spec (n * 2) i); destruct (Nat.eqb_spec (n * 2 + 1) i);
      destruct (Nat.leb_spec n i); destruct (Nat.ltb_spec i (n + (n * 2 - n)));
      destruct (Nat.leb_spec 0 i); destruct (Nat.ltb_spec i n);
      cbn [andb length Nat.add]; lia.
  - unfold joins_of, owner. rewrite !count_app.
    rewrite (count_none _ polls)
      by (intros a Ha; destruct (polls_in _ _ Hpolls Ha) as (j & r & ->);
          reflexivity).
    rewrite (count_none _ (map (fun i => PutFile i sentinel) (seq 0 n)))
      by count_zero.
    rewrite (count_none _ (flat_map _ _)) by count_zero.
    rewrite (count_none _ (map (fun q => PutMsg q (lit "q")) (seq n _)))
      by count_zero.
    rewrite (count_none _ (map (fun q => PutMsg q (lit "q")) (seq 0 n)))
      by count_zero.
    cbn [filter length Nat.add].
    destruct (Nat.ltb_spec i n) as [Hb | Hb];
      [| destruct (Nat.ltb_spec i (n * 2)) as [Hd | Hd];
         [| destruct (Nat.eqb_spec i (n * 2)) as [Hl | Hl]]].
    + rewrite (count_none _ (map (fun i => Join (Tdisplay i)) _)) by count_zero.
      rewrite (count_map_seq _ (fun j => Join (Tbackend j)) i)
        by (intros j; reflexivity).
      cbn [thread_eqb filter length Nat.add].
      destruct (Nat.leb_spec 0 i); destruct (Nat.ltb_spec i n);
        cbn [andb]; lia.
    + rewrite (count_none _ (map (fun i => Join (Tbackend i)) _)) by count_zero.
      rewrite (count_map_seq _ (fun j => Join (Tdisplay j)) (i - n))
        by (intros j; reflexivity).
      cbn [thread_eqb filter length Nat.add].
      destruct (Nat.leb_spec 0 (i - n)); destruct (Nat.ltb_spec (i - n) n);
        cbn [andb]; lia.
    + rewrite (count_none _ (map (fun i => Join (Tdisplay i)) _)) by count_zero.
      rewrite (count_none _ (map (fun i => Join (Tbackend i)) _)) by count_zero.
      reflexivity.
    + rewrite (count_none _ (map (fun i => Join (Tdisplay i)) _)) by count_zero.
      rewrite (count_none _ (map (fun i => Join (Tbackend i)) _)) by count_zero.
      reflexivity.
  - intros Hin. unfold dummies_to. rewrite !count_app.
    rewrite (count_none _ polls)
      by (intros a Ha; destruct (polls_in _ _ Hpolls Ha) as (j & r & ->);
          reflexivity).
    rewrite (count_none _ (map (fun i => PutFile i sentinel) (seq 0 n)))
      by count_zero.
    rewrite (count_none _ (map (fun i => Join (Tdisplay i)) _)) by count_zero.
    rewrite (count_none _ (map (fun i => Join (Tbackend i)) _)) by count_zero.
    rewrite (count_none _ (map (fun q => PutMsg q (lit "q")) (seq n _)))
      by count_zero.
    rewrite (count_none _ (map (fun q => PutMsg q (lit "q")) (seq 0 n)))
      by count_zero.
    rewrite (dummies_pairs _ i) by (intros j v; reflexivity).
    cbn [filter length Nat.add].
    destruct (Nat.leb_spec 0 i); destruct (Nat.ltb_spec i n);
      cbn [andb]; lia.
Qed.

Lemma teardown_reaches_every_task_witness :
  exists done,
    endsensorframework 1 2 (fun _ _ => true) 0%float = Some done /\
    quits_to 3 done = 1%nat /\ joins_of (Tdisplay 1) done = 1%nat.
Proof.
  eexists. split; [reflexivity |].
  destruct (teardown_reaches_every_task 1 2 (fun _ _ => true) 0%float _ 3
              eq_refl ltac:(lia)) as (Hq & Hj & _).
  split; [exact Hq | exact Hj].
Defined.

Lemma await_drained_range (fuel n : nat) (observe : nat -> nat -> bool) :
  forall k polls,
    await_drained fuel n observe k = Some polls ->
    Forall (in_range n) polls.
Proof.
  induction fuel as [| fuel IH]; intros k polls H; [discriminate |].
  cbn [await_drained] in H. unfold sweep in H.
  assert (Forall (in_range n)
                 (map (fun i => Empty i (observe k i)) (seq 0 n ++ [n]))) as Hs.
  { apply Forall_forall. intros a Ha.
    apply in_map_iff in Ha as (i & <- & Hi).
    cbn [in_range framework.allocate framework.qfileio].
    rewrite repeat_length.
    apply in_app_iff in Hi as [Hi | [<- | []]]; [apply in_seq in Hi |]; lia. }
  destruct (forallb (observe k) (seq 0 n ++ [n])).
  - inversion H. subst. exact Hs.
  - destruct (await_drained fuel n observe (S k)) as [rest |] eqn:E;
      [| discriminate].
    inversion H. subst. apply Forall_app. split; [exact Hs | eapply IH, E].
Qed.

(** X20: The teardown stays inside the queues the framework allocated: every
    mailbox, log-queue and display-queue index it uses exists. *)
Theorem teardown_indices_in_range (fuel n : nat) (observe : nat -> nat -> bool)
    (now : float) (done : list action) :
  endsensorframework fuel n observe now = Some done ->
  Forall (in_range n) done.
Proof.
  intros Hrun.
  assert (exists polls, await_drained fuel n observe 0 = Some polls) as [polls E].
  { unfold endsensorframework in Hrun.
    destruct (await_drained fuel n observe 0); [eauto | discriminate]. }
  pose proof (await_drained_range _ _ _ _ _ E) as Hpolls.
  unfold endsensorframework in Hrun. rewrite E in Hrun. cbv zeta in Hrun.
  inversion Hrun. subst done. clear Hrun.
  apply Forall_cons;
    [cbn [in_range framework.allocate framework.qmsg];
     rewrite repeat_length; lia |].
  rewrite !Forall_app. repeat split; try exact Hpolls;
    apply Forall_forall; intros a Ha;
    repeat match goal with
           | H : In _ (map _ _) |- _ => apply in_map_iff in H as (? & <- & H)
           | H : In _ (flat_map _ _) |- _ =>
               apply in_flat_map in H as (? & H & [<- | [<- | []]])
           | H : In _ (seq _ _) |- _ => apply in_seq in H
           | H : In _ [_] |- _ => destruct H as [<- | []]
           end;
    cbn [in_range framework.allocate framework.qfileio framework.qdisplay
           framework.qmsg];
    rewrite ?repeat_length; try exact I; lia.
Qed.

Lemma teardown_indices_in_range_witness :
  Forall (in_range 1)
    [PutMsg 2 (lit "q"); Empty 0 true; Empty 1 true; PutFile 0 sentinel;
     PutFile 1 (QTime 0%float); Join Tlogger; PutMsg 1 (lit "q");
     PutDisplay 0 (VInt 0); PutDisplay 0 (VInt 0); Join (Tdisplay 0);
     PutMsg 0 (lit "q"); Join (Tbackend 0); PutMsg 3 (lit "q");
     Join Ttrigger; DelQueues].
Proof.
  apply (teardown_indices_in_range 1 1 (fun _ _ => true) 0%float). reflexivity.
Defined.

End TeardownMore.

(** ** Properties of jtlog.py *)

Module JtlogMore.
Import Ti2c Statements Terms jtlog.

Lemma options_accepted (acks : Z -> bool) (args : list Z) :
  (forall x, acks x = true) -> Forall (fun a => 1 <= a <= 4) args ->
  forall (k : nat) (sensor : list tempsensor),
    length sensor = k -> (k + length args <= 9)%nat ->
    exists built,
      map Some built = option_sensors k args /\
      sensor_options acks args (Z.of_nat k) sensor = Done (sensor ++ built).
Proof.
  intros Hacks Hargs. induction Hargs as [| arg args Harg _ IH];
    intros k sensor Hk Hlen.
  - exists []. cbn. rewrite app_nil_r. auto.
  - cbn [length] in Hlen. cbn [sensor_options option_sensors].
    unfold maxsensors, cfgmodes, option_sensor.
    destruct (Z.gtb_spec (Z.of_nat (length sensor)) 8); [lia |].
    destruct (Z.leb_spec 1 arg); [| lia].
    destruct (Z.ltb_spec arg (4 + 1)); [| lia]. cbn [andb].
    destruct (Ti2cFacts.init_some (Z.of_nat k) (arg - 1) 0 ltac:(lia)) as [t Ht].
    rewrite Ht, Hacks.
    destruct (IH (S k) (sensor ++ [t])) as (built & Hb & Hrun).
    + rewrite length_app. cbn. lia.
    + lia.
    + exists (t :: built). cbn [map]. rewrite Hb. split; [reflexivity |].
      replace (Z.of_nat k + 1) with (Z.of_nat (S k)) by lia.
      rewrite Hrun, <- app_assoc. reflexivity.
Qed.

Lemma options_rejected (acks : Z -> bool) (args : list Z) :
  (forall x, acks x = true) -> Forall (fun a => 1 <= a <= 4) args ->
  forall (k : nat) (sensor : list tempsensor),
    length sensor = k -> (k <= 9)%nat -> (10 <= k + length args)%nat ->
    sensor_options acks args (Z.of_nat k) sensor = Raised.
Proof.
  intros Hacks Hargs. induction Hargs as [| arg args Harg _ IH];
    intros k sensor Hk Hk9 Hlen.
  - cbn in Hlen. lia.
  - cbn [length] in Hlen. cbn [sensor_options]. unfold maxsensors, cfgmodes.
    destruct (Z.gtb_spec (Z.of_nat (length sensor)) 8); [reflexivity |].
    destruct (Z.leb_spec 1 arg); [| lia].
    destruct (Z.ltb_spec arg (4 + 1)); [| lia]. cbn [andb].
    destruct (Ti2cFacts.init_some (Z.of_nat k) (arg - 1) 0 ltac:(lia)) as [t Ht].
    rewrite Ht, Hacks.
    replace (Z.of_nat k + 1) with (Z.of_nat (S k)) by lia.
    apply IH; [rewrite length_app; cbn; lia | lia | lia].
Qed.

Lemma option_sensor_address (p : nat) (arg : Z) :
  (p <= 8)%nat -> 1 <= arg <= 4 ->
  exists t,
    option_sensor p arg = Some t /\ mode t = arg - 1 /\
    address t = if (p <? 8)%nat then 0x68 + Z.of_nat p else 0.
Proof.
  intros Hp Harg. unfold option_sensor.
  destruct (Ti2cFacts.init_some (Z.of_nat p) (arg - 1) 0 ltac:(lia)) as [t Ht].
  exists t. split; [exact Ht |].
  destruct (Ti2cFacts.init_inv _ _ _ _ Ht) as (cfg & sl & ic & _ & _ & ->).
  cbn [mode address]. split; [reflexivity |].
  do 9 (destruct p as [| p]; [reflexivity |]). lia.
Qed.

(** X21: The [-s] options of the command-line logger, when every device
    acknowledges its configuration write: up to nine options naming a
    mode 1..4 are accepted, one more than [maxsensors]; the sensor of the
    option at position p gets the mode given minus one and the address
    0x68 + p for p below 8, and the ninth gets address 0, the general
    call address; with ten or more options the program exits. *)
Theorem ninth_sensor_accepted (acks : Z -> bool) (args : list Z) :
  (forall x, acks x = true) -> Forall (fun a => 1 <= a <= 4) args ->
  ((length args <= 9)%nat ->
   exists sensors,
     sensor_options acks args 0 [] = Done sensors /\
     map Some sensors = option_sensors 0 args) /\
  ((10 <= length args)%nat -> sensor_options acks args 0 [] = Raised) /\
  (forall p arg, (p <= 8)%nat -> 1 <= arg <= 4 ->
     exists t,
       option_sensor p arg = Some t /\ mode t = arg - 1 /\
       address t = if (p <? 8)%nat then 0x68 + Z.of_nat p else 0).
Proof.
  intros Hacks Hargs. split; [| split].
  - intros Hlen.
    destruct (options_accepted acks args Hacks Hargs 0 [] eq_refl Hlen)
      as (built & Hb & Hrun).
    exists built. split; [exact Hrun | exact Hb].
  - intros Hlen.
    apply (options_rejected acks args Hacks Hargs 0 [] eq_refl); lia.
  - exact option_sensor_address.
Qed.

Lemma ninth_sensor_accepted_witness :
  exists sensors,
    sensor_options (fun _ => true) [4; 4; 4; 4; 4; 4; 4; 4; 1] 0 [] = Done sensors /\
    map Some sensors = option_sensors 0 [4; 4; 4; 4; 4; 4; 4; 4; 1] /\
    exists t, option_sensor 8 1 = Some t /\ address t = 0.
Proof.
  destruct (ninth_sensor_accepted (fun _ => true) [4; 4; 4; 4; 4; 4; 4; 4; 1])
    as (Hacc & _ & Hadr).
  - reflexivity.
  - repeat (constructor; [lia |]). constructor.
  - destruct (Hacc ltac:(cbn; lia)) as (sensors & Hrun & Hb).
    exists sensors. split; [exact Hrun |]. split; [exact Hb |].
    destruct (Hadr 8%nat 1 ltac:(lia) ltac:(lia)) as (t & Ht & _ & Ha).
    exists t. split; [exact Ht | exact Ha].
Defined.

(** X22: The down counters of the command-line logger: for any two modes of
    the table, a sensor in the slower one is read on the first pass and
    then once every fast/slow passes, that is every 2^(Wslow - Wfast)
    passes, when the loop runs at the faster one's rate. *)
Theorem slower_sensor_read_every_ratio (fast slow : modecfg) :
  In fast mcp3421 -> In slow mcp3421 ->
  (samplerate slow <=? samplerate fast)%float = true ->
  let r := Z.to_nat (2 ^ (resolution slow - resolution fast)) in
  downcount_passes (r + 1) (samplerate fast / samplerate slow)%float 1%float
  = once_every r.
Proof.
  intros Hf Hs.
  repeat (destruct Hf as [<- | Hf]); [| | | | destruct Hf];
    (repeat (destruct Hs as [<- | Hs]); [| | | | destruct Hs]);
    intros Hle; try (vm_compute in Hle; discriminate Hle);
    vm_compute; reflexivity.
Qed.

Lemma slower_sensor_read_every_ratio_witness :
  downcount_passes (64 + 1) (240 / 3.75)%float 1%float = once_every 64.
Proof.
  apply (slower_sensor_read_every_ratio mode12 mode18);
    [cbn; tauto | cbn; tauto | reflexivity].
Defined.

End JtlogMore.
